(** * Gupshup: membership, fan-out and reconciliation, verified over a shallow embedding

    The development follows the TypeScript sources: the data model of
    [src/types/db.d.ts], the route handlers under [src/app/api], the chat page
    and dashboard layout, and the client components [SidebarChatList] and
    [Messages].  Identifiers are JavaScript strings, timestamps are
    millisecond counts (integers, modelled in [Z]). *)

From Stdlib Require Import ZArith Ascii String List Bool Lia Permutation Sorted.
From stdpp Require Import gmap strings list fin_maps.
Import ListNotations.
Local Open Scope string_scope.
Local Open Scope Z_scope.

(** ** Data model ([src/types/db.d.ts], [src/lib/validations/message.ts]) *)

Module User.
Record t := mk { name : string; email : string; image : string; id : string }.
End User.

Module Chat.
(** [createdAt] is optional: only explicitly created chats carry it. *)
Record t := mk {
  id : string;
  name : string;
  memberIds : list string;
  createdAt : option Z
}.
End Chat.

Module Message.
Record t := mk {
  id : string;
  chatId : string;
  senderId : string;
  text : string;
  timestamp : Z
}.
End Message.

#[global] Instance User_eq_dec : EqDecision User.t.
Proof. solve_decision. Defined.
#[global] Instance Chat_eq_dec : EqDecision Chat.t.
Proof. solve_decision. Defined.
#[global] Instance Message_eq_dec : EqDecision Message.t.
Proof. solve_decision. Defined.

(** ** JavaScript primitives used by the handlers *)

(** [a === b] on strings. *)
Definition streq (a b : string) : bool := String.eqb a b.

(** [arr.includes(x)] on an array of strings. *)
Definition includes (arr : list string) (x : string) : bool :=
  existsb (streq x) arr.

(** [arr.findIndex(p)]: the first index whose element satisfies [p];
    JavaScript's [-1] is [None]. *)
Fixpoint findIndex {A} (p : A -> bool) (arr : list A) : option nat :=
  match arr with
  | [] => None
  | x :: rest => if p x then Some 0%nat else S <$> findIndex p rest
  end.

(** [!s] on a string: only the empty string is falsy. *)
Definition falsy (s : string) : bool := streq s "".

(** [o || 0] on an optional number ([null], [undefined] and [0] all give [0]). *)
Definition orZero (o : option Z) : Z := default 0 o.

(** [o || null] on an optional number: [0] is falsy and becomes [null]. *)
Definition orNull (o : option Z) : option Z :=
  match o with
  | Some 0 => None
  | _ => o
  end.

(** [s.split("--")]: cut at every occurrence of the separator, scanning
    left to right; the result always has at least one element. *)
Fixpoint split_dashes (cur s : string) : list string :=
  match s with
  | EmptyString => [cur]
  | String c rest =>
      match rest with
      | String c' rest' =>
          if Ascii.eqb c "-" && Ascii.eqb c' "-"
          then cur :: split_dashes "" rest'
          else split_dashes (cur ++ String c "") rest
      | EmptyString => split_dashes (cur ++ String c "") rest
      end
  end.

Definition split (s : string) : list string := split_dashes "" s.

(** The reserved chat name. *)
Definition SENTINEL : string := "Direct message".

(** ** Classification, as each call site writes it *)

Module Classify.

(** [remove-member/route.ts], [SidebarChatList.tsx] and the layout:
    [chat.memberIds.length === 2 && chat.name === "Direct message"]. *)
Definition isIndividualChat (chat : Chat.t) : bool :=
  (length (Chat.memberIds chat) =? 2)%nat && streq (Chat.name chat) SENTINEL.

(** The chat page: [participants] is [chat.memberIds.map(...)], so
    [participants.length] is the member count. *)
Definition isTwoPersonChat (chat : Chat.t) : bool :=
  (length (Chat.memberIds chat) =? 2)%nat && streq (Chat.name chat) SENTINEL.

(** The chat page:
    [participants.length > 2 ||
     (participants.length >= 1 && chat.name !== "Direct message")]. *)
Definition isGroupChat (chat : Chat.t) : bool :=
  (2 <? length (Chat.memberIds chat))%nat
  || ((1 <=? length (Chat.memberIds chat))%nat
      && negb (streq (Chat.name chat) SENTINEL)).

(** The sidebar handlers: [const isGroupChat = !isIndividualChat]. *)
Definition sidebarIsGroupChat (chat : Chat.t) : bool :=
  negb (isIndividualChat chat).

(** The predicate of the dashboard layout's group view filter. *)
Definition layoutIsGroup (chat : Chat.t) : bool :=
  if isIndividualChat chat then false
  else (2 <? length (Chat.memberIds chat))%nat
       || ((1 <=? length (Chat.memberIds chat))%nat
           && negb (streq (Chat.name chat) SENTINEL)).


End Classify.

(** ** The message list of [Messages] (client) *)

Inductive Status := pending | sent | failed.

#[global] Instance Status_eq_dec : EqDecision Status.
Proof. solve_decision. Defined.

Module ExtendedMessage.
(** [interface ExtendedMessage extends Message]: the optional [status]
    and [tempId] are [None] when the property is absent. *)
Record t := mk {
  id : string;
  chatId : string;
  senderId : string;
  text : string;
  timestamp : Z;
  status : option Status;
  tempId : option string
}.

(** [{ ...message, status }] for a [Message] received from the channel:
    the canonical payload has no [tempId]. *)
Definition ofMessage (message : Message.t) (st : Status) : t :=
  {| id := Message.id message;
     chatId := Message.chatId message;
     senderId := Message.senderId message;
     text := Message.text message;
     timestamp := Message.timestamp message;
     status := Some st;
     tempId := None |}.
End ExtendedMessage.

#[global] Instance ExtendedMessage_eq_dec : EqDecision ExtendedMessage.t.
Proof. solve_decision. Defined.

Module Messages.
Import ExtendedMessage.

(** [msg.status === "pending"]. *)
Definition isPending (msg : ExtendedMessage.t) : bool :=
  match status msg with
  | Some pending => true
  | _ => false
  end.

(** The predicate handed to [prev.findIndex] in [messageHandler]. *)
Definition isOptimisticFor (message : Message.t) (msg : ExtendedMessage.t) : bool :=
  isPending msg
  && streq (text msg) (Message.text message)
  && streq (senderId msg) (Message.senderId message)
  && (Z.abs (timestamp msg - Message.timestamp message) <? 2000)
  && negb (streq (id msg) (Message.id message)).

(** [messageHandler], the ["incoming-message"] handler bound on the
    channel of [chatId]: the state update passed to [setMessages],
    after the guard on [message.chatId]. *)
Definition messageHandler (chatId : string) (prev : list ExtendedMessage.t)
    (message : Message.t) : list ExtendedMessage.t :=
  if negb (streq (Message.chatId message) chatId) then prev
  else if existsb (fun msg => streq (id msg) (Message.id message)) prev then prev
  else
    match findIndex (isOptimisticFor message) prev with
    | Some optimisticMessageIndex =>
        <[optimisticMessageIndex := ofMessage message sent]> prev
    | None => ofMessage message sent :: prev
    end.

(** [handleOptimistic]: the sender's own record, shown before the server
    answers. *)
Definition handleOptimistic (prev : list ExtendedMessage.t)
    (message : ExtendedMessage.t) : list ExtendedMessage.t :=
  if existsb (fun msg => streq (id msg) (id message)
                         || bool_decide (tempId msg = tempId message)) prev
  then prev
  else {| id := id message; chatId := chatId message;
          senderId := senderId message; text := text message;
          timestamp := timestamp message; status := Some pending;
          tempId := tempId message |} :: prev.

End Messages.

(** ** The sidebar chat list of [SidebarChatList] (client) *)

Module Sidebar.

(** An element of [activeChats]. *)
Record Item := mkItem { chat : Chat.t; displayName : string }.

(** [viewType?: "chats" | "groups"]. *)
Inductive ViewType := chats | groups.

(** The payload [{ chatId, chat }] of [chat_updated] and [added_to_chat]. *)
Record ChatEvent := mkEvent { chatId : string; payload : Chat.t }.

(** [prev.some(({ chat }) => chat.id === id)]. *)
Definition chatExists (prev : list Item) (id : string) : bool :=
  existsb (fun item => streq (Chat.id (chat item)) id) prev.

(** [chatHandler] ([new_message]): the update of [activeChats]. *)
Definition chatHandler (sessionId : string) (viewType : option ViewType)
    (prev : list Item) (messageChatId messageSenderId messageSenderName : string)
    : list Item :=
  if chatExists prev messageChatId then prev
  else
    let newChat := {| Chat.id := messageChatId; Chat.name := SENTINEL;
                      Chat.memberIds := [sessionId; messageSenderId];
                      Chat.createdAt := None |} in
    match viewType with
    | Some groups => prev
    | _ => prev ++ [ {| chat := newChat; displayName := messageSenderName |} ]
    end.

(** [chatUpdateHandler] ([chat_updated]). *)
Definition chatUpdateHandler (prev : list Item) (data : ChatEvent) : list Item :=
  map (fun item =>
         if streq (Chat.id (chat item)) (chatId data) then
           let isIndividualChat := Classify.isIndividualChat (payload data) in
           let displayName' :=
             if isIndividualChat then displayName item
             else Chat.name (payload data) in
           {| chat := payload data; displayName := displayName' |}
         else item) prev.




End Sidebar.

(** ** The store and the broker, as the route handlers use them *)

(** What the sources import but this development does not define:
    [toPusherKey] of [@/lib/utils], [String.prototype.trim], and the order
    Redis gives to sorted-set members of equal score (the byte order of
    their serialisations). *)
Record Platform := {
  toPusherKey : string -> string;
  trim : string -> string;
  member_leb : Message.t -> Message.t -> bool
}.

Module Redis.

(** Redis keeps one key space; the model splits it by the type of value
    the key scheme stores: JSON chats under [chat:{id}], JSON users under
    [user:{id}], sets under [user:{id}:chats] and [user:{id}:friends],
    sorted sets under [chat:{id}:messages].  A missing set or sorted set
    is empty. *)
Record Db := mkDb {
  chats : gmap string Chat.t;
  users : gmap string User.t;
  sets : gmap string (gset string);
  zsets : gmap string (list (Z * Message.t))
}.

Definition chatKey (id : string) : string := "chat:" ++ id.
Definition userKey (id : string) : string := "user:" ++ id.
Definition userChatsKey (id : string) : string := "user:" ++ id ++ ":chats".
Definition userFriendsKey (id : string) : string := "user:" ++ id ++ ":friends".
Definition chatMessagesKey (id : string) : string := "chat:" ++ id ++ ":messages".

Definition smembers (d : Db) (key : string) : gset string :=
  default ∅ (sets d !! key).

(** [zrange key 0 -1]: the members in score order. *)
Definition zrange_all (d : Db) (key : string) : list Message.t :=
  map snd (default [] (zsets d !! key)).

(** [zrange key -1 -1]: the member of highest rank, if any. *)
Definition zrange_last (d : Db) (key : string) : option Message.t :=
  last (zrange_all d key).

Definition set (d : Db) (key : string) (c : Chat.t) : Db :=
  {| chats := <[key := c]> (chats d); users := users d;
     sets := sets d; zsets := zsets d |}.

Definition sadd (d : Db) (key member : string) : Db :=
  {| chats := chats d; users := users d;
     sets := <[key := {[member]} ∪ smembers d key]> (sets d);
     zsets := zsets d |}.

(** [srem]: a set that becomes empty is deleted with its key. *)
Definition srem (d : Db) (key member : string) : Db :=
  let rest := smembers d key ∖ {[member]} in
  {| chats := chats d; users := users d;
     sets := if decide (rest = ∅) then delete key (sets d)
             else <[key := rest]> (sets d);
     zsets := zsets d |}.

(** Position of a new entry: ascending score, ties by [member_leb]. *)
Fixpoint zinsert (P : Platform) (score : Z) (member : Message.t)
    (l : list (Z * Message.t)) : list (Z * Message.t) :=
  match l with
  | [] => [(score, member)]
  | (s, m) :: rest =>
      if (score <? s) || ((score =? s) && member_leb P member m)
      then (score, member) :: l
      else (s, m) :: zinsert P score member rest
  end.

Definition zdrop (member : Message.t) (l : list (Z * Message.t))
    : list (Z * Message.t) :=
  List.filter (fun e => negb (bool_decide (snd e = member))) l.

(** [zadd key {score, member}]: a member already present moves to the new
    score. *)
Definition zadd (P : Platform) (d : Db) (key : string) (score : Z)
    (member : Message.t) : Db :=
  {| chats := chats d; users := users d; sets := sets d;
     zsets := <[key := zinsert P score member
                         (zdrop member (default [] (zsets d !! key)))]>
                (zsets d) |}.

Definition zrem (d : Db) (key : string) (member : Message.t) : Db :=
  let rest := zdrop member (default [] (zsets d !! key)) in
  {| chats := chats d; users := users d; sets := sets d;
     zsets := match rest with
              | [] => delete key (zsets d)
              | _ => <[key := rest]> (zsets d)
              end |}.

End Redis.

(** ** Responses, broker events and the handler monad *)

Inductive Body :=
| Text (s : string)
| JsonChat (c : Chat.t)
| JsonMessage (m : Message.t).

(** [new Response(body, { status })]; the status defaults to 200. *)
Record Response := mkResponse { body : Body; status : Z }.

(** Event payloads handed to [pusherServer.trigger]. *)
Inductive Payload :=
| PMessage (m : Message.t)
| PMessageFrom (m : Message.t) (senderImg senderName : string)
| PChatEvent (chatId : string) (chat : Chat.t)
| PMemberRemoved (memberId : string) (chat : Chat.t)
| PRemovedFrom (chatId chatName : string)
| PChat (chat : Chat.t).

(** What a handler does to the outside, in the order it does it. *)
Inductive Effect :=
| DbSet (key : string) (c : Chat.t)
| DbSadd (key member : string)
| DbSrem (key member : string)
| DbZadd (key : string) (score : Z) (member : Message.t)
| DbZrem (key : string) (member : Message.t)
| Trigger (channel event : string) (payload : Payload).

Definition is_trigger (e : Effect) : bool :=
  match e with Trigger _ _ _ => true | _ => false end.

Definition is_write (e : Effect) : bool := negb (is_trigger e).

Record World := mkWorld { db : Redis.Db; log : list Effect }.

(** A handler threads the world and may leave early with a response
    ([return new Response(...)] in the middle of the function, or an
    exception caught by the route's [catch]). *)
Definition Handler (A : Type) : Type := World -> (Response + A) * World.

Definition ret {A} (a : A) : Handler A := fun w => (inr a, w).

Definition bind {A B} (c : Handler A) (k : A -> Handler B) : Handler B :=
  fun w =>
    match c w with
    | (inl r, w') => (inl r, w')
    | (inr a, w') => k a w'
    end.

Definition reply {A} (r : Response) : Handler A := fun w => (inl r, w).

Declare Scope handler_scope.
Delimit Scope handler_scope with handler.
Notation "x <- c ;; k" := (bind c (fun x => k))
  (at level 100, c at next level, right associativity) : handler_scope.
Notation "c ;; k" := (bind c (fun _ => k))
  (at level 100, right associativity) : handler_scope.

(** [if (cond) return r;] *)
Definition reply_if (cond : bool) (r : Response) : Handler unit :=
  if cond then reply r else ret tt.

(** An [Error] thrown inside [try]: the [catch] answers
    [new Response(error.message, { status: 500 })]. *)
Definition throw {A} (message : string) : Handler A :=
  reply {| body := Text message; status := 500 |}.

Definition read {A} (f : Redis.Db -> A) : Handler A :=
  fun w => (inr (f (db w)), w).

Definition perform (e : Effect) (f : Redis.Db -> Redis.Db) : Handler unit :=
  fun w => (inr tt, {| db := f (db w); log := log w ++ [e] |}).

Definition db_set (key : string) (c : Chat.t) : Handler unit :=
  perform (DbSet key c) (fun d => Redis.set d key c).
Definition db_sadd (key member : string) : Handler unit :=
  perform (DbSadd key member) (fun d => Redis.sadd d key member).
Definition db_srem (key member : string) : Handler unit :=
  perform (DbSrem key member) (fun d => Redis.srem d key member).
Definition db_zadd (P : Platform) (key : string) (score : Z) (member : Message.t)
    : Handler unit :=
  perform (DbZadd key score member) (fun d => Redis.zadd P d key score member).
Definition db_zrem (key : string) (member : Message.t) : Handler unit :=
  perform (DbZrem key member) (fun d => Redis.zrem d key member).
Definition trigger (channel event : string) (p : Payload) : Handler unit :=
  perform (Trigger channel event p) (fun d => d).

(** [await Promise.all(xs.map(f))] and spread arrays of calls: the calls
    are started in array order. *)
Fixpoint for_each {A} (f : A -> Handler unit) (xs : list A) : Handler unit :=
  match xs with
  | [] => ret tt
  | x :: rest => bind (f x) (fun _ => for_each f rest)
  end.

(** The response the route returns, and the world it leaves. *)
Definition run (h : Handler Response) (w : World) : Response * World :=
  match h w with
  | (inl r, w') => (r, w')
  | (inr r, w') => (r, w')
  end.

Definition text_response (s : string) (code : Z) : Response :=
  {| body := Text s; status := code |}.

(** ** The broker, and the routes whose calls run together *)

(** What the broker does with the calls of [pusherServer.trigger] during
    a request: whether the call for a channel and an event resolves, and
    the text the [catch] of a route answers with when a call is rejected
    ([error.message], or "Internal Server Error" when what was thrown is
    no [Error]). *)
Record Broker := mkBroker {
  accepts : string -> string -> bool;
  failure : string
}.

Module Fanout.

(** The payloads of [member_added], [friend_removed] and
    [friend_request_denied], beside the ones above. *)
Inductive Notice :=
| Known (p : Payload)
| MemberAdded (memberId : string) (member : option User.t) (chat : Chat.t)
| UserId (id : string)
| Denied (deniedById : string) (deniedByName : option string).

(** One call of a route to the store or to the broker. *)
Inductive Call :=
| SetChat (key : string) (c : Chat.t)
| Sadd (key member : string)
| Srem (key member : string)
| Publish (channel event : string) (n : Notice).

(** What a request has done, step by step: a call awaited on its own, or
    the calls of one [Promise.all] that took effect.  The calls of a
    [Promise.all] run together: the list follows the array of the source
    and says nothing of the order in which they reach the store or the
    broker. *)
Inductive Event :=
| Alone (c : Call)
| Together (cs : list Call).

Record World := mkWorld { db : Redis.Db; log : list Event }.

(** The world a request starts in, for a store. *)
Definition start (d : Redis.Db) : World := {| db := d; log := [] |}.

Definition Handler (A : Type) : Type := World -> (Response + A) * World.

Definition ret {A} (a : A) : Handler A := fun w => (inr a, w).

Definition bind {A B} (c : Handler A) (k : A -> Handler B) : Handler B :=
  fun w =>
    match c w with
    | (inl r, w') => (inl r, w')
    | (inr a, w') => k a w'
    end.

Definition reply {A} (r : Response) : Handler A := fun w => (inl r, w).

Definition reply_if (cond : bool) (r : Response) : Handler unit :=
  if cond then reply r else ret tt.

Definition read {A} (f : Redis.Db -> A) : Handler A :=
  fun w => (inr (f (db w)), w).

(** A write reaches the store; an event changes nothing there. *)
Definition land (d : Redis.Db) (c : Call) : Redis.Db :=
  match c with
  | SetChat key chat => Redis.set d key chat
  | Sadd key member => Redis.sadd d key member
  | Srem key member => Redis.srem d key member
  | Publish _ _ _ => d
  end.

(** The calls to the store resolve; a call to the broker resolves when
    the broker accepts it. *)
Definition resolves (B : Broker) (c : Call) : bool :=
  match c with
  | Publish channel event _ => accepts B channel event
  | _ => true
  end.

(** [await call] inside the [try] of a route whose [catch] answers
    [caught]: a rejected call has no effect and ends the request. *)
Definition await (B : Broker) (caught : Response) (c : Call) : Handler unit :=
  fun w =>
    if resolves B c
    then (inr tt, {| db := land (db w) c; log := log w ++ [Alone c] |})
    else (inl caught, w).

(** [await Promise.all([...calls])] inside that [try].  Every call of the
    array is started before the [await]: the writes reach the store and
    the events the broker accepts are published, whether or not another
    call of the array is rejected; the [await] throws when one is. *)
Definition await_all (B : Broker) (caught : Response) (cs : list Call)
    : Handler unit :=
  fun w =>
    let w' := {| db := foldl land (db w) cs;
                 log := log w ++ [Together (List.filter (resolves B) cs)] |} in
    if forallb (resolves B) cs then (inr tt, w') else (inl caught, w').

(** Two calls are independent when the store they leave does not depend
    on which of them arrives first, and a batch is unordered when its
    calls are independent two by two. *)
Definition independent (c1 c2 : Call) : Prop :=
  forall d, land (land d c1) c2 = land (land d c2) c1.

Definition unordered (cs : list Call) : Prop :=
  forall c1 c2, In c1 cs -> In c2 cs -> independent c1 c2.

(** The response the route returns, and the world it leaves. *)
Definition run (h : Handler Response) (w : World) : Response * World :=
  match h w with
  | (inl r, w') => (r, w')
  | (inr r, w') => (r, w')
  end.

(** The calls a request has made that took effect, in one list. *)
Definition calls_of (es : list Event) : list Call :=
  flat_map (fun e => match e with Alone c => [c] | Together cs => cs end) es.

Declare Scope fanout_scope.
Delimit Scope fanout_scope with fanout.
Notation "x <- c ;; k" := (bind c (fun x => k))
  (at level 100, c at next level, right associativity) : fanout_scope.
Notation "c ;; k" := (bind c (fun _ => k))
  (at level 100, right associativity) : fanout_scope.

Definition userFriendRequestsKey (id : string) : string :=
  "user:" ++ id ++ ":friend_requests".
Definition userIncomingRequestsKey (id : string) : string :=
  "user:" ++ id ++ ":incoming_friend_requests".

End Fanout.

(** ** [POST /api/message/send] *)

Module SendMessage.
Section Route.
Variable P : Platform.
Local Open Scope handler_scope.

(** [senderId !== userId] where [userId] may be [undefined]. *)
Definition differs (senderId : string) (userId : option string) : bool :=
  match userId with
  | Some u => negb (streq senderId u)
  | None => true
  end.

(** The branch [if (!existingChatRaw)]: the chat id is read as
    [userA--userB].  [userId1] is always defined, [userId2] is
    [undefined] when the id holds no separator. *)
Definition bootstrap (senderId chatId : string) : Handler Chat.t :=
  let parts := split chatId in
  let userId1 := nth 0 parts "" in
  let userId2 := parts !! 1%nat in
  reply_if (negb (streq senderId userId1) && differs senderId userId2)
           (text_response "Unauthorized" 401) ;;
  let otherParticipantId :=
    if streq senderId userId1 then userId2 else Some userId1 in
  friendList <- read (fun d => Redis.smembers d (Redis.userFriendsKey senderId)) ;;
  let isFriend :=
    match otherParticipantId with
    | Some other => bool_decide (other ∈ friendList)
    | None => false
    end in
  reply_if (negb isFriend) (text_response "Unauthorized" 401) ;;
  match userId2 with
  | Some userId2 =>
      let chat := {| Chat.id := chatId; Chat.name := SENTINEL;
                     Chat.memberIds := [userId1; userId2];
                     Chat.createdAt := None |} in
      db_set (Redis.chatKey (Chat.id chat)) chat ;;
      db_sadd (Redis.userChatsKey userId1) (Chat.id chat) ;;
      db_sadd (Redis.userChatsKey userId2) (Chat.id chat) ;;
      ret chat
  | None =>
      (* never reached: with [userId2] undefined the two guards above
         have already answered 401 (lemma [bootstrap_needs_two_ids]) *)
      throw "unreachable"
  end.

(** [nanoid()] and [Date.now()] are inputs of the model. *)
Definition POST (session : option string) (text chatId : string)
    (nanoid : string) (now : Z) : Handler Response :=
  match session with
  | None => reply (text_response "Unauthorized" 401)
  | Some senderId =>
      existingChatRaw <- read (fun d => Redis.chats d !! Redis.chatKey chatId) ;;
      chat <- match existingChatRaw with
              | None => bootstrap senderId chatId
              | Some chat =>
                  reply_if (negb (includes (Chat.memberIds chat) senderId))
                           (text_response "Unauthorized" 401) ;;
                  ret chat
              end ;;
      sender <- read (fun d => Redis.users d !! Redis.userKey senderId) ;;
      let timestamp := now in
      let message := {| Message.id := nanoid; Message.chatId := Chat.id chat;
                        Message.senderId := senderId; Message.text := text;
                        Message.timestamp := timestamp |} in
      trigger (toPusherKey P (Redis.chatKey (Chat.id chat)))
              "incoming-message" (PMessage message) ;;
      let otherMemberIds :=
        List.filter (fun id => negb (streq id senderId)) (Chat.memberIds chat) in
      match otherMemberIds, sender with
      | [], _ => ret tt
      | _ :: _, None =>
          (* [JSON.parse(null)] is [null]; [sender.image] throws when the
             first notification payload is built *)
          throw "Cannot read properties of null (reading 'image')"
      | _ :: _, Some sender =>
          for_each (fun memberId =>
                      trigger (toPusherKey P (Redis.userChatsKey memberId))
                              "new_message"
                              (PMessageFrom message (User.image sender)
                                            (User.name sender)))
                   otherMemberIds
      end ;;
      db_zadd P (Redis.chatMessagesKey (Chat.id chat)) timestamp message ;;
      ret (text_response "OK" 200)
  end.

End Route.
End SendMessage.

(** ** [POST /api/chat/remove-member] *)

Module RemoveMember.
Import Fanout.
Section Route.
Variable P : Platform.
Variable B : Broker.
Local Open Scope fanout_scope.

(** The [catch] of the route. *)
Definition caught : Response := text_response (failure B) 500.

Definition POST (session : option string) (chatId memberId : string)
    : Handler Response :=
  match session with
  | None => reply (text_response "Unauthorized" 401)
  | Some requesterId =>
      reply_if (falsy chatId || falsy memberId)
               (text_response "chatId and memberId are required." 400) ;;
      existingChatRaw <- read (fun d => Redis.chats d !! Redis.chatKey chatId) ;;
      match existingChatRaw with
      | None => reply (text_response "Chat not found." 404)
      | Some chat =>
          reply_if (negb (includes (Chat.memberIds chat) requesterId))
                   (text_response "Only chat members can remove participants." 401) ;;
          let isIndividualChat :=
            (length (Chat.memberIds chat) =? 2)%nat
            && streq (Chat.name chat) SENTINEL in
          reply_if isIndividualChat
                   (text_response
                      "Cannot remove members from a direct message chat. Use remove friend instead."
                      400) ;;
          reply_if (length (Chat.memberIds chat) <=? 1)%nat
                   (text_response "Cannot remove the last member from a group." 400) ;;
          reply_if (negb (includes (Chat.memberIds chat) memberId))
                   (text_response "User is not a member of this chat." 400) ;;
          reply_if (streq memberId requesterId)
                   (text_response "You cannot remove yourself from the chat." 400) ;;
          let updatedChat :=
            {| Chat.id := Chat.id chat; Chat.name := Chat.name chat;
               Chat.memberIds :=
                 List.filter (fun id => negb (streq id memberId))
                             (Chat.memberIds chat);
               Chat.createdAt := Chat.createdAt chat |} in
          await_all B caught
            ([ SetChat (Redis.chatKey (Chat.id updatedChat)) updatedChat;
               Srem (Redis.userChatsKey memberId) chatId;
               Publish (toPusherKey P (Redis.userChatsKey memberId))
                       "removed_from_chat"
                       (Known (PRemovedFrom chatId (Chat.name chat)));
               Publish (toPusherKey P (Redis.chatKey chatId))
                       "member_removed"
                       (Known (PMemberRemoved memberId updatedChat)) ]
             ++ map (fun memberId =>
                       Publish (toPusherKey P (Redis.userChatsKey memberId))
                               "chat_updated"
                               (Known (PChatEvent (Chat.id updatedChat) updatedChat)))
                    (Chat.memberIds updatedChat)) ;;
          ret {| body := JsonChat updatedChat; status := 200 |}
      end
  end.

End Route.
End RemoveMember.

(** ** [POST /api/chat/create] *)

Module CreateChat.
Import Fanout.
Section Route.
Variable P : Platform.
Variable B : Broker.
Local Open Scope fanout_scope.

(** The [catch] of the route. *)
Definition caught : Response := text_response (failure B) 500.

(** [name?.trim() ?? ""]. *)
Definition trimmedNameOf (name : option string) : string :=
  match name with
  | Some n => trim P n
  | None => ""
  end.

(** The block [if (memberIds.length === 2)]: the friendship check is
    made for the first entry that differs from the requester, when
    there is one and it is truthy. *)
Definition friend_check (requesterId : string) (memberIds : list string)
    : Handler unit :=
  if (length memberIds =? 2)%nat then
    match List.find (fun id => negb (streq id requesterId)) memberIds with
    | Some otherId =>
        if falsy otherId then ret tt
        else
          friendList <- read (fun d => Redis.smembers d
                                         (Redis.userFriendsKey requesterId)) ;;
          reply_if (negb (bool_decide (otherId ∈ friendList)))
                   (text_response
                      "Cannot create a direct message with a non-friend." 401)
    | None => ret tt
    end
  else ret tt.

(** [nanoid()] and [Date.now()] are inputs of the model.  The chat is
    written and indexed by calls that are awaited before the events are
    handed to the broker. *)
Definition POST (session : option string) (name : option string)
    (memberIds : list string) (nanoid : string) (now : Z) : Handler Response :=
  match session with
  | None => reply (text_response "Unauthorized" 401)
  | Some requesterId =>
      reply_if (length memberIds <? 1)%nat
               (text_response "A chat must have at least one member." 400) ;;
      reply_if (negb (includes memberIds requesterId))
               (text_response "Requester must be a member of the chat." 400) ;;
      let trimmedName := trimmedNameOf name in
      reply_if ((2 <? length memberIds)%nat && (String.length trimmedName =? 0)%nat)
               (text_response
                  "Group name is required for chats with more than 2 members." 400) ;;
      let finalName :=
        if (length memberIds =? 2)%nat && (String.length trimmedName =? 0)%nat
        then SENTINEL else trimmedName in
      friend_check requesterId memberIds ;;
      let chatId := nanoid in
      let createdAt := now in
      let chat := {| Chat.id := chatId; Chat.name := finalName;
                     Chat.memberIds := memberIds;
                     Chat.createdAt := Some createdAt |} in
      await B caught (SetChat (Redis.chatKey (Chat.id chat)) chat) ;;
      await_all B caught
        (map (fun memberId => Sadd (Redis.userChatsKey memberId) (Chat.id chat))
             memberIds) ;;
      let otherMemberIds :=
        List.filter (fun id => negb (streq id requesterId)) memberIds in
      await_all B caught
        (map (fun memberId =>
                Publish (toPusherKey P (Redis.userChatsKey memberId))
                        "added_to_chat" (Known (PChatEvent (Chat.id chat) chat)))
             otherMemberIds
         ++ map (fun memberId =>
                   Publish (toPusherKey P (Redis.userChatsKey memberId))
                           "chat_created" (Known (PChat chat)))
                otherMemberIds
         ++ [ Publish (toPusherKey P (Redis.userChatsKey requesterId))
                      "chat_created" (Known (PChat chat)) ]) ;;
      ret {| body := JsonChat chat; status := 201 |}
  end.

End Route.
End CreateChat.

(** ** [POST /api/message/edit] *)

Module EditMessage.
Section Route.
Variable P : Platform.
Local Open Scope handler_scope.

(** [{ ...originalMessage, text: trimmedText }]. *)
Definition withText (originalMessage : Message.t) (trimmedText : string)
    : Message.t :=
  {| Message.id := Message.id originalMessage;
     Message.chatId := Message.chatId originalMessage;
     Message.senderId := Message.senderId originalMessage;
     Message.text := trimmedText;
     Message.timestamp := Message.timestamp originalMessage |}.

(** [messages[messages.findIndex(msg => parsed.id === messageId)]]. *)
Definition findMessage (messages : list Message.t) (messageId : string)
    : option Message.t :=
  List.find (fun msg => streq (Message.id msg) messageId) messages.

Definition POST (session : option string) (messageId chatId text : string)
    : Handler Response :=
  match session with
  | None => reply (text_response "Unauthorized" 401)
  | Some senderId =>
      reply_if (falsy messageId || falsy chatId || falsy text)
               (text_response "messageId, chatId, and text are required." 400) ;;
      let trimmedText := trim P text in
      reply_if (String.length trimmedText =? 0)%nat
               (text_response "Message text cannot be empty." 400) ;;
      existingChatRaw <- read (fun d => Redis.chats d !! Redis.chatKey chatId) ;;
      match existingChatRaw with
      | None => reply (text_response "Chat not found." 404)
      | Some chat =>
          reply_if (negb (includes (Chat.memberIds chat) senderId))
                   (text_response "Unauthorized" 401) ;;
          messages <- read (fun d => Redis.zrange_all d
                                       (Redis.chatMessagesKey chatId)) ;;
          match findMessage messages messageId with
          | None => reply (text_response "Message not found." 404)
          | Some originalMessage =>
              reply_if (negb (streq (Message.senderId originalMessage) senderId))
                       (text_response "You can only edit your own messages." 403) ;;
              let updatedMessage := withText originalMessage trimmedText in
              db_zrem (Redis.chatMessagesKey chatId) originalMessage ;;
              db_zadd P (Redis.chatMessagesKey chatId)
                      (Message.timestamp originalMessage) updatedMessage ;;
              trigger (toPusherKey P (Redis.chatKey chatId))
                      "message_edited" (PMessage updatedMessage) ;;
              let otherMemberIds :=
                List.filter (fun id => negb (streq id senderId))
                            (Chat.memberIds chat) in
              sender <- read (fun d => Redis.users d !! Redis.userKey senderId) ;;
              match otherMemberIds, sender with
              | [], _ => ret tt
              | _ :: _, None =>
                  throw "Cannot read properties of null (reading 'image')"
              | _ :: _, Some sender =>
                  for_each (fun memberId =>
                              trigger (toPusherKey P (Redis.userChatsKey memberId))
                                      "message_edited"
                                      (PMessageFrom updatedMessage
                                                    (User.image sender)
                                                    (User.name sender)))
                           otherMemberIds
              end ;;
              ret {| body := JsonMessage updatedMessage; status := 200 |}
          end
      end
  end.

End Route.
End EditMessage.

(** ** The participants of a chat, as the page and the layout load them *)

Module Participants.

(** [chat.memberIds.map(async (memberId) => JSON.parse(await
    fetchRedis("get", `user:${memberId}`)))]: for an id without user
    record the store answers [null], and [JSON.parse(null)] is [null]. *)
Definition load (d : Redis.Db) (chat : Chat.t) : list (option User.t) :=
  map (fun memberId => Redis.users d !! Redis.userKey memberId) (Chat.memberIds chat).

(** [participants.find((p) => p.id !== userId)].  Reading [p.id] of a
    [null] participant throws a TypeError: the result is then [None];
    [Some None] is the [undefined] of a search that finds nobody. *)
Fixpoint findOther (userId : string) (participants : list (option User.t))
    : option (option User.t) :=
  match participants with
  | [] => Some None
  | None :: _ => None
  | Some p :: rest =>
      if negb (streq (User.id p) userId) then Some (Some p)
      else findOther userId rest
  end.

End Participants.

(** ** The chat page [dashboard/chat/[chatId]/page.tsx] *)

Module ChatPage.

(** What the page hands to the components it renders. *)
Record View := mkView {
  chat : Chat.t;
  participants : list (option User.t);
  isGroupChat : bool;
  isTwoPersonChat : bool;
  chatPartner : option User.t;
  friends : list User.t;
  initialMessages : list Message.t
}.

(** [notFound()] ends the request with the not-found page; an exception
    that nothing catches ends it with an error. *)
Inductive Outcome :=
| NotFound
| Threw
| Rendered (v : View).

(** The page once the chat is resolved: it only reads.  [friendList] is
    what [getFriendsByUserId] of [@/helpers], which the sources here do
    not hold, returns for the user ([None] when it throws);
    [historyLoads] says whether [getChatMessages] gets through its [try]
    (its [catch] calls [notFound()]). *)
Definition render (userId chatId : string) (c : Chat.t)
    (friendList : option (list User.t)) (historyLoads : bool) (d : Redis.Db)
    : Outcome :=
  let participants := Participants.load d c in
  let isGroupChat :=
    (2 <? length participants)%nat
    || ((1 <=? length participants)%nat && negb (streq (Chat.name c) SENTINEL)) in
  let isTwoPersonChat :=
    (length participants =? 2)%nat && streq (Chat.name c) SENTINEL in
  match (if isTwoPersonChat then Participants.findOther userId participants
         else Some None) with
  | None => Threw
  | Some chatPartner =>
      match friendList with
      | None => Threw
      | Some friends =>
          if historyLoads
          then Rendered {| chat := c; participants := participants;
                           isGroupChat := isGroupChat;
                           isTwoPersonChat := isTwoPersonChat;
                           chatPartner := chatPartner;
                           friends := friends;
                           initialMessages :=
                             rev (Redis.zrange_all d (Redis.chatMessagesKey chatId)) |}
          else NotFound
      end
  end.

(** [page]: [session] is the signed-in user's id.  The three writes of
    the branch [if (!existingChatRaw)] are awaited one after the other,
    before anything else is read.  For a chat id without separator the
    source stores a chat whose second member id is [undefined] ([null]
    once stored) and indexes it under [user:undefined:chats]; [Chat.t]
    cannot hold such a member, and the model gives no result ([None])
    for a view of such an id by the user it names. *)
Definition page (session : option string) (chatId : string)
    (friendList : option (list User.t)) (historyLoads : bool) (w : World)
    : option (Outcome * World) :=
  match session with
  | None => Some (NotFound, w)
  | Some userId =>
      match Redis.chats (db w) !! Redis.chatKey chatId with
      | None =>
          let parts := split chatId in
          let userId1 := nth 0 parts "" in
          let userId2 := parts !! 1%nat in
          if negb (streq userId userId1) && SendMessage.differs userId userId2
          then Some (NotFound, w)
          else
            match userId2 with
            | None => None
            | Some userId2 =>
                let chat := {| Chat.id := chatId; Chat.name := SENTINEL;
                               Chat.memberIds := [userId1; userId2];
                               Chat.createdAt := None |} in
                match (bind (db_set (Redis.chatKey (Chat.id chat)) chat) (fun _ =>
                       bind (db_sadd (Redis.userChatsKey userId1) (Chat.id chat)) (fun _ =>
                       db_sadd (Redis.userChatsKey userId2) (Chat.id chat)))) w with
                | (_, w') =>
                    Some (render userId chatId chat friendList historyLoads (db w'), w')
                end
            end
      | Some chat =>
          if negb (includes (Chat.memberIds chat) userId) then Some (NotFound, w)
          else Some (render userId chatId chat friendList historyLoads (db w), w)
      end
  end.

End ChatPage.

(** ** The dashboard layout: the two sorted views *)

Module Layout.

(** An element of [chatsWithDisplayNameAndMessages]. *)
Record Entry := mkEntry {
  chat : Chat.t;
  displayName : string;
  hasMessages : bool;
  latestMessageTimestamp : option Z;
  createdAt : option Z
}.

(** An element of [groupChatsUnsorted]. *)
Record GroupEntry := mkGroupEntry {
  g_chat : Chat.t;
  g_displayName : string;
  g_latestMessageTimestamp : option Z;
  g_createdAt : option Z
}.

(** The entry built for one chat from its latest stored message. *)
Definition entryOf (c : Chat.t) (shown : string) (latestMessage : option Message.t)
    : Entry :=
  let latestMessageTimestamp := Message.timestamp <$> latestMessage in
  {| chat := c; displayName := shown;
     hasMessages := bool_decide (latestMessageTimestamp <> None);
     latestMessageTimestamp := latestMessageTimestamp;
     createdAt := orNull (Chat.createdAt c) |}.

(** [isTwoPersonChat && chatPartner ? chatPartner.name : chat.name], with
    [isTwoPersonChat = participants.length === 2] and [chatPartner =
    participants.find((p) => p.id !== session.user.id) ??
    participants[0]].  [None] when the search throws. *)
Definition labelOf (sessionId : string) (c : Chat.t)
    (participants : list (option User.t)) : option string :=
  let isTwoPersonChat := (length participants =? 2)%nat in
  if isTwoPersonChat then
    match Participants.findOther sessionId participants with
    | None => None
    | Some found =>
        let chatPartner :=
          match found with
          | Some p => Some p
          | None => mjoin (participants !! 0%nat)
          end in
        match chatPartner with
        | Some p => Some (User.name p)
        | None => Some (Chat.name c)
        end
    end
  else Some (Chat.name c).

(** One element of the snapshot, read from the store for a chat id of the
    index of the user [sessionId]: the latest message is [zrange key -1
    -1].  The layout throws, which is [None] here, when no chat is
    stored under the id ([JSON.parse(null)] is [null], whose [memberIds]
    cannot be read) and when the search for the chat partner throws. *)
Definition loadEntry (d : Redis.Db) (sessionId chatId : string) : option Entry :=
  match Redis.chats d !! Redis.chatKey chatId with
  | Some c =>
      let latestMessage := Redis.zrange_last d (Redis.chatMessagesKey chatId) in
      let participants := Participants.load d c in
      match labelOf sessionId c participants with
      | Some displayName => Some (entryOf c displayName latestMessage)
      | None => None
      end
  | None => None
  end.

(** [Promise.all(chatIds.map(...))]: the snapshot, for the chat ids as
    [smembers] lists them; one element that throws makes the layout
    throw. *)
Definition snapshot (d : Redis.Db) (sessionId : string) (chatIds : list string)
    : option (list Entry) :=
  mapM (loadEntry d sessionId) chatIds.

(** [Array.prototype.sort(compare)] is stable: an element goes in front
    of the first sorted element it does not compare greater than. *)
Fixpoint sort_insert {A} (compare : A -> A -> Z) (x : A) (sorted : list A) : list A :=
  match sorted with
  | [] => [x]
  | y :: rest => if compare x y <=? 0 then x :: sorted
                 else y :: sort_insert compare x rest
  end.

Definition sort {A} (compare : A -> A -> Z) (arr : list A) : list A :=
  foldr (sort_insert compare) [] arr.

Definition compareIndividual (a b : Entry) : Z :=
  let timestampA := orZero (latestMessageTimestamp a) in
  let timestampB := orZero (latestMessageTimestamp b) in
  timestampB - timestampA.

Definition groupTimestamp (a : GroupEntry) : Z :=
  Z.max (orZero (g_latestMessageTimestamp a)) (orZero (g_createdAt a)).

Definition compareGroup (a b : GroupEntry) : Z :=
  let timestampA := groupTimestamp a in
  let timestampB := groupTimestamp b in
  timestampB - timestampA.

Definition individualChats (all : list Entry) : list Entry :=
  let chatsWithDisplayName := List.filter hasMessages all in
  let individualChatsUnsorted :=
    List.filter (fun item =>
                   hasMessages item
                   && (length (Chat.memberIds (chat item)) =? 2)%nat
                   && streq (Chat.name (chat item)) SENTINEL)
                chatsWithDisplayName in
  sort compareIndividual individualChatsUnsorted.

Definition groupChats (all : list Entry) : list GroupEntry :=
  let groupChatsUnsorted :=
    map (fun item =>
           {| g_chat := chat item; g_displayName := displayName item;
              g_latestMessageTimestamp := latestMessageTimestamp item;
              g_createdAt := createdAt item |})
        (List.filter (fun item => Classify.layoutIsGroup (chat item)) all) in
  sort compareGroup groupChatsUnsorted.

End Layout.

(** ** Sample data *)

Module Sample.


Definition pair : Chat.t :=
  {| Chat.id := "c2"; Chat.name := "Direct message";
     Chat.memberIds := ["a"; "b"]; Chat.createdAt := None |}.

Definition studyGroup : Chat.t :=
  {| Chat.id := "c3"; Chat.name := "Study Group";
     Chat.memberIds := ["a"; "b"]; Chat.createdAt := None |}.

Definition solo : Chat.t :=
  {| Chat.id := "c4"; Chat.name := "Solo"; Chat.memberIds := ["a"];
     Chat.createdAt := None |}.

End Sample.

(** ** The reconciliation rule in the specification's words *)

Module Reconcile.
Import ExtendedMessage.

(** "a record with that exact id already exists". *)
Definition known (prev : list ExtendedMessage.t) (message : Message.t) : Prop :=
  exists r, In r prev /\ id r = Message.id message.

(** "status=pending, same senderId, identical text, and
    |timestamp_local - timestamp_canonical| < 2000ms". *)
Definition optimistic_match (message : Message.t) (r : ExtendedMessage.t) : Prop :=
  status r = Some pending
  /\ senderId r = Message.senderId message
  /\ text r = Message.text message
  /\ Z.abs (timestamp r - Message.timestamp message) < 2000.

(** The number of displayed records carrying the id of [message]. *)
Definition displayed (l : list ExtendedMessage.t) (message : Message.t) : nat :=
  length (List.filter (fun r => streq (id r) (Message.id message)) l).

End Reconcile.

Module SampleMessages.

Definition canonical : Message.t :=
  {| Message.id := "M"; Message.chatId := "c"; Message.senderId := "U";
     Message.text := "hi"; Message.timestamp := 1500 |}.

Definition optimistic : ExtendedMessage.t :=
  {| ExtendedMessage.id := "T"; ExtendedMessage.chatId := "c";
     ExtendedMessage.senderId := "U"; ExtendedMessage.text := "hi";
     ExtendedMessage.timestamp := 1000;
     ExtendedMessage.status := Some pending;
     ExtendedMessage.tempId := Some "T" |}.

Definition older : ExtendedMessage.t :=
  {| ExtendedMessage.id := "K"; ExtendedMessage.chatId := "c";
     ExtendedMessage.senderId := "V"; ExtendedMessage.text := "yo";
     ExtendedMessage.timestamp := 10;
     ExtendedMessage.status := Some sent;
     ExtendedMessage.tempId := None |}.

End SampleMessages.

(** ** The outcome of a remove-member request, flattened *)

Module RemoveMemberOutcome.

Definition updatedChat (chat : Chat.t) (memberId : string) : Chat.t :=
  {| Chat.id := Chat.id chat; Chat.name := Chat.name chat;
     Chat.memberIds :=
       List.filter (fun id => negb (streq id memberId)) (Chat.memberIds chat);
     Chat.createdAt := Chat.createdAt chat |}.

(** The events of the request, as they stand in the array handed to
    [Promise.all]. *)
Definition events (P : Platform) (chat : Chat.t) (chatId memberId : string)
    : list Fanout.Call :=
  [ Fanout.Publish (toPusherKey P (Redis.userChatsKey memberId)) "removed_from_chat"
      (Fanout.Known (PRemovedFrom chatId (Chat.name chat)));
    Fanout.Publish (toPusherKey P (Redis.chatKey chatId)) "member_removed"
      (Fanout.Known (PMemberRemoved memberId (updatedChat chat memberId))) ]
  ++ map (fun m => Fanout.Publish (toPusherKey P (Redis.userChatsKey m)) "chat_updated"
                     (Fanout.Known (PChatEvent (Chat.id chat)
                                               (updatedChat chat memberId))))
         (Chat.memberIds (updatedChat chat memberId)).

(** The two writes of the request. *)
Definition writes (chat : Chat.t) (chatId memberId : string) : list Fanout.Call :=
  [ Fanout.SetChat (Redis.chatKey (Chat.id chat)) (updatedChat chat memberId);
    Fanout.Srem (Redis.userChatsKey memberId) chatId ].

(** The world once the calls of a request that passed the guards have
    been started. *)
Definition started (P : Platform) (B : Broker) (chat : Chat.t)
    (chatId memberId : string) (w : Fanout.World) : Fanout.World :=
  {| Fanout.db :=
       Redis.srem
         (Redis.set (Fanout.db w) (Redis.chatKey (Chat.id chat))
                    (updatedChat chat memberId))
         (Redis.userChatsKey memberId) chatId;
     Fanout.log :=
       Fanout.log w
       ++ [ Fanout.Together
              (writes chat chatId memberId
               ++ List.filter (Fanout.resolves B) (events P chat chatId memberId)) ] |}.

(** The answer to such a request. *)
Definition answer (P : Platform) (B : Broker) (chat : Chat.t)
    (chatId memberId : string) : Response :=
  if forallb (Fanout.resolves B) (events P chat chatId memberId)
  then {| body := JsonChat (updatedChat chat memberId); status := 200 |}
  else text_response (failure B) 500.

(** The conditions under which the specification rejects the request. *)
Definition rejecting (chat : Chat.t) (requesterId memberId : string) : Prop :=
  Classify.isIndividualChat chat = true
  \/ Chat.memberIds (updatedChat chat memberId) = []
  \/ (length (Chat.memberIds chat) <= 1)%nat
  \/ memberId = requesterId
  \/ ~ In requesterId (Chat.memberIds chat)
  \/ ~ In memberId (Chat.memberIds chat).

End RemoveMemberOutcome.

Module SampleStore.

Definition emptyDb : Redis.Db :=
  {| Redis.chats := ∅; Redis.users := ∅; Redis.sets := ∅; Redis.zsets := ∅ |}.

Definition P0 : Platform :=
  {| toPusherKey := fun key => key;
     trim := fun s => s;
     member_leb := fun _ _ => true |}.

(** A broker that accepts every call, and one that rejects the
    [chat_updated] events. *)
Definition B0 : Broker :=
  {| accepts := fun _ _ => true; failure := "" |}.

Definition down : Broker :=
  {| accepts := fun _ event => negb (streq event "chat_updated");
     failure := "Pusher is unreachable" |}.

(** A broker that rejects every call. *)
Definition unheard : Broker :=
  {| accepts := fun _ _ => false; failure := "Pusher is unreachable" |}.

Definition trio : Chat.t :=
  {| Chat.id := "g1"; Chat.name := "Study Group";
     Chat.memberIds := ["a"; "b"; "c"]; Chat.createdAt := Some 50 |}.

Definition withTrio : Fanout.World :=
  Fanout.start (Redis.sadd (Redis.set emptyDb (Redis.chatKey "g1") trio)
                           (Redis.userChatsKey "b") "g1").

End SampleStore.

(** ** The outcome of a create request, flattened *)

Module CreateChatOutcome.

Definition finalName (P : Platform) (name : option string) (memberIds : list string)
    : string :=
  let trimmedName := CreateChat.trimmedNameOf P name in
  if (length memberIds =? 2)%nat && (String.length trimmedName =? 0)%nat
  then SENTINEL else trimmedName.

Definition created (P : Platform) (name : option string) (memberIds : list string)
    (nanoid : string) (now : Z) : Chat.t :=
  {| Chat.id := nanoid; Chat.name := finalName P name memberIds;
     Chat.memberIds := memberIds; Chat.createdAt := Some now |}.

Definition others (requesterId : string) (memberIds : list string) : list string :=
  List.filter (fun id => negb (streq id requesterId)) memberIds.

Definition indexing (chat : Chat.t) : list Fanout.Call :=
  map (fun m => Fanout.Sadd (Redis.userChatsKey m) (Chat.id chat))
      (Chat.memberIds chat).

(** The events of the request, as they stand in the array handed to
    [Promise.all]. *)
Definition events (P : Platform) (requesterId : string) (chat : Chat.t)
    : list Fanout.Call :=
  map (fun m => Fanout.Publish (toPusherKey P (Redis.userChatsKey m)) "added_to_chat"
                  (Fanout.Known (PChatEvent (Chat.id chat) chat)))
      (others requesterId (Chat.memberIds chat))
  ++ map (fun m => Fanout.Publish (toPusherKey P (Redis.userChatsKey m)) "chat_created"
                     (Fanout.Known (PChat chat)))
         (others requesterId (Chat.memberIds chat))
  ++ [ Fanout.Publish (toPusherKey P (Redis.userChatsKey requesterId)) "chat_created"
         (Fanout.Known (PChat chat)) ].

(** The world once a request has passed the guards: the chat is stored
    and indexed, and the events the broker accepts are published. *)
Definition started (P : Platform) (B : Broker) (requesterId : string) (chat : Chat.t)
    (w : Fanout.World) : Fanout.World :=
  {| Fanout.db :=
       foldl (fun d m => Redis.sadd d (Redis.userChatsKey m) (Chat.id chat))
             (Redis.set (Fanout.db w) (Redis.chatKey (Chat.id chat)) chat)
             (Chat.memberIds chat);
     Fanout.log :=
       Fanout.log w
       ++ [ Fanout.Alone (Fanout.SetChat (Redis.chatKey (Chat.id chat)) chat);
            Fanout.Together (indexing chat);
            Fanout.Together
              (List.filter (Fanout.resolves B) (events P requesterId chat)) ] |}.

(** The answer to such a request. *)
Definition answer (P : Platform) (B : Broker) (requesterId : string) (chat : Chat.t)
    : Response :=
  if forallb (Fanout.resolves B) (events P requesterId chat)
  then {| body := JsonChat chat; status := 201 |}
  else text_response (failure B) 500.

(** The friendship check of the route refuses the request. *)
Definition refused_as_non_friend (requesterId : string) (memberIds : list string)
    (d : Redis.Db) : bool :=
  (length memberIds =? 2)%nat
  && match List.find (fun id => negb (streq id requesterId)) memberIds with
     | Some otherId =>
         negb (falsy otherId)
         && negb (bool_decide
                    (otherId ∈ Redis.smembers d (Redis.userFriendsKey requesterId)))
     | None => false
     end.

End CreateChatOutcome.

(** ** The outcome of a send request, flattened *)

Module SendOutcome.

Definition messageOf (senderId text nanoid : string) (now : Z) (chat : Chat.t)
    : Message.t :=
  {| Message.id := nanoid; Message.chatId := Chat.id chat;
     Message.senderId := senderId; Message.text := text;
     Message.timestamp := now |}.

Definition others (senderId : string) (chat : Chat.t) : list string :=
  List.filter (fun id => negb (streq id senderId)) (Chat.memberIds chat).

Definition incoming (P : Platform) (chat : Chat.t) (message : Message.t) : Effect :=
  Trigger (toPusherKey P (Redis.chatKey (Chat.id chat))) "incoming-message"
          (PMessage message).

Definition notifications (P : Platform) (senderId : string) (chat : Chat.t)
    (message : Message.t) (sender : User.t) : list Effect :=
  map (fun memberId =>
         Trigger (toPusherKey P (Redis.userChatsKey memberId)) "new_message"
                 (PMessageFrom message (User.image sender) (User.name sender)))
      (others senderId chat).

Definition commit (chat : Chat.t) (message : Message.t) : Effect :=
  DbZadd (Redis.chatMessagesKey (Chat.id chat)) (Message.timestamp message) message.

Definition stored (P : Platform) (chat : Chat.t) (message : Message.t) (d : Redis.Db)
    : Redis.Db :=
  Redis.zadd P d (Redis.chatMessagesKey (Chat.id chat))
             (Message.timestamp message) message.

(** What the route does once [chat] is resolved. *)
Definition delivered (P : Platform) (senderId text nanoid : string) (now : Z)
    (chat : Chat.t) (sender : option User.t) (w : World) : Response * World :=
  let message := messageOf senderId text nanoid now chat in
  match others senderId chat, sender with
  | [], _ =>
      (text_response "OK" 200,
       {| db := stored P chat message (db w);
          log := log w ++ [incoming P chat message; commit chat message] |})
  | _ :: _, None =>
      (text_response "Cannot read properties of null (reading 'image')" 500,
       {| db := db w; log := log w ++ [incoming P chat message] |})
  | _ :: _, Some u =>
      (text_response "OK" 200,
       {| db := stored P chat message (db w);
          log := log w ++ [incoming P chat message]
                       ++ notifications P senderId chat message u
                       ++ [commit chat message] |})
  end.

Definition implicitChat (chatId userId1 userId2 : string) : Chat.t :=
  {| Chat.id := chatId; Chat.name := SENTINEL;
     Chat.memberIds := [userId1; userId2]; Chat.createdAt := None |}.

Definition bootstrap_effects (chatId userId1 userId2 : string) : list Effect :=
  [ DbSet (Redis.chatKey chatId) (implicitChat chatId userId1 userId2);
    DbSadd (Redis.userChatsKey userId1) chatId;
    DbSadd (Redis.userChatsKey userId2) chatId ].

Definition bootstrapped (chatId userId1 userId2 : string) (w : World) : World :=
  {| db := Redis.sadd
             (Redis.sadd
                (Redis.set (db w) (Redis.chatKey chatId)
                           (implicitChat chatId userId1 userId2))
                (Redis.userChatsKey userId1) chatId)
             (Redis.userChatsKey userId2) chatId;
     log := log w ++ bootstrap_effects chatId userId1 userId2 |}.

(** [otherParticipantId] when both encoded ids are defined. *)
Definition otherParticipant (senderId userId1 userId2 : string) : string :=
  if streq senderId userId1 then userId2 else userId1.

End SendOutcome.

Module SampleSend.

Definition alice : User.t :=
  {| User.name := "Alice"; User.email := "alice@example.org";
     User.image := "alice.png"; User.id := "a" |}.

(** Users [a] and [b] are friends, [a] has a user record, and the chat
    [a--b] has not been stored yet. *)
Definition friends : World :=
  {| db := {| Redis.chats := ∅;
              Redis.users := {[ Redis.userKey "a" := alice ]};
              Redis.sets := {[ Redis.userFriendsKey "a" := {[ "b" ]} ]};
              Redis.zsets := ∅ |};
     log := [] |}.

(** The same store once the chat of [a] and [b] exists. *)
Definition chatting : World :=
  {| db := Redis.set (db friends) (Redis.chatKey "c2") Sample.pair; log := [] |}.

Definition hello : Message.t :=
  {| Message.id := "m1"; Message.chatId := "c2"; Message.senderId := "a";
     Message.text := "hello"; Message.timestamp := 1000 |}.

End SampleSend.

(** ** The outcome of an edit request, flattened *)

Module EditOutcome.

Definition others (senderId : string) (chat : Chat.t) : list string :=
  List.filter (fun id => negb (streq id senderId)) (Chat.memberIds chat).

(** The log of the chat after the [zrem] and [zadd] of an accepted edit. *)
Definition rewritten (P : Platform) (chatId : string) (originalMessage : Message.t)
    (trimmedText : string) (d : Redis.Db) : Redis.Db :=
  Redis.zadd P (Redis.zrem d (Redis.chatMessagesKey chatId) originalMessage)
             (Redis.chatMessagesKey chatId)
             (Message.timestamp originalMessage)
             (EditMessage.withText originalMessage trimmedText).

Definition committed (P : Platform) (chatId : string) (originalMessage : Message.t)
    (trimmedText : string) : list Effect :=
  [ DbZrem (Redis.chatMessagesKey chatId) originalMessage;
    DbZadd (Redis.chatMessagesKey chatId) (Message.timestamp originalMessage)
           (EditMessage.withText originalMessage trimmedText);
    Trigger (toPusherKey P (Redis.chatKey chatId)) "message_edited"
            (PMessage (EditMessage.withText originalMessage trimmedText)) ].

(** What the route does once the sender of [originalMessage] is checked. *)
Definition edited (P : Platform) (senderId chatId : string) (chat : Chat.t)
    (originalMessage : Message.t) (trimmedText : string) (w : World)
    : Response * World :=
  let updatedMessage := EditMessage.withText originalMessage trimmedText in
  let d := rewritten P chatId originalMessage trimmedText (db w) in
  match others senderId chat, Redis.users (db w) !! Redis.userKey senderId with
  | [], _ =>
      ({| body := JsonMessage updatedMessage; status := 200 |},
       {| db := d; log := log w ++ committed P chatId originalMessage trimmedText |})
  | _ :: _, None =>
      (text_response "Cannot read properties of null (reading 'image')" 500,
       {| db := d; log := log w ++ committed P chatId originalMessage trimmedText |})
  | _ :: _, Some sender =>
      ({| body := JsonMessage updatedMessage; status := 200 |},
       {| db := d;
          log := log w ++ committed P chatId originalMessage trimmedText
                 ++ map (fun memberId =>
                           Trigger (toPusherKey P (Redis.userChatsKey memberId))
                                   "message_edited"
                                   (PMessageFrom updatedMessage (User.image sender)
                                                 (User.name sender)))
                        (others senderId chat) |})
  end.

(** The entries of the log of [chatId], with their scores. *)
Definition entries (d : Redis.Db) (chatId : string) : list (Z * Message.t) :=
  default [] (Redis.zsets d !! Redis.chatMessagesKey chatId).

End EditOutcome.

Module SampleEdit.

(** The chat of [a] and [b] with one stored message of [a]. *)
Definition withHello : World :=
  {| db := Redis.zadd SampleStore.P0 (db SampleSend.chatting)
                      (Redis.chatMessagesKey "c2") 1000 SampleSend.hello;
     log := [] |}.

End SampleEdit.

Module SampleLayout.

Definition groupA : Layout.Entry :=
  {| Layout.chat := {| Chat.id := "A"; Chat.name := "Group A";
                       Chat.memberIds := ["a"; "b"; "c"];
                       Chat.createdAt := Some 50 |};
     Layout.displayName := "Group A";
     Layout.hasMessages := true;
     Layout.latestMessageTimestamp := Some 100;
     Layout.createdAt := Some 50 |}.

Definition groupB : Layout.Entry :=
  {| Layout.chat := {| Chat.id := "B"; Chat.name := "Group B";
                       Chat.memberIds := ["a"; "b"; "c"];
                       Chat.createdAt := Some 80 |};
     Layout.displayName := "Group B";
     Layout.hasMessages := false;
     Layout.latestMessageTimestamp := None;
     Layout.createdAt := Some 80 |}.

End SampleLayout.

Module SampleSidebar.

Definition renamed : Chat.t :=
  {| Chat.id := "g1"; Chat.name := "Reading Group";
     Chat.memberIds := ["a"; "b"; "c"]; Chat.createdAt := Some 50 |}.

(** The sidebar already shows the group [g1] under its earlier name. *)
Definition shown : list Sidebar.Item :=
  [ {| Sidebar.chat := SampleStore.trio; Sidebar.displayName := "Study Group" |} ].

Definition renamedEvent : Sidebar.ChatEvent :=
  {| Sidebar.chatId := "g1"; Sidebar.payload := renamed |}.

End SampleSidebar.

Module SamplePage.

(** A store with no chat, no friendship, no index and no user record. *)
Definition strangers : World := {| db := SampleStore.emptyDb; log := [] |}.

Definition bob : User.t :=
  {| User.name := "Bob"; User.email := "bob@example.org";
     User.image := "bob.png"; User.id := "b" |}.

(** A store in which [a] and [b] have user records and nothing else:
    they are not friends and share no chat. *)
Definition unacquainted : World :=
  {| db := {| Redis.chats := ∅;
              Redis.users := {[ Redis.userKey "a" := SampleSend.alice;
                                Redis.userKey "b" := bob ]};
              Redis.sets := ∅;
              Redis.zsets := ∅ |};
     log := [] |}.

End SamplePage.

(** ** The other state updates of [Messages], and [ChatInput] *)

Module MessageList.
Import ExtendedMessage.

(** [{ ...msg, status }]. *)
Definition withStatus (msg : ExtendedMessage.t) (st : Status) : ExtendedMessage.t :=
  {| id := id msg; chatId := chatId msg; senderId := senderId msg;
     text := text msg; timestamp := timestamp msg;
     status := Some st; tempId := tempId msg |}.

(** [{ ...msg, text }]. *)
Definition withText (msg : ExtendedMessage.t) (newText : string) : ExtendedMessage.t :=
  {| id := id msg; chatId := chatId msg; senderId := senderId msg;
     text := newText; timestamp := timestamp msg;
     status := status msg; tempId := tempId msg |}.

(** A [Message] put in the list as it is: no [status], no [tempId]. *)
Definition plain (message : Message.t) : ExtendedMessage.t :=
  {| id := Message.id message; chatId := Message.chatId message;
     senderId := Message.senderId message; text := Message.text message;
     timestamp := Message.timestamp message;
     status := None; tempId := None |}.

(** [msg.id === messageId || msg.tempId === messageId]. *)
Definition isTarget (messageId : string) (msg : ExtendedMessage.t) : bool :=
  streq (id msg) messageId || bool_decide (tempId msg = Some messageId).

(** [handleStatusUpdate]. *)
Definition handleStatusUpdate (prev : list ExtendedMessage.t) (messageId : string)
    (st : Status) : list ExtendedMessage.t :=
  map (fun msg => if isTarget messageId msg then withStatus msg st else msg) prev.

(** [messageEditedHandler]: the update of the list. *)
Definition messageEditedHandler (prev : list ExtendedMessage.t)
    (editedMessage : Message.t) : list ExtendedMessage.t :=
  map (fun msg => if streq (id msg) (Message.id editedMessage)
                  then plain editedMessage else msg) prev.

(** The two updates of [handleSaveEdit]: the optimistic one with the
    trimmed text, and the one of the [catch] with the original text. *)
Definition setText (prev : list ExtendedMessage.t) (messageId newText : string)
    : list ExtendedMessage.t :=
  map (fun msg => if streq (id msg) messageId then withText msg newText else msg) prev.

(** The initial state: [initialMessages.map(msg => ({ ...msg, status: "sent" }))]. *)
Definition initialState (initialMessages : list Message.t) : list ExtendedMessage.t :=
  map (fun msg => ofMessage msg sent) initialMessages.

End MessageList.

Module ChatInput.

(** [sendMessage]: the optimistic record built before the request is
    posted.  [tempId] is [retryMessageId || nanoid()]; the temporary
    timestamp is [Date.now()]. *)
Definition tempIdOf (retryMessageId : option string) (nanoid : string) : string :=
  match retryMessageId with
  | Some r => if falsy r then nanoid else r
  | None => nanoid
  end.

Definition optimisticMessage (chatId sessionId messageText : string)
    (retryMessageId : option string) (nanoid : string) (now : Z)
    : ExtendedMessage.t :=
  let tempId := tempIdOf retryMessageId nanoid in
  {| ExtendedMessage.id := tempId; ExtendedMessage.chatId := chatId;
     ExtendedMessage.senderId := sessionId; ExtendedMessage.text := messageText;
     ExtendedMessage.timestamp := now;
     ExtendedMessage.status := Some pending;
     ExtendedMessage.tempId := Some tempId |}.

(** How the request ended, as [sendMessage] sees it: the message was
    saved (a 2xx answer, or an error answer that reports the quota), or
    the request failed. *)
Inductive PostResult := Saved | Failed.

(** The updates of the message list made by one call of [sendMessage]
    when no channel event arrives in between: the optimistic record, then
    the status reported by the request. *)
Definition sendMessage (chatId sessionId messageText : string)
    (retryMessageId : option string) (nanoid : string) (now : Z)
    (result : PostResult) (prev : list ExtendedMessage.t)
    : list ExtendedMessage.t :=
  if falsy messageText then prev
  else
    let m := optimisticMessage chatId sessionId messageText retryMessageId nanoid now in
    let shown := Messages.handleOptimistic prev m in
    MessageList.handleStatusUpdate shown (ExtendedMessage.id m)
      (match result with Saved => sent | Failed => failed end).

End ChatInput.

(** ** More JavaScript string primitives *)

(** [s.endsWith(suffix)]. *)
Fixpoint endsWith (s suffix : string) : bool :=
  if streq s suffix then true
  else match s with
       | EmptyString => false
       | String _ rest => endsWith rest suffix
       end.

(** [s.includes(sub)] on strings. *)
Fixpoint strIncludes (s sub : string) : bool :=
  if String.prefix sub s then true
  else match s with
       | EmptyString => false
       | String _ rest => strIncludes rest sub
       end.

(** ** The unseen-message state of [SidebarChatList] *)

Module Unseen.

(** [interface ExtendedMessage extends Message] of the sidebar: the
    [new_message] payload. *)
Record Notification := mkNotification {
  message : Message.t;
  senderImg : string;
  senderName : string
}.

(** [`/dashboard/chat/${chatId}`]. *)
Definition chatPath (chatId : string) : string := "/dashboard/chat/" ++ chatId.

(** [chatHandler], second half: the update of [unseenMessages] for a
    [new_message] event; [pathname] is what [usePathname()] returned. *)
Definition chatHandler (pathname : option string) (prev : list Notification)
    (n : Notification) : list Notification :=
  let shouldNotify :=
    match pathname with
    | Some p => negb (streq p (chatPath (Message.chatId (message n))))
    | None => true
    end in
  if negb shouldNotify then prev else prev ++ [n].

(** The effect run when [pathname] changes. *)
Definition onPathname (pathname : option string) (prev : list Notification)
    : list Notification :=
  match pathname with
  | Some p =>
      if strIncludes p "chat"
      then List.filter (fun msg => negb (endsWith p (Message.chatId (message msg)))) prev
      else prev
  | None => prev
  end.

(** [unseenMessagesCount] of the entry of chat [chatId]. *)
Definition unseenMessagesCount (unseenMessages : list Notification) (chatId : string)
    : nat :=
  length (List.filter (fun unseenMsg =>
                         streq (Message.chatId (message unseenMsg)) chatId)
                      unseenMessages).

End Unseen.

(** ** The friend list of [FriendsList] *)

Module FriendsList.

(** [newFriendHandler]: the update of [activeFriends]. *)
Definition newFriendHandler (prev : list User.t) (newFriend : User.t) : list User.t :=
  if existsb (fun f => streq (User.id f) (User.id newFriend)) prev then prev
  else prev ++ [newFriend].

(** [friendRemovedHandler]: the update of [activeFriends]. *)
Definition friendRemovedHandler (prev : list User.t) (removedFriendId : string)
    : list User.t :=
  match List.find (fun f => streq (User.id f) removedFriendId) prev with
  | Some _ => List.filter (fun f => negb (streq (User.id f) removedFriendId)) prev
  | None => prev
  end.

End FriendsList.

(** ** Member selection and member lists of [GroupChatMembers] and
    [CreateGroupModal] *)

Module Selection.

(** A JavaScript [Set<string>] keeps insertion order: a list without
    repetition. *)
Definition has (s : list string) (x : string) : bool := includes s x.

Definition delete (s : list string) (x : string) : list string :=
  List.filter (fun y => negb (streq y x)) s.

Definition add (s : list string) (x : string) : list string :=
  if has s x then s else s ++ [x].

(** [toggleFriendSelection]. *)
Definition toggleFriendSelection (prev : list string) (friendId : string)
    : list string :=
  if has prev friendId then delete prev friendId else add prev friendId.

(** [friendsNotInChat]. *)
Definition friendsNotInChat (friends participants : list User.t) : list User.t :=
  List.filter (fun friend =>
                 negb (existsb (fun p => streq (User.id p) (User.id friend))
                               participants))
              friends.

(** [friendsInChat]. *)
Definition friendsInChat (isGroupChat : bool) (currentUserId : string)
    (friends participants : list User.t) : list User.t :=
  if isGroupChat then
    List.filter (fun participant =>
                   negb (streq (User.id participant) currentUserId)
                   && existsb (fun f => streq (User.id f) (User.id participant))
                              friends)
                participants
  else [].

(** [handleCreateGroup]: the member ids posted to [/api/chat/create], or
    nothing when no friend is selected. *)
Definition createGroupMembers (sessionId : string) (selectedFriends : list string)
    : option (list string) :=
  if (length selectedFriends =? 0)%nat then None
  else Some (sessionId :: selectedFriends).

End Selection.

(** ** [POST /api/chat/set-name] *)

Module SetName.
Import Fanout.
Section Route.
Variable P : Platform.
Variable B : Broker.
Local Open Scope fanout_scope.

(** The [catch] of the route. *)
Definition caught : Response := text_response (failure B) 500.

Definition renamed (chat : Chat.t) (trimmedName : string) : Chat.t :=
  {| Chat.id := Chat.id chat; Chat.name := trimmedName;
     Chat.memberIds := Chat.memberIds chat;
     Chat.createdAt := Chat.createdAt chat |}.

(** [name?.trim()]: [undefined] when no name is sent. *)
Definition POST (session : option string) (chatId : string) (name : option string)
    : Handler Response :=
  match session with
  | None => reply (text_response "Unauthorized" 401)
  | Some requesterId =>
      reply_if (falsy chatId) (text_response "chatId is required." 400) ;;
      let trimmedName := trim P <$> name in
      match trimmedName with
      | None => reply (text_response "Chat name cannot be empty." 400)
      | Some trimmedName =>
          reply_if (falsy trimmedName)
                   (text_response "Chat name cannot be empty." 400) ;;
          existingChatRaw <- read (fun d => Redis.chats d !! Redis.chatKey chatId) ;;
          match existingChatRaw with
          | None => reply (text_response "Chat not found." 404)
          | Some chat =>
              reply_if (negb (includes (Chat.memberIds chat) requesterId))
                       (text_response "Only chat members can rename the chat." 401) ;;
              let updatedChat := renamed chat trimmedName in
              await_all B caught
                ([ SetChat (Redis.chatKey (Chat.id updatedChat)) updatedChat;
                   Publish (toPusherKey P (Redis.chatKey (Chat.id chat)))
                           "chat_name_updated"
                           (Known (PChatEvent (Chat.id updatedChat) updatedChat)) ]
                 ++ map (fun memberId =>
                           Publish (toPusherKey P (Redis.userChatsKey memberId))
                                   "chat_updated"
                                   (Known (PChatEvent (Chat.id updatedChat)
                                                      updatedChat)))
                        (Chat.memberIds chat)) ;;
              ret {| body := JsonChat updatedChat; status := 200 |}
          end
      end
  end.

End Route.
End SetName.

(** ** [POST /api/message/send], the variant that saves first *)

Module SendMessageV2.

(** What the broker answers to the [incoming-message] call. *)
Inductive TriggerOutcome := Delivered | QuotaExceeded | OtherError.

(** The two 200 answers: [new Response("OK")], and the JSON answer that
    reports [pusherQuotaExceeded]. *)
Inductive Answer := PlainOK | SavedWithoutDelivery.

Section Route.
Variable P : Platform.
(** The broker's behaviour during the request: the outcome of the main
    call, and for each member whether the sidebar call goes through. *)
Variable mainTrigger : TriggerOutcome.
Variable sidebarDelivers : string -> bool.
Local Open Scope handler_scope.

(** The resolution of the chat is the same text as in the other variant
    ([SendMessage.bootstrap]).  A broker call that fails publishes
    nothing; the failure of a sidebar call is swallowed by its [.catch],
    and the [TypeError] of [sender.image] for a missing sender record by
    the [try] around the sidebar calls. *)
Definition POST (session : option string) (text chatId : string)
    (nanoid : string) (now : Z) : Handler Answer :=
  match session with
  | None => reply (text_response "Unauthorized" 401)
  | Some senderId =>
      existingChatRaw <- read (fun d => Redis.chats d !! Redis.chatKey chatId) ;;
      chat <- match existingChatRaw with
              | None => SendMessage.bootstrap senderId chatId
              | Some chat =>
                  reply_if (negb (includes (Chat.memberIds chat) senderId))
                           (text_response "Unauthorized" 401) ;;
                  ret chat
              end ;;
      sender <- read (fun d => Redis.users d !! Redis.userKey senderId) ;;
      let timestamp := now in
      let message := {| Message.id := nanoid; Message.chatId := Chat.id chat;
                        Message.senderId := senderId; Message.text := text;
                        Message.timestamp := timestamp |} in
      db_zadd P (Redis.chatMessagesKey (Chat.id chat)) timestamp message ;;
      match mainTrigger with
      | QuotaExceeded => ret SavedWithoutDelivery
      | OtherError => ret PlainOK
      | Delivered =>
          trigger (toPusherKey P (Redis.chatKey (Chat.id chat)))
                  "incoming-message" (PMessage message) ;;
          let otherMemberIds :=
            List.filter (fun id => negb (streq id senderId)) (Chat.memberIds chat) in
          match otherMemberIds, sender with
          | [], _ => ret tt
          | _ :: _, None => ret tt
          | _ :: _, Some sender =>
              for_each (fun memberId =>
                          if sidebarDelivers memberId
                          then trigger (toPusherKey P (Redis.userChatsKey memberId))
                                       "new_message"
                                       (PMessageFrom message (User.image sender)
                                                     (User.name sender))
                          else ret tt)
                       otherMemberIds
          end ;;
          ret PlainOK
      end
  end.

End Route.
End SendMessageV2.

(** ** Reading a chat back: [getChatMessages] *)

Module ChatHistory.

(** [getChatMessages]: the stored messages, newest first. *)
Definition getChatMessages (d : Redis.Db) (chatId : string) : list Message.t :=
  rev (Redis.zrange_all d (Redis.chatMessagesKey chatId)).

End ChatHistory.

(** ** [POST /api/chat/add-member] *)

Module AddMember.
Import Fanout.
Section Route.
Variable P : Platform.
Variable B : Broker.
Local Open Scope fanout_scope.

(** The [catch] of the route. *)
Definition caught : Response := text_response (failure B) 500.

Definition updatedChat (chat : Chat.t) (memberId : string) : Chat.t :=
  {| Chat.id := Chat.id chat; Chat.name := Chat.name chat;
     Chat.memberIds := Chat.memberIds chat ++ [memberId];
     Chat.createdAt := Chat.createdAt chat |}.

Definition POST (session : option string) (chatId memberId : string)
    : Handler Response :=
  match session with
  | None => reply (text_response "Unauthorized" 401)
  | Some requesterId =>
      reply_if (falsy chatId || falsy memberId)
               (text_response "chatId and memberId are required." 400) ;;
      existingChatRaw <- read (fun d => Redis.chats d !! Redis.chatKey chatId) ;;
      match existingChatRaw with
      | None => reply (text_response "Chat not found." 404)
      | Some chat =>
          reply_if (negb (includes (Chat.memberIds chat) requesterId))
                   (text_response "Only chat members can add new participants." 401) ;;
          reply_if (includes (Chat.memberIds chat) memberId)
                   (text_response "User is already a member of this chat." 400) ;;
          let trimmedName := trim P (Chat.name chat) in
          reply_if ((2 <=? length (Chat.memberIds chat))%nat
                    && (String.length trimmedName =? 0)%nat)
                   (text_response
                      "Group name is required before adding more members to this chat."
                      400) ;;
          let updatedChat := updatedChat chat memberId in
          addedMember <- read (fun d => Redis.users d !! Redis.userKey memberId) ;;
          await_all B caught
            ([ SetChat (Redis.chatKey (Chat.id updatedChat)) updatedChat;
               Sadd (Redis.userChatsKey memberId) (Chat.id updatedChat);
               Publish (toPusherKey P (Redis.userChatsKey memberId)) "added_to_chat"
                       (Known (PChatEvent (Chat.id updatedChat) updatedChat));
               Publish (toPusherKey P (Redis.chatKey chatId)) "member_added"
                       (MemberAdded memberId addedMember updatedChat) ]
             ++ map (fun memberId =>
                       Publish (toPusherKey P (Redis.userChatsKey memberId))
                               "chat_updated"
                               (Known (PChatEvent (Chat.id updatedChat) updatedChat)))
                    (Chat.memberIds chat)) ;;
          ret {| body := JsonChat updatedChat; status := 200 |}
      end
  end.

End Route.
End AddMember.

(** ** [POST /api/friends/remove] and [POST /api/friends/deny] *)

Module Friends.
Import Fanout.

(** The body of a request to these two routes: one that [req.json()]
    cannot read, one that [z.object({ id: z.string() })] refuses, or one
    that carries an id. *)
Inductive Request :=
| Unreadable
| Misshapen
| WithId (id : string).

Section Routes.
Variable P : Platform.
Variable B : Broker.
Local Open Scope fanout_scope.

(** The [catch] of the two routes: 422 for a [ZodError], 400 for
    whatever else was thrown. *)
Definition caught : Response := text_response "Invalid request" 400.
Definition refused : Response := text_response "Invalid request payload" 422.

(** The body is read before the session is looked at, and parsed after.
    The route also reads the record of the friend, which it does not
    use. *)
Definition remove (session : option string) (body : Request)
    : Handler Response :=
  match body, session with
  | Unreadable, _ => reply caught
  | _, None => reply (text_response "Unauthorized" 401)
  | Misshapen, Some _ => reply refused
  | WithId idToRemove, Some userId =>
      isFriend <- read (fun d => bool_decide
                                   (idToRemove
                                    ∈ Redis.smembers d (Redis.userFriendsKey userId))) ;;
      reply_if (negb isFriend) (text_response "Not friends with this user" 400) ;;
      await_all B caught
        [ Srem (Redis.userFriendsKey userId) idToRemove;
          Srem (Redis.userFriendsKey idToRemove) userId;
          Publish (toPusherKey P (Redis.userFriendsKey userId)) "friend_removed"
                  (UserId idToRemove);
          Publish (toPusherKey P (Redis.userFriendsKey idToRemove)) "friend_removed"
                  (UserId userId) ] ;;
      ret (text_response "OK" 200)
  end.

(** [session] carries the id and the optional name of the signed-in
    user.  The event is awaited before the request is removed. *)
Definition deny (session : option (string * option string)) (body : Request)
    : Handler Response :=
  match body, session with
  | Unreadable, _ => reply caught
  | _, None => reply (text_response "Unauthorized" 401)
  | Misshapen, Some _ => reply refused
  | WithId idToDeny, Some (userId, userName) =>
      requester <- read (fun d => Redis.users d !! Redis.userKey idToDeny) ;;
      match requester with
      | Some _ =>
          await B caught
            (Publish (toPusherKey P (userFriendRequestsKey idToDeny))
                     "friend_request_denied" (Denied userId userName))
      | None => ret tt
      end ;;
      await B caught (Srem (userIncomingRequestsKey userId) idToDeny) ;;
      ret (text_response "OK" 200)
  end.

End Routes.
End Friends.

Module SampleFlow.

(** The list after the optimistic record [T] was shown above an older
    message. *)
Definition shown : list ExtendedMessage.t :=
  [SampleMessages.optimistic; SampleMessages.older].

Definition bob : User.t :=
  {| User.name := "Bob"; User.email := "bob@example.org";
     User.image := "bob.png"; User.id := "b" |}.

Definition carol : User.t :=
  {| User.name := "Carol"; User.email := "carol@example.org";
     User.image := "carol.png"; User.id := "c" |}.

Definition note (chatId : string) : Unseen.Notification :=
  {| Unseen.message := {| Message.id := "n"; Message.chatId := chatId;
                          Message.senderId := "b"; Message.text := "ping";
                          Message.timestamp := 7 |};
     Unseen.senderImg := "bob.png"; Unseen.senderName := "Bob" |}.

End SampleFlow.

(** ** The outcomes of a rename and of an add-member request, flattened *)

Module SetNameOutcome.

(** The events of the request, as they stand in the array handed to
    [Promise.all]. *)
Definition events (P : Platform) (chat : Chat.t) (trimmedName : string)
    : list Fanout.Call :=
  Fanout.Publish (toPusherKey P (Redis.chatKey (Chat.id chat))) "chat_name_updated"
    (Fanout.Known (PChatEvent (Chat.id chat) (SetName.renamed chat trimmedName)))
  :: map (fun m => Fanout.Publish (toPusherKey P (Redis.userChatsKey m)) "chat_updated"
                     (Fanout.Known (PChatEvent (Chat.id chat)
                                               (SetName.renamed chat trimmedName))))
         (Chat.memberIds chat).

(** The world once the calls of a request that passed the guards have
    been started. *)
Definition started (P : Platform) (B : Broker) (chat : Chat.t) (trimmedName : string)
    (w : Fanout.World) : Fanout.World :=
  {| Fanout.db := Redis.set (Fanout.db w) (Redis.chatKey (Chat.id chat))
                            (SetName.renamed chat trimmedName);
     Fanout.log :=
       Fanout.log w
       ++ [ Fanout.Together
              (Fanout.SetChat (Redis.chatKey (Chat.id chat))
                              (SetName.renamed chat trimmedName)
               :: List.filter (Fanout.resolves B) (events P chat trimmedName)) ] |}.

(** The answer to such a request. *)
Definition answer (P : Platform) (B : Broker) (chat : Chat.t) (trimmedName : string)
    : Response :=
  if forallb (Fanout.resolves B) (events P chat trimmedName)
  then {| body := JsonChat (SetName.renamed chat trimmedName); status := 200 |}
  else text_response (failure B) 500.

End SetNameOutcome.

Module AddMemberOutcome.

(** The events of the request, as they stand in the array handed to
    [Promise.all]. *)
Definition events (P : Platform) (chat : Chat.t) (chatId memberId : string)
    (addedMember : option User.t) : list Fanout.Call :=
  [ Fanout.Publish (toPusherKey P (Redis.userChatsKey memberId)) "added_to_chat"
      (Fanout.Known (PChatEvent (Chat.id chat) (AddMember.updatedChat chat memberId)));
    Fanout.Publish (toPusherKey P (Redis.chatKey chatId)) "member_added"
      (Fanout.MemberAdded memberId addedMember (AddMember.updatedChat chat memberId)) ]
  ++ map (fun m =>
            Fanout.Publish (toPusherKey P (Redis.userChatsKey m)) "chat_updated"
              (Fanout.Known (PChatEvent (Chat.id chat)
                                        (AddMember.updatedChat chat memberId))))
         (Chat.memberIds chat).

(** The two writes of the request. *)
Definition writes (chat : Chat.t) (memberId : string) : list Fanout.Call :=
  [ Fanout.SetChat (Redis.chatKey (Chat.id chat)) (AddMember.updatedChat chat memberId);
    Fanout.Sadd (Redis.userChatsKey memberId) (Chat.id chat) ].

(** The world once the calls of a request that passed the guards have
    been started. *)
Definition started (P : Platform) (B : Broker) (chat : Chat.t)
    (chatId memberId : string) (addedMember : option User.t) (w : Fanout.World)
    : Fanout.World :=
  {| Fanout.db :=
       Redis.sadd (Redis.set (Fanout.db w) (Redis.chatKey (Chat.id chat))
                             (AddMember.updatedChat chat memberId))
                  (Redis.userChatsKey memberId) (Chat.id chat);
     Fanout.log :=
       Fanout.log w
       ++ [ Fanout.Together
              (writes chat memberId
               ++ List.filter (Fanout.resolves B)
                    (events P chat chatId memberId addedMember)) ] |}.

(** The answer to such a request. *)
Definition answer (P : Platform) (B : Broker) (chat : Chat.t)
    (chatId memberId : string) (addedMember : option User.t) : Response :=
  if forallb (Fanout.resolves B) (events P chat chatId memberId addedMember)
  then {| body := JsonChat (AddMember.updatedChat chat memberId); status := 200 |}
  else text_response (failure B) 500.

(** The conditions under which the route refuses a request on a stored
    chat. *)
Definition rejecting (P : Platform) (chat : Chat.t) (requesterId memberId : string)
    : Prop :=
  ~ In requesterId (Chat.memberIds chat)
  \/ In memberId (Chat.memberIds chat)
  \/ ((2 <= length (Chat.memberIds chat))%nat /\ trim P (Chat.name chat) = "").

(** The store of a [Fanout] world, seen by the routes above. *)
Definition settled (w : Fanout.World) : World :=
  {| db := Fanout.db w; log := [] |}.

End AddMemberOutcome.

(** The calls of a remove-friend request, as they stand in the array
    handed to [Promise.all]: two writes and two events. *)
Module FriendsOutcome.

Definition writes (userId idToRemove : string) : list Fanout.Call :=
  [ Fanout.Srem (Redis.userFriendsKey userId) idToRemove;
    Fanout.Srem (Redis.userFriendsKey idToRemove) userId ].

Definition events (P : Platform) (userId idToRemove : string) : list Fanout.Call :=
  [ Fanout.Publish (toPusherKey P (Redis.userFriendsKey userId)) "friend_removed"
                   (Fanout.UserId idToRemove);
    Fanout.Publish (toPusherKey P (Redis.userFriendsKey idToRemove)) "friend_removed"
                   (Fanout.UserId userId) ].

End FriendsOutcome.

Module SampleMembers.

Definition lone : Chat.t :=
  {| Chat.id := "s1"; Chat.name := "Direct message"; Chat.memberIds := ["a"];
     Chat.createdAt := Some 5 |}.

Definition duo : Chat.t :=
  {| Chat.id := "d1"; Chat.name := "Study Group"; Chat.memberIds := ["a"; "b"];
     Chat.createdAt := Some 5 |}.

(** A store holding the group [g1] of [a], [b], [c], the two-member group
    [d1] and the one-member chat [s1]. *)
Definition store : Redis.Db :=
  Redis.set (Redis.set (Redis.set SampleStore.emptyDb (Redis.chatKey "g1")
                                  SampleStore.trio)
                       (Redis.chatKey "d1") duo)
            (Redis.chatKey "s1") lone.

Definition world : World := {| db := store; log := [] |}.

Definition wide : Fanout.World := Fanout.start store.

(** The store in which [a] and [b] share the DirectMessage [c2]. *)
Definition paired : Fanout.World := Fanout.start (db SampleSend.chatting).

(** The store in which [a], who has a user record, has asked [b] to be
    friends. *)
Definition pending : Fanout.World :=
  Fanout.start (Redis.sadd (db SampleSend.friends)
                           (Fanout.userIncomingRequestsKey "b") "a").

End SampleMembers.

(** ** The outcome of the save-first send variant, flattened *)

Module SendV2Outcome.
Import SendMessageV2.

Definition answer (mainTrigger : TriggerOutcome) : Answer :=
  match mainTrigger with
  | QuotaExceeded => SavedWithoutDelivery
  | _ => PlainOK
  end.

(** The events that reach the broker after the message is saved. *)
Definition published (P : Platform) (mainTrigger : TriggerOutcome)
    (sidebarDelivers : string -> bool) (senderId : string) (chat : Chat.t)
    (message : Message.t) (sender : option User.t) : list Effect :=
  match mainTrigger with
  | Delivered =>
      SendOutcome.incoming P chat message
      :: match sender with
         | Some u =>
             map (fun memberId =>
                    Trigger (toPusherKey P (Redis.userChatsKey memberId)) "new_message"
                            (PMessageFrom message (User.image u) (User.name u)))
                 (List.filter sidebarDelivers (SendOutcome.others senderId chat))
         | None => []
         end
  | _ => []
  end.

Definition saved (P : Platform) (mainTrigger : TriggerOutcome)
    (sidebarDelivers : string -> bool) (senderId text nanoid : string) (now : Z)
    (chat : Chat.t) (w : World) : World :=
  let message := SendOutcome.messageOf senderId text nanoid now chat in
  {| db := SendOutcome.stored P chat message (db w);
     log := log w
            ++ SendOutcome.commit chat message
               :: published P mainTrigger sidebarDelivers senderId chat message
                            (Redis.users (db w) !! Redis.userKey senderId) |}.

End SendV2Outcome.


(** ** The two halves of an add-member request *)

Module AddMemberPhases.
Import Fanout.
Section Phases.
Variable P : Platform.
Variable B : Broker.
Local Open Scope fanout_scope.

(** The route up to its last [await fetchRedis]: the guards and the two
    reads.  It hands on the chat it has read and the record of the new
    member. *)
Definition reads (session : option string) (chatId memberId : string)
    : Handler (Chat.t * option User.t) :=
  match session with
  | None => reply (text_response "Unauthorized" 401)
  | Some requesterId =>
      reply_if (falsy chatId || falsy memberId)
               (text_response "chatId and memberId are required." 400) ;;
      existingChatRaw <- read (fun d => Redis.chats d !! Redis.chatKey chatId) ;;
      match existingChatRaw with
      | None => reply (text_response "Chat not found." 404)
      | Some chat =>
          reply_if (negb (includes (Chat.memberIds chat) requesterId))
                   (text_response "Only chat members can add new participants." 401) ;;
          reply_if (includes (Chat.memberIds chat) memberId)
                   (text_response "User is already a member of this chat." 400) ;;
          let trimmedName := trim P (Chat.name chat) in
          reply_if ((2 <=? length (Chat.memberIds chat))%nat
                    && (String.length trimmedName =? 0)%nat)
                   (text_response
                      "Group name is required before adding more members to this chat."
                      400) ;;
          addedMember <- read (fun d => Redis.users d !! Redis.userKey memberId) ;;
          ret (chat, addedMember)
      end
  end.

(** The [Promise.all] of the route and its answer, from the chat that
    was read. *)
Definition writes (chatId memberId : string) (chat : Chat.t)
    (addedMember : option User.t) : Handler Response :=
  let updatedChat := AddMember.updatedChat chat memberId in
  await_all B (AddMember.caught B)
    ([ SetChat (Redis.chatKey (Chat.id updatedChat)) updatedChat;
       Sadd (Redis.userChatsKey memberId) (Chat.id updatedChat);
       Publish (toPusherKey P (Redis.userChatsKey memberId)) "added_to_chat"
               (Known (PChatEvent (Chat.id updatedChat) updatedChat));
       Publish (toPusherKey P (Redis.chatKey chatId)) "member_added"
               (MemberAdded memberId addedMember updatedChat) ]
     ++ map (fun memberId =>
               Publish (toPusherKey P (Redis.userChatsKey memberId))
                       "chat_updated"
                       (Known (PChatEvent (Chat.id updatedChat) updatedChat)))
            (Chat.memberIds chat)) ;;
  ret {| body := JsonChat updatedChat; status := 200 |}.

End Phases.
End AddMemberPhases.

Module SampleHistory.

Definition again : Message.t :=
  {| Message.id := "m2"; Message.chatId := "c2"; Message.senderId := "b";
     Message.text := "again"; Message.timestamp := 2000 |}.

(** The chat of [a] and [b] with the message of [a] and a later one of
    [b]. *)
Definition withTwo : World :=
  {| db := Redis.zadd SampleStore.P0 (db SampleEdit.withHello)
                      (Redis.chatMessagesKey "c2") 2000 again;
     log := [] |}.

End SampleHistory.


(** * Properties *)

(** ** Facts about the JavaScript primitives *)

Lemma streq_true a b : streq a b = true <-> a = b.
Proof. apply String.eqb_eq. Qed.

Lemma streq_false a b : streq a b = false <-> a <> b.
Proof. apply String.eqb_neq. Qed.

Lemma streq_refl a : streq a a = true.
Proof. apply String.eqb_refl. Qed.

Lemma includes_In arr x : includes arr x = true <-> In x arr.
Proof.
  unfold includes. rewrite existsb_exists. split.
  - intros (y & Hy & E). apply streq_true in E. now subst.
  - intros H. exists x. split; [assumption | apply streq_refl].
Qed.

Lemma includes_not_In arr x : includes arr x = false <-> ~ In x arr.
Proof.
  rewrite <- includes_In. destruct (includes arr x); split; congruence.
Qed.

Example split_examples :
  split "a--b" = ["a"; "b"]
  /\ split "a---b--" = ["a"; "-b"; ""]
  /\ split "a-b" = ["a-b"]
  /\ split "" = [""].
Proof. repeat split; reflexivity. Qed.

Lemma findIndex_Some {A} (p : A -> bool) (arr : list A) (i : nat) :
  findIndex p arr = Some i ->
  exists x, arr !! i = Some x /\ p x = true
            /\ forall j y, (j < i)%nat -> arr !! j = Some y -> p y = false.
Proof.
  revert i. induction arr as [|a arr IH]; intros i H; simpl in H.
  - discriminate.
  - destruct (p a) eqn:Ea.
    + injection H as <-. exists a. repeat split; auto. intros j y Hj. lia.
    + destruct (findIndex p arr) as [k|] eqn:Ek; simpl in H; [|discriminate].
      injection H as <-. destruct (IH k eq_refl) as (x & Hx & Hp & Hmin).
      exists x. repeat split; auto.
      intros [|j] y Hj Hy; simpl in Hy.
      * injection Hy as <-. exact Ea.
      * apply (Hmin j); [lia | exact Hy].
Qed.

Lemma findIndex_None {A} (p : A -> bool) (arr : list A) :
  findIndex p arr = None <-> forall x, In x arr -> p x = false.
Proof.
  induction arr as [|a arr IH]; simpl.
  - split; [intros _ x [] | reflexivity].
  - destruct (p a) eqn:Ea.
    + split; [discriminate |]. intros H. rewrite (H a) in Ea; [discriminate | now left].
    + destruct (findIndex p arr) as [k|] eqn:Ek; simpl.
      * split; [discriminate |]. intros H.
        assert (Some k = None) as E; [|discriminate E].
        apply IH. intros x Hx. apply H. now right.
      * split; [|reflexivity]. intros _ x [<- | Hx]; [exact Ea |].
        now apply (proj1 IH).
Qed.

(** ** Classification *)



(** The three classifications of the specification's examples. *)
Example classify_examples :
  Classify.isIndividualChat Sample.pair = true
  /\ Classify.isGroupChat Sample.pair = false
  /\ Classify.isIndividualChat Sample.studyGroup = false
  /\ Classify.isGroupChat Sample.studyGroup = true
  /\ Classify.isIndividualChat Sample.solo = false
  /\ Classify.isGroupChat Sample.solo = true.
Proof. repeat split; reflexivity. Qed.



(** ** Reconciliation of the message list *)

Section Reconciliation.
Import ExtendedMessage Messages Reconcile.

Lemma existsb_known prev message :
  existsb (fun msg => streq (id msg) (Message.id message)) prev = true
  <-> known prev message.
Proof.
  rewrite existsb_exists. unfold known.
  split; intros (r & Hr & E); exists r; split; auto; now apply streq_true.
Qed.

Lemma isOptimisticFor_match message r :
  isOptimisticFor message r = true
  <-> optimistic_match message r /\ id r <> Message.id message.
Proof.
  unfold isOptimisticFor, optimistic_match, isPending.
  rewrite !andb_true_iff, negb_true_iff, streq_false, !streq_true, Z.ltb_lt.
  destruct (status r) as [[| |]|]; intuition congruence.
Qed.

Lemma unknown_ids prev message r :
  ~ known prev message -> In r prev -> id r <> Message.id message.
Proof. intros Hk Hr E. apply Hk. now exists r. Qed.

Lemma displayed_unknown prev message :
  ~ known prev message -> displayed prev message = 0%nat.
Proof.
  unfold displayed. induction prev as [|a prev IH]; intros Hk; [reflexivity|].
  simpl. destruct (streq (id a) (Message.id message)) eqn:E.
  - exfalso. apply Hk. exists a. split; [now left | now apply streq_true].
  - apply IH. intros (r & Hr & Er). apply Hk. exists r. split; [now right | exact Er].
Qed.

Lemma displayed_insert prev message i :
  ~ known prev message -> (i < length prev)%nat ->
  displayed (<[i := ofMessage message sent]> prev) message = 1%nat.
Proof.
  unfold displayed. revert i.
  induction prev as [|a prev IH]; intros i Hk Hi; simpl in Hi; [lia|].
  assert (Hk' : ~ known prev message).
  { intros (r & Hr & Er). apply Hk. exists r. split; [now right | exact Er]. }
  destruct i as [|i]; simpl.
  - rewrite streq_refl. simpl. f_equal. now apply displayed_unknown.
  - destruct (streq (id a) (Message.id message)) eqn:E.
    + exfalso. apply Hk. exists a. split; [now left | now apply streq_true].
    + apply IH; [exact Hk' | lia].
Qed.

Lemma messageHandler_known chatId prev message :
  Message.chatId message = chatId ->
  known (messageHandler chatId prev message) message.
Proof.
  intros <-. unfold messageHandler. rewrite streq_refl. simpl.
  destruct (existsb _ prev) eqn:Ex.
  - now apply existsb_known.
  - destruct (findIndex _ prev) as [i|] eqn:Ei.
    + apply findIndex_Some in Ei. destruct Ei as (x & Hx & _).
      exists (ofMessage message sent). split; [|reflexivity].
      apply list_elem_of_In, list_elem_of_lookup. exists i.
      apply list_lookup_insert_eq. now apply lookup_lt_Some in Hx.
    + exists (ofMessage message sent). split; [now left | reflexivity].
Qed.

(** C1: on the channel of [chatId] (the canonical message carries that
    chat id), a message whose id is already displayed leaves the list as
    it is; otherwise the first pending record of the same sender, same
    text and a timestamp less than 2000 ms away is replaced at its own
    position by the canonical record, that is the record with the id, chat
    id, sender, text and timestamp of the message, status [sent] and no
    [tempId]; otherwise that record is put in front.  Delivering the event
    again changes nothing, and an id that was not displayed is displayed
    exactly once after two deliveries. *)
Theorem messageHandler_reconciles chatId prev message :
  Message.chatId message = chatId ->
  let canonical :=
    {| id := Message.id message; ExtendedMessage.chatId := Message.chatId message;
       senderId := Message.senderId message; text := Message.text message;
       timestamp := Message.timestamp message;
       status := Some sent; tempId := None |} in
  (known prev message -> messageHandler chatId prev message = prev)
  /\ (~ known prev message ->
      (exists r, In r prev /\ optimistic_match message r) ->
      exists i r,
        prev !! i = Some r /\ optimistic_match message r
        /\ (forall j r', (j < i)%nat -> prev !! j = Some r' ->
                         ~ optimistic_match message r')
        /\ messageHandler chatId prev message = <[i := canonical]> prev
        /\ messageHandler chatId prev message !! i = Some canonical
        /\ (forall j, j <> i ->
              messageHandler chatId prev message !! j = prev !! j)
        /\ length (messageHandler chatId prev message) = length prev)
  /\ (~ known prev message ->
      (forall r, In r prev -> ~ optimistic_match message r) ->
      messageHandler chatId prev message = canonical :: prev)
  /\ messageHandler chatId (messageHandler chatId prev message) message
     = messageHandler chatId prev message
  /\ (~ known prev message ->
      displayed (messageHandler chatId
                   (messageHandler chatId prev message) message) message
      = 1%nat).
Proof.
  intros Hchan canonical.
  change canonical with (ofMessage message sent). clear canonical.
  assert (Hskip : forall l, known l message -> messageHandler chatId l message = l).
  { intros l Hk. unfold messageHandler. rewrite Hchan, streq_refl. simpl.
    apply existsb_known in Hk. now rewrite Hk. }
  assert (Hidem : messageHandler chatId (messageHandler chatId prev message) message
                  = messageHandler chatId prev message).
  { apply Hskip. now apply messageHandler_known. }
  split; [apply Hskip|]. split; [|split; [|split; [exact Hidem|]]].
  - intros Hk (r0 & Hr0 & Hm0).
    unfold messageHandler. rewrite Hchan, streq_refl. simpl.
    destruct (existsb _ prev) eqn:Ex; [apply existsb_known in Ex; contradiction|].
    destruct (findIndex (isOptimisticFor message) prev) as [i|] eqn:Ei.
    + apply findIndex_Some in Ei. destruct Ei as (x & Hx & Hp & Hmin).
      apply isOptimisticFor_match in Hp. destruct Hp as [Hp _].
      pose proof (lookup_lt_Some _ _ _ Hx) as Hlt.
      exists i, x. repeat split; try assumption; try apply Hp.
      * intros j r' Hj Hr' Hm'.
        assert (isOptimisticFor message r' = true) as E.
        { apply isOptimisticFor_match. split; [exact Hm'|].
          apply (unknown_ids prev); [exact Hk|].
          apply list_elem_of_In, list_elem_of_lookup. now exists j. }
        rewrite (Hmin j r' Hj Hr') in E. discriminate.
      * now apply list_lookup_insert_eq.
      * intros j Hj. now apply list_lookup_insert_ne.
      * apply length_insert.
    + exfalso. rewrite findIndex_None in Ei.
      assert (isOptimisticFor message r0 = true) as E.
      { apply isOptimisticFor_match. split; [exact Hm0|].
        now apply (unknown_ids prev). }
      rewrite (Ei r0 Hr0) in E. discriminate.
  - intros Hk Hnone.
    unfold messageHandler. rewrite Hchan, streq_refl. simpl.
    destruct (existsb _ prev) eqn:Ex; [apply existsb_known in Ex; contradiction|].
    destruct (findIndex (isOptimisticFor message) prev) as [i|] eqn:Ei; [|reflexivity].
    exfalso. apply findIndex_Some in Ei. destruct Ei as (x & Hx & Hp & _).
    apply isOptimisticFor_match in Hp. destruct Hp as [Hp _].
    apply (Hnone x); [|exact Hp].
    apply list_elem_of_In, list_elem_of_lookup. now exists i.
  - intros Hk. rewrite Hidem.
    unfold messageHandler. rewrite Hchan, streq_refl. simpl.
    destruct (existsb _ prev) eqn:Ex; [apply existsb_known in Ex; contradiction|].
    destruct (findIndex (isOptimisticFor message) prev) as [i|] eqn:Ei.
    + apply findIndex_Some in Ei. destruct Ei as (x & Hx & _).
      apply displayed_insert; [exact Hk | now apply lookup_lt_Some in Hx].
    + unfold displayed. simpl. rewrite streq_refl. simpl. f_equal.
      now apply displayed_unknown.
Qed.

(** The specification's reconciliation example: the optimistic record
    [T] and the canonical [M], 500 ms apart, collapse to one record with
    id [M] and status [sent], in the position [T] had. *)
Lemma messageHandler_reconciles_witness :
  Message.chatId SampleMessages.canonical = "c"
  /\ ~ known [SampleMessages.older; SampleMessages.optimistic] SampleMessages.canonical
  /\ optimistic_match SampleMessages.canonical SampleMessages.optimistic
  /\ messageHandler "c" [SampleMessages.older; SampleMessages.optimistic]
                    SampleMessages.canonical
     = [ SampleMessages.older;
         {| id := "M"; ExtendedMessage.chatId := "c"; senderId := "U"; text := "hi";
            timestamp := 1500; status := Some sent; tempId := None |} ].
Proof.
  assert (Hk : ~ known [SampleMessages.older; SampleMessages.optimistic]
                       SampleMessages.canonical).
  { intros (r & [<-|[<-|[]]] & E); discriminate. }
  assert (Hm : optimistic_match SampleMessages.canonical SampleMessages.optimistic).
  { unfold optimistic_match. simpl. repeat split; lia. }
  split; [reflexivity|]. split; [exact Hk|]. split; [exact Hm|].
  destruct (messageHandler_reconciles "c"
              [SampleMessages.older; SampleMessages.optimistic]
              SampleMessages.canonical eq_refl) as (_ & Hreplace & _).
  destruct Hreplace as (i & r & Hi & Hr & _ & E & _);
    [exact Hk | exists SampleMessages.optimistic; split; [right; now left | exact Hm] |].
  rewrite E. destruct i as [|[|i]].
  - injection Hi as <-. destruct Hr as (Hs & _). discriminate.
  - reflexivity.
  - discriminate.
Defined.

Example messageHandler_collapses :
  messageHandler "c" [SampleMessages.older; SampleMessages.optimistic]
                 SampleMessages.canonical
  = [SampleMessages.older; ofMessage SampleMessages.canonical sent].
Proof. reflexivity. Qed.

(** The same, from the sender's side: the record shown by the optimistic
    handler is the one the canonical message later replaces. *)
Example optimistic_then_canonical :
  messageHandler "c"
    (handleOptimistic [SampleMessages.older] SampleMessages.optimistic)
    SampleMessages.canonical
  = [ofMessage SampleMessages.canonical sent; SampleMessages.older].
Proof. reflexivity. Qed.

End Reconciliation.

(** ** Running handlers *)

Lemma falsy_false s : falsy s = false <-> s <> "".
Proof. unfold falsy. apply streq_false. Qed.

Lemma In_filter_ne (members : list string) (memberId id : string) :
  In id (List.filter (fun x => negb (streq x memberId)) members)
  <-> In id members /\ id <> memberId.
Proof. rewrite filter_In, negb_true_iff, streq_false. reflexivity. Qed.

Lemma trigger_run channel event p w :
  trigger channel event p w
  = (inr tt, {| db := db w; log := log w ++ [Trigger channel event p] |}).
Proof. reflexivity. Qed.

Lemma for_each_trigger {A} (channel event : A -> string) (p : A -> Payload)
    (xs : list A) w :
  for_each (fun x => trigger (channel x) (event x) (p x)) xs w
  = (inr tt, {| db := db w;
                log := log w ++ map (fun x => Trigger (channel x) (event x) (p x)) xs |}).
Proof.
  revert w. induction xs as [|x xs IH]; intros w; simpl.
  - rewrite app_nil_r. now destruct w.
  - unfold bind. rewrite trigger_run, IH. simpl. now rewrite <- app_assoc.
Qed.

(** ** Removing a member *)

Lemma await_all_run B caught cs w :
  Fanout.await_all B caught cs w
  = (if forallb (Fanout.resolves B) cs then inr tt else inl caught,
     {| Fanout.db := foldl Fanout.land (Fanout.db w) cs;
        Fanout.log :=
          Fanout.log w ++ [Fanout.Together (List.filter (Fanout.resolves B) cs)] |}).
Proof. unfold Fanout.await_all. now destruct (forallb (Fanout.resolves B) cs). Qed.

Lemma land_events {A} (channel event : A -> string) (n : A -> Fanout.Notice)
    (xs : list A) d :
  foldl Fanout.land d (map (fun x => Fanout.Publish (channel x) (event x) (n x)) xs)
  = d.
Proof. induction xs as [|x xs IH]; simpl; [reflexivity | exact IH]. Qed.

Lemma smembers_srem d key member :
  Redis.smembers (Redis.srem d key member) key
  = Redis.smembers d key ∖ {[member]}.
Proof.
  unfold Redis.srem, Redis.smembers at 1. simpl.
  destruct (decide (Redis.smembers d key ∖ {[member]} = ∅)) as [E|E].
  - rewrite lookup_delete_eq. simpl. now rewrite E.
  - now rewrite lookup_insert_eq.
Qed.

Section RemoveMemberProps.
Variable P : Platform.
Variable B : Broker.
Import RemoveMemberOutcome.

Lemma remove_member_run requesterId chatId memberId chat w :
  Redis.chats (Fanout.db w) !! Redis.chatKey chatId = Some chat ->
  Fanout.run (RemoveMember.POST P B (Some requesterId) chatId memberId) w
  = if falsy chatId || falsy memberId
    then (text_response "chatId and memberId are required." 400, w)
    else if negb (includes (Chat.memberIds chat) requesterId)
    then (text_response "Only chat members can remove participants." 401, w)
    else if Classify.isIndividualChat chat
    then (text_response
            "Cannot remove members from a direct message chat. Use remove friend instead."
            400, w)
    else if (length (Chat.memberIds chat) <=? 1)%nat
    then (text_response "Cannot remove the last member from a group." 400, w)
    else if negb (includes (Chat.memberIds chat) memberId)
    then (text_response "User is not a member of this chat." 400, w)
    else if streq memberId requesterId
    then (text_response "You cannot remove yourself from the chat." 400, w)
    else (answer P B chat chatId memberId, started P B chat chatId memberId w).
Proof.
  intros Hchat. unfold RemoveMember.POST, Fanout.run, Classify.isIndividualChat.
  unfold Fanout.bind, Fanout.reply_if, Fanout.reply, Fanout.ret, Fanout.read.
  destruct (falsy chatId || falsy memberId); [reflexivity|].
  rewrite Hchat.
  destruct (negb (includes (Chat.memberIds chat) requesterId)); [reflexivity|].
  destruct ((length (Chat.memberIds chat) =? 2)%nat && streq (Chat.name chat) SENTINEL);
    [reflexivity|].
  destruct (length (Chat.memberIds chat) <=? 1)%nat; [reflexivity|].
  destruct (negb (includes (Chat.memberIds chat) memberId)); [reflexivity|].
  destruct (streq memberId requesterId); [reflexivity|].
  rewrite await_all_run.
  unfold answer, started, events, writes, updatedChat, RemoveMember.caught.
  cbn [foldl app Fanout.land List.filter forallb Fanout.resolves Chat.id Chat.memberIds
       Fanout.db Fanout.log andb].
  rewrite land_events.
  match goal with |- context [if ?c then inr tt else _] => destruct c end;
    reflexivity.
Qed.

Lemma remove_member_guarded session chatId memberId w :
  400 <= status (Fanout.run (RemoveMember.POST P B session chatId memberId) w).1 < 500 ->
  (Fanout.run (RemoveMember.POST P B session chatId memberId) w).2 = w.
Proof.
  destruct session as [requesterId|]; [|reflexivity].
  destruct (Redis.chats (Fanout.db w) !! Redis.chatKey chatId) as [chat|] eqn:Hchat.
  - rewrite (remove_member_run _ _ _ _ _ Hchat).
    repeat (match goal with |- context [if ?c then _ else _] => destruct c end;
            [reflexivity|]).
    unfold answer. destruct (forallb _ _); simpl; lia.
  - unfold RemoveMember.POST, Fanout.run, Fanout.bind, Fanout.reply_if, Fanout.reply,
      Fanout.ret, Fanout.read.
    destruct (falsy chatId || falsy memberId); [reflexivity|].
    now rewrite Hchat.
Qed.

Lemma rejecting_guards chat requesterId memberId :
  rejecting chat requesterId memberId
  <-> negb (includes (Chat.memberIds chat) requesterId) = true
      \/ Classify.isIndividualChat chat = true
      \/ (length (Chat.memberIds chat) <=? 1)%nat = true
      \/ negb (includes (Chat.memberIds chat) memberId) = true
      \/ streq memberId requesterId = true.
Proof.
  unfold rejecting.
  rewrite !negb_true_iff, !includes_not_In, Nat.leb_le, streq_true.
  split; [|tauto].
  intros [H|[H|[H|[H|[H|H]]]]]; try tauto.
  destruct (decide (memberId = requesterId)) as [E|E]; [tauto|].
  destruct (In_dec string_dec requesterId (Chat.memberIds chat)) as [Hin|Hin]; [|tauto].
  exfalso. assert (In requesterId (Chat.memberIds (updatedChat chat memberId))) as Hr.
  { unfold updatedChat. simpl. apply In_filter_ne. split; [exact Hin | congruence]. }
  rewrite H in Hr. exact Hr.
Qed.

(** What a request that passes the guards leaves, whatever the broker
    does. *)
Lemma remove_member_passes requesterId chatId memberId chat w :
  Redis.chats (Fanout.db w) !! Redis.chatKey chatId = Some chat ->
  ~ rejecting chat requesterId memberId -> chatId <> "" -> memberId <> "" ->
  Fanout.run (RemoveMember.POST P B (Some requesterId) chatId memberId) w
  = (answer P B chat chatId memberId, started P B chat chatId memberId w).
Proof.
  intros Hchat Hn Hc Hm. rewrite rejecting_guards in Hn.
  rewrite (remove_member_run _ _ _ _ _ Hchat).
  apply falsy_false in Hc, Hm. rewrite Hc, Hm. cbn [orb].
  destruct (negb (includes (Chat.memberIds chat) requesterId)); [tauto|].
  destruct (Classify.isIndividualChat chat); [tauto|].
  destruct (length (Chat.memberIds chat) <=? 1)%nat; [tauto|].
  destruct (negb (includes (Chat.memberIds chat) memberId)); [tauto|].
  destruct (streq memberId requesterId); [tauto|].
  reflexivity.
Qed.

(** C4: for a stored chat, a remove-member request is answered with an
    error of the route's own (400 or 401), and nothing is written or
    published, whenever the chat is a DirectMessage, the removal would
    leave no member (or the chat has at most one), the target is the
    requester, the requester is not a member, or the target is not a
    member; so the store changes, and the answer is 200, only when none of
    these holds.  When none holds (the ids being non-empty) the member is
    removed from the stored chat and the chat from the member's index,
    whatever the broker does with the events; the answer is then 200 with
    the updated chat when the broker accepts every event of the request,
    and the 500 of the route's [catch] otherwise. *)
Theorem remove_member_rejects requesterId chatId memberId chat w :
  Redis.chats (Fanout.db w) !! Redis.chatKey chatId = Some chat ->
  let out := Fanout.run (RemoveMember.POST P B (Some requesterId) chatId memberId) w in
  let delivered :=
    forallb (Fanout.resolves B) (events P chat chatId memberId) in
  (rejecting chat requesterId memberId -> 400 <= status out.1 < 500 /\ out.2 = w)
  /\ (out.2 <> w -> ~ rejecting chat requesterId memberId)
  /\ (status out.1 = 200 -> ~ rejecting chat requesterId memberId)
  /\ (~ rejecting chat requesterId memberId -> chatId <> "" -> memberId <> "" ->
      out.2 = started P B chat chatId memberId w
      /\ Redis.chats (Fanout.db out.2) !! Redis.chatKey (Chat.id chat)
      = Some {| Chat.id := Chat.id chat; Chat.name := Chat.name chat;
                Chat.memberIds :=
                  List.filter (fun id => negb (streq id memberId)) (Chat.memberIds chat);
                Chat.createdAt := Chat.createdAt chat |}
      /\ (forall id, In id (Chat.memberIds (updatedChat chat memberId))
                     <-> In id (Chat.memberIds chat) /\ id <> memberId)
      /\ (chatId ∉ Redis.smembers (Fanout.db out.2) (Redis.userChatsKey memberId))
      /\ Redis.users (Fanout.db out.2) = Redis.users (Fanout.db w)
      /\ Redis.zsets (Fanout.db out.2) = Redis.zsets (Fanout.db w)
      /\ (delivered = true ->
          out.1 = {| body := JsonChat (updatedChat chat memberId); status := 200 |})
      /\ (delivered = false -> out.1 = text_response (failure B) 500)).
Proof.
  intros Hchat out delivered.
  assert (Hrej : rejecting chat requesterId memberId ->
                 400 <= status out.1 < 500 /\ out.2 = w).
  { intros Hr. apply rejecting_guards in Hr. subst out.
    rewrite (remove_member_run _ _ _ _ _ Hchat).
    destruct (falsy chatId || falsy memberId); [simpl; split; [lia | reflexivity]|].
    destruct (negb (includes (Chat.memberIds chat) requesterId));
      [simpl; split; [lia | reflexivity]|].
    destruct (Classify.isIndividualChat chat); [simpl; split; [lia | reflexivity]|].
    destruct (length (Chat.memberIds chat) <=? 1)%nat; [simpl; split; [lia | reflexivity]|].
    destruct (negb (includes (Chat.memberIds chat) memberId));
      [simpl; split; [lia | reflexivity]|].
    destruct (streq memberId requesterId); [simpl; split; [lia | reflexivity]|].
    exfalso. intuition discriminate. }
  split; [exact Hrej|]. split; [|split].
  - intros Hne Hr. apply Hne. now apply Hrej.
  - intros H200 Hr. destruct (Hrej Hr) as [Hge _]. lia.
  - intros Hn Hc Hm. subst out delivered.
    rewrite (remove_member_passes _ _ _ _ _ Hchat Hn Hc Hm).
    cbn [fst snd]. split; [reflexivity|].
    unfold started, answer. cbn [Fanout.db].
    split; [apply lookup_insert_eq|].
    split; [intros id; apply In_filter_ne|].
    split.
    { rewrite smembers_srem, elem_of_difference, elem_of_singleton. tauto. }
    split; [reflexivity|]. split; [reflexivity|].
    split; intros ->; reflexivity.
Qed.

End RemoveMemberProps.

Lemma remove_member_rejects_witness :
  Redis.chats (Fanout.db SampleStore.withTrio) !! Redis.chatKey "g1"
  = Some SampleStore.trio
  /\ ~ RemoveMemberOutcome.rejecting SampleStore.trio "a" "b"
  /\ Redis.chats
       (Fanout.db (Fanout.run (RemoveMember.POST SampleStore.P0 SampleStore.down
                                                 (Some "a") "g1" "b")
                              SampleStore.withTrio).2) !! Redis.chatKey "g1"
     = Some {| Chat.id := "g1"; Chat.name := "Study Group";
               Chat.memberIds := ["a"; "c"]; Chat.createdAt := Some 50 |}
  /\ (Fanout.run (RemoveMember.POST SampleStore.P0 SampleStore.down (Some "a") "g1" "b")
                 SampleStore.withTrio).1
     = text_response "Pusher is unreachable" 500.
Proof.
  assert (Hn : ~ RemoveMemberOutcome.rejecting SampleStore.trio "a" "b").
  { intros [H|[H|[H|[H|[H|H]]]]].
    - cbv in H. discriminate H.
    - cbv in H. discriminate H.
    - simpl in H. lia.
    - discriminate H.
    - apply H. simpl. auto.
    - apply H. simpl. auto. }
  split; [reflexivity|]. split; [exact Hn|].
  destruct (remove_member_rejects SampleStore.P0 SampleStore.down "a" "g1" "b"
              SampleStore.trio SampleStore.withTrio eq_refl) as (_ & _ & _ & Hacc).
  destruct (Hacc Hn) as (_ & Hstored & _ & _ & _ & _ & _ & Hdown); [discriminate.. |].
  split; [exact Hstored | apply Hdown; reflexivity].
Defined.

Example remove_member_from_pair_rejected :
  let w := Fanout.start (Redis.set SampleStore.emptyDb (Redis.chatKey "c2") Sample.pair) in
  Fanout.run (RemoveMember.POST SampleStore.P0 SampleStore.B0 (Some "a") "c2" "b") w
  = (text_response
       "Cannot remove members from a direct message chat. Use remove friend instead."
       400, w).
Proof. reflexivity. Qed.

Example remove_member_accepted :
  (Fanout.run (RemoveMember.POST SampleStore.P0 SampleStore.B0 (Some "a") "g1" "b")
              SampleStore.withTrio).1
  = {| body := JsonChat (RemoveMemberOutcome.updatedChat SampleStore.trio "b");
       status := 200 |}.
Proof. vm_compute. reflexivity. Qed.

(** ** Creating a chat *)

Lemma writes_resolve B {A} (f : A -> Fanout.Call) (xs : list A) :
  (forall x, Fanout.resolves B (f x) = true) ->
  forallb (Fanout.resolves B) (map f xs) = true
  /\ List.filter (Fanout.resolves B) (map f xs) = map f xs.
Proof.
  intros Hf. induction xs as [|x xs [IH1 IH2]]; simpl; [now split|].
  rewrite Hf, IH1, IH2. now split.
Qed.

Lemma land_sadd {A} (key : A -> string) (member : string) (xs : list A) d :
  foldl Fanout.land d (map (fun x => Fanout.Sadd (key x) member) xs)
  = foldl (fun d x => Redis.sadd d (key x) member) d xs.
Proof. revert d. induction xs as [|x xs IH]; intros d; simpl; [reflexivity | apply IH]. Qed.

Lemma smembers_sadd d key member key' :
  Redis.smembers (Redis.sadd d key member) key'
  = if decide (key = key') then {[member]} ∪ Redis.smembers d key'
    else Redis.smembers d key'.
Proof.
  unfold Redis.sadd, Redis.smembers at 1. simpl.
  destruct (decide (key = key')) as [<-|Hne].
  - now rewrite lookup_insert_eq.
  - now rewrite lookup_insert_ne.
Qed.

Lemma chats_foldl_sadd {A} (key : A -> string) member (xs : list A) d :
  Redis.chats (foldl (fun d x => Redis.sadd d (key x) member) d xs) = Redis.chats d.
Proof. revert d. induction xs as [|x xs IH]; intros d; simpl; [reflexivity|]. now rewrite IH. Qed.

Lemma users_foldl_sadd {A} (key : A -> string) member (xs : list A) d :
  Redis.users (foldl (fun d x => Redis.sadd d (key x) member) d xs) = Redis.users d.
Proof. revert d. induction xs as [|x xs IH]; intros d; simpl; [reflexivity|]. now rewrite IH. Qed.

Lemma zsets_foldl_sadd {A} (key : A -> string) member (xs : list A) d :
  Redis.zsets (foldl (fun d x => Redis.sadd d (key x) member) d xs) = Redis.zsets d.
Proof. revert d. induction xs as [|x xs IH]; intros d; simpl; [reflexivity|]. now rewrite IH. Qed.

Lemma smembers_foldl_sadd {A} (key : A -> string) member (xs : list A) d x :
  In x xs ->
  member ∈ Redis.smembers (foldl (fun d x => Redis.sadd d (key x) member) d xs) (key x).
Proof.
  assert (Hkeep : forall ys d k, member ∈ Redis.smembers d k ->
            member ∈ Redis.smembers
                       (foldl (fun d x => Redis.sadd d (key x) member) d ys) k).
  { induction ys as [|y ys IH]; intros d0 k Hm; simpl; [exact Hm|].
    apply IH. rewrite smembers_sadd. destruct (decide (key y = k)); [|exact Hm].
    apply elem_of_union. now right. }
  revert d. induction xs as [|y xs IH]; intros d Hin; simpl in *; [contradiction|].
  destruct Hin as [->|Hin]; [|now apply IH].
  apply Hkeep. rewrite smembers_sadd. rewrite decide_True by reflexivity.
  apply elem_of_union. left. now apply elem_of_singleton.
Qed.

Lemma length_zero_empty (s : string) :
  (String.length s =? 0)%nat = true <-> s = "".
Proof. rewrite Nat.eqb_eq. destruct s; simpl; split; congruence. Qed.

Lemma find_other (memberIds : list string) (requesterId other : string) :
  length memberIds = 2%nat -> In requesterId memberIds -> In other memberIds ->
  other <> requesterId ->
  List.find (fun id => negb (streq id requesterId)) memberIds = Some other.
Proof.
  intros Hlen Hr Ho Hne.
  destruct memberIds as [|a [|b [|c rest]]]; try discriminate Hlen.
  simpl in *.
  destruct (streq a requesterId) eqn:Ea; simpl.
  - apply streq_true in Ea. subst a.
    destruct (streq b requesterId) eqn:Eb; simpl.
    + apply streq_true in Eb. subst b. intuition congruence.
    + f_equal. intuition congruence.
  - apply streq_false in Ea. f_equal.
    destruct Ho as [Ho|[Ho|[]]]; [exact Ho|].
    destruct Hr as [Hr|[Hr|[]]]; congruence.
Qed.

Section CreateChatProps.
Variable P : Platform.
Variable B : Broker.
Import CreateChatOutcome.

(** The calls of a request that has passed the guards. *)
Lemma create_chat_tail requesterId (chat : Chat.t) w :
  Fanout.run
    (Fanout.bind
       (Fanout.await B (CreateChat.caught B)
          (Fanout.SetChat (Redis.chatKey (Chat.id chat)) chat))
       (fun _ =>
          Fanout.bind
            (Fanout.await_all B (CreateChat.caught B) (indexing chat))
            (fun _ =>
               Fanout.bind
                 (Fanout.await_all B (CreateChat.caught B)
                                   (events P requesterId chat))
                 (fun _ => Fanout.ret {| body := JsonChat chat; status := 201 |}))))
    w
  = (answer P B requesterId chat, started P B requesterId chat w).
Proof.
  unfold Fanout.run, Fanout.bind, Fanout.await. cbn [Fanout.resolves].
  rewrite !await_all_run. cbn [Fanout.db Fanout.log Fanout.land].
  destruct (writes_resolve B
              (fun m => Fanout.Sadd (Redis.userChatsKey m) (Chat.id chat))
              (Chat.memberIds chat) (fun _ => eq_refl)) as [Hall Hkeep].
  fold (indexing chat) in Hall, Hkeep. rewrite Hall, Hkeep.
  unfold answer, started.
  assert (Hdb : forall d, foldl Fanout.land d (events P requesterId chat) = d).
  { intros d. unfold events. rewrite !foldl_app, !land_events. reflexivity. }
  assert (Hidx : forall d,
            foldl Fanout.land d (indexing chat)
            = foldl (fun d m => Redis.sadd d (Redis.userChatsKey m) (Chat.id chat)) d
                    (Chat.memberIds chat)).
  { intros d. unfold indexing. apply land_sadd. }
  rewrite Hdb, Hidx. rewrite <- !app_assoc. cbn [app]. unfold Fanout.ret.
  destruct (forallb (Fanout.resolves B) (events P requesterId chat)); reflexivity.
Qed.

Lemma create_chat_run requesterId name memberIds nanoid now w :
  Fanout.run (CreateChat.POST P B (Some requesterId) name memberIds nanoid now) w
  = if (length memberIds <? 1)%nat
    then (text_response "A chat must have at least one member." 400, w)
    else if negb (includes memberIds requesterId)
    then (text_response "Requester must be a member of the chat." 400, w)
    else if (2 <? length memberIds)%nat
            && (String.length (CreateChat.trimmedNameOf P name) =? 0)%nat
    then (text_response
            "Group name is required for chats with more than 2 members." 400, w)
    else if refused_as_non_friend requesterId memberIds (Fanout.db w)
    then (text_response "Cannot create a direct message with a non-friend." 401, w)
    else (answer P B requesterId (created P name memberIds nanoid now),
          started P B requesterId (created P name memberIds nanoid now) w).
Proof.
  pose proof (create_chat_tail requesterId (created P name memberIds nanoid now) w)
    as Htail.
  unfold CreateChat.POST, refused_as_non_friend, CreateChat.friend_check.
  fold (finalName P name memberIds).
  fold (created P name memberIds nanoid now).
  fold (others requesterId memberIds).
  change (map (fun memberId => Fanout.Sadd (Redis.userChatsKey memberId)
                                 (Chat.id (created P name memberIds nanoid now)))
              memberIds)
    with (indexing (created P name memberIds nanoid now)).
  change (map _ (others requesterId memberIds) ++ map _ (others requesterId memberIds)
          ++ [_])%list
    with (events P requesterId (created P name memberIds nanoid now)).
  revert Htail.
  generalize (Fanout.bind
       (Fanout.await B (CreateChat.caught B)
          (Fanout.SetChat (Redis.chatKey (Chat.id (created P name memberIds nanoid now)))
             (created P name memberIds nanoid now)))
       (fun _ : unit =>
          Fanout.bind
            (Fanout.await_all B (CreateChat.caught B)
               (indexing (created P name memberIds nanoid now)))
            (fun _ : unit =>
               Fanout.bind
                 (Fanout.await_all B (CreateChat.caught B)
                                   (events P requesterId
                                      (created P name memberIds nanoid now)))
                 (fun _ : unit =>
                    Fanout.ret {| body := JsonChat (created P name memberIds nanoid now);
                                  status := 201 |})))).
  intros tail Htail.
  unfold Fanout.run in *. unfold Fanout.bind, Fanout.reply_if, Fanout.reply, Fanout.ret,
    Fanout.read.
  destruct (length memberIds <? 1)%nat; [reflexivity|].
  destruct (negb (includes memberIds requesterId)); [reflexivity|].
  destruct ((2 <? length memberIds)%nat && _); [reflexivity|].
  destruct (length memberIds =? 2)%nat; cbn [andb]; [|exact Htail].
  destruct (List.find _ memberIds) as [otherId|]; [|exact Htail].
  destruct (falsy otherId); cbn [negb andb]; [exact Htail|].
  destruct (bool_decide _); cbn [negb]; [exact Htail | reflexivity].
Qed.

(** What the route writes once a request has passed its guards, whatever
    the broker does with the events. *)
Lemma created_is_stored requesterId (chat : Chat.t) w :
  Redis.chats (Fanout.db (started P B requesterId chat w)) !! Redis.chatKey (Chat.id chat)
  = Some chat
  /\ (forall m, In m (Chat.memberIds chat) ->
        Chat.id chat
        ∈ Redis.smembers (Fanout.db (started P B requesterId chat w))
                         (Redis.userChatsKey m))
  /\ Redis.users (Fanout.db (started P B requesterId chat w)) = Redis.users (Fanout.db w)
  /\ Redis.zsets (Fanout.db (started P B requesterId chat w)) = Redis.zsets (Fanout.db w).
Proof.
  unfold started. cbn [Fanout.db]. split; [|split; [|split]].
  - rewrite chats_foldl_sadd. apply lookup_insert_eq.
  - intros m Hm.
    apply (smembers_foldl_sadd Redis.userChatsKey (Chat.id chat) (Chat.memberIds chat)
                               _ m Hm).
  - now rewrite users_foldl_sadd.
  - now rewrite zsets_foldl_sadd.
Qed.

(** The guards of the route: a request is refused, with nothing written
    or published, when the requester is not among [memberIds], when there
    are more than two entries and the trimmed name is empty, and when
    there are exactly two entries and the other one is a non-empty id
    that is not in the requester's friend list; with exactly two entries
    and no name the chat to create carries the sentinel name and is a
    DirectMessage.  A request that is answered 201 has stored the chat
    and registered it in every member's index, and a request of two
    friends is answered 201 when the broker accepts its events. *)
Theorem create_chat_guards requesterId name memberIds nanoid now w :
  let out :=
    Fanout.run (CreateChat.POST P B (Some requesterId) name memberIds nanoid now) w in
  let chat := created P name memberIds nanoid now in
  let friends := Redis.smembers (Fanout.db w) (Redis.userFriendsKey requesterId) in
  (~ In requesterId memberIds -> status out.1 = 400 /\ out.2 = w)
  /\ ((2 < length memberIds)%nat -> CreateChat.trimmedNameOf P name = "" ->
      status out.1 = 400 /\ out.2 = w)
  /\ (length memberIds = 2%nat -> name = None ->
      Chat.name chat = SENTINEL /\ Classify.isIndividualChat chat = true)
  /\ (length memberIds = 2%nat ->
      forall other, In other memberIds -> other <> requesterId -> other <> "" ->
                    other ∉ friends ->
                    (status out.1 = 400 \/ status out.1 = 401) /\ out.2 = w)
  /\ (status out.1 = 201 ->
      out.1 = {| body := JsonChat chat; status := 201 |}
      /\ out.2 = started P B requesterId chat w
      /\ Redis.chats (Fanout.db out.2) !! Redis.chatKey nanoid = Some chat
      /\ forall m, In m memberIds ->
                   nanoid ∈ Redis.smembers (Fanout.db out.2) (Redis.userChatsKey m))
  /\ (400 <= status out.1 < 500 -> out.2 = w)
  /\ (In requesterId memberIds -> length memberIds = 2%nat ->
      (forall id, In id memberIds -> id <> requesterId -> id ∈ friends) ->
      out.1 = answer P B requesterId chat).
Proof.
  intros out chat friends. subst out.
  rewrite create_chat_run.
  split; [|split; [|split; [|split; [|split; [|split]]]]].
  - intros Hr. apply includes_not_In in Hr. rewrite Hr. simpl.
    destruct (length memberIds <? 1)%nat; simpl; auto.
  - intros Hlen He.
    apply Nat.ltb_lt in Hlen. rewrite Hlen.
    apply length_zero_empty in He. rewrite He. simpl.
    destruct (length memberIds <? 1)%nat; simpl; auto.
    destruct (negb (includes memberIds requesterId)); simpl; auto.
  - intros Hlen ->. subst chat. unfold created, finalName, Classify.isIndividualChat.
    simpl. rewrite Hlen. simpl. split; reflexivity.
  - intros Hlen other Ho Hne Hnz Hnf.
    destruct (length memberIds <? 1)%nat; simpl; auto.
    destruct (includes memberIds requesterId) eqn:Hr; simpl; auto.
    apply includes_In in Hr.
    assert ((2 <? length memberIds)%nat = false) as -> by (apply Nat.ltb_ge; lia).
    simpl. unfold refused_as_non_friend.
    rewrite (find_other _ _ _ Hlen Hr Ho Hne), Hlen. simpl.
    apply falsy_false in Hnz. rewrite Hnz. simpl.
    rewrite bool_decide_eq_false_2 by exact Hnf. simpl. auto.
  - repeat (match goal with |- context [if ?c then (_, w) else _] => destruct c end;
            [simpl; discriminate|]).
    cbn [fst snd]. unfold answer.
    destruct (forallb _ _); [|simpl; discriminate].
    intros _. split; [reflexivity|]. split; [reflexivity|].
    destruct (created_is_stored requesterId chat w) as (Hc & Hi & _).
    split; [exact Hc | exact Hi].
  - repeat (match goal with |- context [if ?c then (_, w) else _] => destruct c end;
            [reflexivity|]).
    cbn [fst snd]. unfold answer. destruct (forallb _ _); simpl; lia.
  - intros Hr Hlen Hfr.
    assert ((length memberIds <? 1)%nat = false) as -> by (apply Nat.ltb_ge; lia).
    apply includes_In in Hr. rewrite Hr. simpl.
    assert ((2 <? length memberIds)%nat = false) as -> by (apply Nat.ltb_ge; lia).
    simpl. unfold refused_as_non_friend. rewrite Hlen. simpl.
    destruct (List.find _ memberIds) as [x|] eqn:Ex; [|reflexivity].
    apply find_some in Ex. destruct Ex as [Hx Hxr].
    apply negb_true_iff, streq_false in Hxr.
    rewrite (bool_decide_eq_true_2 _ (Hfr x Hx Hxr)). simpl.
    rewrite andb_false_r. reflexivity.
Qed.

(** C5: the friendship rule of a two-member request is not enforced when
    the second entry is the empty string.  A request naming the requester
    and [""] passes every guard in every store, without the friend list
    being read: the chat is stored with these two member ids (as a
    DirectMessage when no name is sent) and registered in the index of
    the requester and in that of the empty id, and the answer is 201 when
    the broker accepts the events.  For every other second entry that is
    not a friend of the requester the same request is refused with 401
    and nothing is written. *)
Theorem create_with_empty_id_unchecked requesterId name nanoid now w :
  let out :=
    Fanout.run (CreateChat.POST P B (Some requesterId) name [requesterId; ""] nanoid now)
               w in
  let chat := {| Chat.id := nanoid;
                 Chat.name := finalName P name [requesterId; ""];
                 Chat.memberIds := [requesterId; ""];
                 Chat.createdAt := Some now |} in
  out.2 = started P B requesterId chat w
  /\ Redis.chats (Fanout.db out.2) !! Redis.chatKey nanoid = Some chat
  /\ (nanoid ∈ Redis.smembers (Fanout.db out.2) (Redis.userChatsKey requesterId))
  /\ (nanoid ∈ Redis.smembers (Fanout.db out.2) (Redis.userChatsKey ""))
  /\ (name = None -> Chat.name chat = SENTINEL /\ Classify.isIndividualChat chat = true)
  /\ (forallb (Fanout.resolves B) (events P requesterId chat) = true ->
      out.1 = {| body := JsonChat chat; status := 201 |})
  /\ (forallb (Fanout.resolves B) (events P requesterId chat) = false ->
      out.1 = text_response (failure B) 500)
  /\ (forall other,
        other <> "" -> other <> requesterId ->
        other ∉ Redis.smembers (Fanout.db w) (Redis.userFriendsKey requesterId) ->
        Fanout.run
          (CreateChat.POST P B (Some requesterId) name [requesterId; other] nanoid now) w
        = (text_response "Cannot create a direct message with a non-friend." 401, w)).
Proof.
  intros out chat.
  assert (Hinc : forall x, includes [requesterId; x] requesterId = true).
  { intros x. apply includes_In. simpl. auto. }
  assert (Hrun : out = (answer P B requesterId chat, started P B requesterId chat w)).
  { subst out. rewrite create_chat_run.
    change (created P name [requesterId; ""] nanoid now) with chat.
    rewrite (Hinc ""). unfold refused_as_non_friend.
    cbn [length Nat.ltb Nat.leb Nat.eqb andb negb List.find].
    rewrite streq_refl. cbn [negb].
    destruct (streq "" requesterId); reflexivity. }
  rewrite Hrun. cbn [fst snd].
  destruct (created_is_stored requesterId chat w) as (Hc & Hi & _).
  split; [reflexivity|]. split; [exact Hc|].
  split; [apply Hi; simpl; auto|]. split; [apply Hi; simpl; auto|].
  split.
  { intros ->. split; reflexivity. }
  split; [unfold answer; now intros ->|]. split; [unfold answer; now intros ->|].
  intros other Hnz Hne Hnf. rewrite create_chat_run.
  rewrite (Hinc other). unfold refused_as_non_friend.
  cbn [length Nat.ltb Nat.leb Nat.eqb andb negb List.find].
  rewrite streq_refl. cbn [negb].
  assert (streq other requesterId = false) as Ho.
  { destruct (streq other requesterId) eqn:E; [|reflexivity].
    apply streq_true in E. contradiction. }
  rewrite Ho. cbn [negb].
  apply falsy_false in Hnz. rewrite Hnz. cbn [negb andb].
  rewrite bool_decide_eq_false_2 by exact Hnf. reflexivity.
Qed.

End CreateChatProps.

(** ** Sending a message *)

Section SendMessageProps.
Variable P : Platform.
Import SendOutcome.

Lemma send_tail_run senderId text nanoid now chat w :
  run (bind (read (fun d => Redis.users d !! Redis.userKey senderId)) (fun sender =>
       bind (trigger (toPusherKey P (Redis.chatKey (Chat.id chat))) "incoming-message"
                     (PMessage (messageOf senderId text nanoid now chat))) (fun _ =>
       bind (match others senderId chat, sender with
             | [], _ => ret tt
             | _ :: _, None =>
                 throw "Cannot read properties of null (reading 'image')"
             | _ :: _, Some sender =>
                 for_each (fun memberId =>
                             trigger (toPusherKey P (Redis.userChatsKey memberId))
                                     "new_message"
                                     (PMessageFrom (messageOf senderId text nanoid now chat)
                                                   (User.image sender) (User.name sender)))
                          (others senderId chat)
             end) (fun _ =>
       bind (db_zadd P (Redis.chatMessagesKey (Chat.id chat)) now
                     (messageOf senderId text nanoid now chat)) (fun _ =>
       ret (text_response "OK" 200)))))) w
  = delivered P senderId text nanoid now chat
              (Redis.users (db w) !! Redis.userKey senderId) w.
Proof.
  unfold delivered, run, bind at 1 2, read. rewrite trigger_run.
  destruct (others senderId chat) as [|o os] eqn:Eo.
  - unfold bind, ret, db_zadd, perform. simpl. rewrite <- app_assoc. reflexivity.
  - destruct (Redis.users (db w) !! Redis.userKey senderId) as [u|].
    + unfold bind at 1. rewrite for_each_trigger.
      unfold bind, ret, db_zadd, perform, notifications. simpl.
      rewrite Eo. simpl. rewrite <- !app_assoc. reflexivity.
    + unfold bind, throw, reply. reflexivity.
Qed.

Lemma send_existing_run senderId text chatId nanoid now chat w :
  Redis.chats (db w) !! Redis.chatKey chatId = Some chat ->
  run (SendMessage.POST P (Some senderId) text chatId nanoid now) w
  = if negb (includes (Chat.memberIds chat) senderId)
    then (text_response "Unauthorized" 401, w)
    else delivered P senderId text nanoid now chat
                   (Redis.users (db w) !! Redis.userKey senderId) w.
Proof.
  intros Hchat. unfold SendMessage.POST.
  unfold run at 1, bind at 1, read at 1. cbv beta iota. rewrite Hchat.
  destruct (negb (includes (Chat.memberIds chat) senderId)).
  - reflexivity.
  - exact (send_tail_run senderId text nanoid now chat w).
Qed.

Lemma bootstrap_run senderId chatId userId1 userId2 rest w :
  split chatId = userId1 :: userId2 :: rest ->
  SendMessage.bootstrap senderId chatId w
  = if negb (streq senderId userId1) && negb (streq senderId userId2)
    then (inl (text_response "Unauthorized" 401), w)
    else if negb (bool_decide
                    (otherParticipant senderId userId1 userId2
                     ∈ Redis.smembers (db w) (Redis.userFriendsKey senderId)))
    then (inl (text_response "Unauthorized" 401), w)
    else (inr (implicitChat chatId userId1 userId2),
          bootstrapped chatId userId1 userId2 w).
Proof.
  intros Hsplit. unfold SendMessage.bootstrap. rewrite Hsplit.
  change (nth 0 (userId1 :: userId2 :: rest) "") with userId1.
  change ((userId1 :: userId2 :: rest) !! 1%nat) with (Some userId2).
  cbv beta iota zeta. unfold SendMessage.differs, otherParticipant.
  unfold bind, reply_if, reply, ret, read, db_set, db_sadd, perform. simpl.
  destruct (negb (streq senderId userId1) && negb (streq senderId userId2));
    [reflexivity|].
  destruct (streq senderId userId1);
    (destruct (negb (bool_decide _)); [reflexivity|]);
    unfold bootstrapped, bootstrap_effects, implicitChat;
    simpl; rewrite <- !app_assoc; reflexivity.
Qed.

Lemma send_bootstrap_run senderId text chatId nanoid now userId1 userId2 rest w :
  Redis.chats (db w) !! Redis.chatKey chatId = None ->
  split chatId = userId1 :: userId2 :: rest ->
  run (SendMessage.POST P (Some senderId) text chatId nanoid now) w
  = if negb (streq senderId userId1) && negb (streq senderId userId2)
    then (text_response "Unauthorized" 401, w)
    else if negb (bool_decide
                    (otherParticipant senderId userId1 userId2
                     ∈ Redis.smembers (db w) (Redis.userFriendsKey senderId)))
    then (text_response "Unauthorized" 401, w)
    else delivered P senderId text nanoid now
                   (implicitChat chatId userId1 userId2)
                   (Redis.users (db w) !! Redis.userKey senderId)
                   (bootstrapped chatId userId1 userId2 w).
Proof.
  intros Hchat Hsplit. unfold SendMessage.POST.
  unfold run at 1, bind at 1, read at 1. cbv beta iota. rewrite Hchat.
  unfold bind at 1. rewrite (bootstrap_run _ _ _ _ _ _ Hsplit).
  destruct (negb (streq senderId userId1) && negb (streq senderId userId2));
    [reflexivity|].
  destruct (negb (bool_decide _)); [reflexivity|].
  exact (send_tail_run senderId text nanoid now
           (implicitChat chatId userId1 userId2)
           (bootstrapped chatId userId1 userId2 w)).
Qed.

(** With no separator in the chat id, [userId2] is undefined and the two
    guards of the bootstrap always answer 401: the last branch of
    [SendMessage.bootstrap] is never reached. *)
Lemma bootstrap_needs_two_ids senderId text chatId nanoid now userId1 w :
  Redis.chats (db w) !! Redis.chatKey chatId = None ->
  split chatId = [userId1] ->
  run (SendMessage.POST P (Some senderId) text chatId nanoid now) w
  = (text_response "Unauthorized" 401, w).
Proof.
  intros Hchat Hsplit. unfold SendMessage.POST.
  unfold run at 1, bind at 1, read at 1. cbv beta iota. rewrite Hchat.
  unfold SendMessage.bootstrap. rewrite Hsplit.
  change (nth 0 [userId1] "") with userId1.
  change ([userId1] !! 1%nat) with (@None string).
  cbv beta iota zeta. unfold SendMessage.differs.
  destruct (streq senderId userId1); reflexivity.
Qed.

Lemma delivered_order senderId text nanoid now chat sender w :
  status (delivered P senderId text nanoid now chat sender w).1 = 200 ->
  exists notes,
    log (delivered P senderId text nanoid now chat sender w).2
    = (log w ++ incoming P chat (messageOf senderId text nanoid now chat)
             :: notes ++ [commit chat (messageOf senderId text nanoid now chat)])%list
    /\ Forall (fun e => is_trigger e = true) notes.
Proof.
  unfold delivered.
  destruct (others senderId chat) as [|o os]; [|destruct sender as [u|]]; simpl.
  - intros _. exists []. split; [reflexivity | constructor].
  - intros _. exists (notifications P senderId chat
                        (messageOf senderId text nanoid now chat) u).
    split; [reflexivity|]. unfold notifications.
    apply List.Forall_forall. intros e He. apply in_map_iff in He.
    destruct He as (m & <- & _). reflexivity.
  - discriminate.
Qed.

Lemma delivered_keeps senderId text nanoid now chat sender w :
  Redis.chats (db (delivered P senderId text nanoid now chat sender w).2)
  = Redis.chats (db w)
  /\ Redis.sets (db (delivered P senderId text nanoid now chat sender w).2)
     = Redis.sets (db w)
  /\ exists tail,
       log (delivered P senderId text nanoid now chat sender w).2
       = (log w ++ incoming P chat (messageOf senderId text nanoid now chat)
                :: tail)%list.
Proof.
  unfold delivered.
  destruct (others senderId chat) as [|o os]; [|destruct sender as [u|]]; simpl;
    (split; [reflexivity|]); (split; [reflexivity|]); eexists; reflexivity.
Qed.

Lemma split_dashes_cons2 cur c c' s' :
  split_dashes cur (String c (String c' s'))
  = if Ascii.eqb c "-" && Ascii.eqb c' "-"
    then cur :: split_dashes "" s'
    else split_dashes (cur ++ String c "") (String c' s').
Proof. reflexivity. Qed.

Lemma split_dashes_nonempty (n : nat) : forall cur s,
  (String.length s <= n)%nat -> exists u rest, split_dashes cur s = u :: rest.
Proof.
  induction n as [|n IH]; intros cur s Hlen.
  - destruct s; simpl in Hlen; [|lia]. simpl. now eexists _, _.
  - destruct s as [|c [|c' s']]; [now eexists _, _ | now eexists _, _ |].
    rewrite split_dashes_cons2.
    destruct (Ascii.eqb c "-" && Ascii.eqb c' "-"); [now eexists _, _|].
    apply IH. simpl in *. lia.
Qed.

Lemma split_nonempty chatId : exists userId1 rest, split chatId = userId1 :: rest.
Proof. apply (split_dashes_nonempty (String.length chatId)). lia. Qed.

(** C6: a send to a chat id that is not stored and decodes to [userId1]
    and [userId2] is answered 401, with nothing written or published, unless
    the sender is one of the two ids and the other one is in the sender's
    friend list; when it goes through, the sentinel-named chat of exactly
    these two members is stored and registered in both users' chat indexes,
    and these three writes come before the first event of the message. *)
Theorem implicit_dm_bootstrap senderId text chatId nanoid now userId1 userId2 rest w :
  Redis.chats (db w) !! Redis.chatKey chatId = None ->
  split chatId = userId1 :: userId2 :: rest ->
  let out := run (SendMessage.POST P (Some senderId) text chatId nanoid now) w in
  let chat := implicitChat chatId userId1 userId2 in
  let other := otherParticipant senderId userId1 userId2 in
  let friends := Redis.smembers (db w) (Redis.userFriendsKey senderId) in
  (senderId <> userId1 -> senderId <> userId2 ->
   out = (text_response "Unauthorized" 401, w))
  /\ (other ∉ friends -> out = (text_response "Unauthorized" 401, w))
  /\ ((senderId = userId1 \/ senderId = userId2) -> other ∈ friends ->
      Redis.chats (db out.2) !! Redis.chatKey chatId = Some chat
      /\ chatId ∈ Redis.smembers (db out.2) (Redis.userChatsKey userId1)
      /\ chatId ∈ Redis.smembers (db out.2) (Redis.userChatsKey userId2)
      /\ Chat.name chat = SENTINEL
      /\ Chat.memberIds chat = [userId1; userId2]
      /\ Classify.isIndividualChat chat = true
      /\ (exists tail,
            log out.2
            = (log w
               ++ [ DbSet (Redis.chatKey chatId) chat;
                    DbSadd (Redis.userChatsKey userId1) chatId;
                    DbSadd (Redis.userChatsKey userId2) chatId;
                    incoming P chat (messageOf senderId text nanoid now chat) ]
               ++ tail)%list)
      /\ (is_Some (Redis.users (db w) !! Redis.userKey senderId) ->
          out.1 = text_response "OK" 200)).
Proof.
  intros Hchat Hsplit out chat other friends. subst out.
  rewrite (send_bootstrap_run _ _ _ _ _ _ _ _ _ Hchat Hsplit).
  fold other. fold friends. fold chat.
  split; [|split].
  - intros H1 H2. apply streq_false in H1, H2. now rewrite H1, H2.
  - intros Hnf. rewrite (bool_decide_eq_false_2 _ Hnf). simpl.
    now destruct (negb (streq senderId userId1) && negb (streq senderId userId2)).
  - intros Hs Hf.
    assert (negb (streq senderId userId1) && negb (streq senderId userId2) = false) as ->.
    { destruct Hs as [->| ->]; rewrite streq_refl; simpl;
        [reflexivity | apply andb_false_r]. }
    rewrite (bool_decide_eq_true_2 _ Hf). simpl.
    destruct (delivered_keeps senderId text nanoid now chat
                (Redis.users (db w) !! Redis.userKey senderId)
                (bootstrapped chatId userId1 userId2 w)) as (Hc & Hsets & tail & Hlog).
    split.
    { rewrite Hc. simpl. apply lookup_insert_eq. }
    assert (Hmem : forall k, Redis.smembers
                     (db (delivered P senderId text nanoid now chat
                            (Redis.users (db w) !! Redis.userKey senderId)
                            (bootstrapped chatId userId1 userId2 w)).2) k
                   = Redis.smembers (db (bootstrapped chatId userId1 userId2 w)) k).
    { intros k. unfold Redis.smembers. now rewrite Hsets. }
    split.
    { rewrite Hmem. unfold bootstrapped. simpl. rewrite !smembers_sadd.
      destruct (decide (Redis.userChatsKey userId2 = Redis.userChatsKey userId1));
        rewrite decide_True by reflexivity;
        apply elem_of_union_l, elem_of_singleton; reflexivity. }
    split.
    { rewrite Hmem. unfold bootstrapped. simpl. rewrite !smembers_sadd.
      rewrite decide_True by reflexivity.
      apply elem_of_union_l, elem_of_singleton; reflexivity. }
    split; [reflexivity|]. split; [reflexivity|]. split; [reflexivity|].
    split.
    { exists tail. rewrite Hlog. unfold bootstrapped. simpl.
      rewrite <- app_assoc. reflexivity. }
    intros [u Hu]. rewrite Hu. unfold delivered.
    now destruct (others senderId chat).
Qed.

(** Every send that answers 200 has published the message on the
    conversation channel, and the notifications, before it adds the
    message to the log: the [zadd] is the last effect of the request. *)
Lemma send_trace_of_success senderId text chatId nanoid now w :
  let out := run (SendMessage.POST P (Some senderId) text chatId nanoid now) w in
  status out.1 = 200 ->
  exists pre chat notes,
    log out.2
    = (log w ++ pre
         ++ incoming P chat (messageOf senderId text nanoid now chat)
         :: notes ++ [commit chat (messageOf senderId text nanoid now chat)])%list
    /\ Forall (fun e => is_trigger e = true) notes
    /\ Forall (fun e => is_write e = true) pre.
Proof.
  intros out. subst out.
  destruct (Redis.chats (db w) !! Redis.chatKey chatId) as [chat|] eqn:Hchat.
  - rewrite (send_existing_run _ _ _ _ _ _ _ Hchat).
    destruct (negb (includes (Chat.memberIds chat) senderId)); [discriminate|].
    intros H200. destruct (delivered_order _ _ _ _ _ _ _ H200) as (notes & E & Hn).
    exists [], chat, notes. split; [exact E|]. split; [exact Hn | constructor].
  - destruct (split_nonempty chatId) as (userId1 & [|userId2 rest] & Hsplit).
    + rewrite (bootstrap_needs_two_ids _ _ _ _ _ _ _ Hchat Hsplit). discriminate.
    + rewrite (send_bootstrap_run _ _ _ _ _ _ _ _ _ Hchat Hsplit).
      destruct (negb (streq senderId userId1) && negb (streq senderId userId2));
        [discriminate|].
      destruct (negb (bool_decide _)); [discriminate|].
      intros H200. destruct (delivered_order _ _ _ _ _ _ _ H200) as (notes & E & Hn).
      exists (bootstrap_effects chatId userId1 userId2),
             (implicitChat chatId userId1 userId2), notes.
      split; [|split; [exact Hn|]].
      * rewrite E. unfold bootstrapped. simpl. rewrite <- !app_assoc. reflexivity.
      * repeat constructor.
Qed.

End SendMessageProps.

Lemma implicit_dm_bootstrap_witness :
  Redis.chats (db SampleSend.friends) !! Redis.chatKey "a--b" = None
  /\ split "a--b" = ["a"; "b"]
  /\ Redis.chats
       (db (run (SendMessage.POST SampleStore.P0 (Some "a") "hello" "a--b" "m1" 1000)
                SampleSend.friends).2) !! Redis.chatKey "a--b"
     = Some (SendOutcome.implicitChat "a--b" "a" "b").
Proof.
  split; [reflexivity|]. split; [reflexivity|].
  destruct (implicit_dm_bootstrap SampleStore.P0 "a" "hello" "a--b" "m1" 1000
              "a" "b" [] SampleSend.friends eq_refl eq_refl) as (_ & _ & H).
  assert (Hf : SendOutcome.otherParticipant "a" "a" "b"
               ∈ Redis.smembers (db SampleSend.friends) (Redis.userFriendsKey "a")).
  { apply (bool_decide_unpack _). vm_compute. exact I. }
  destruct (H (or_introl eq_refl) Hf) as [E _]. exact E.
Defined.

(** C3, the code at a successful send: user [a] sends [hello] to the stored
    chat of [a] and [b].  The request answers 200, and its effects are, in
    order, the [incoming-message] event on the conversation channel, the
    [new_message] notification to [b], and only then the [zadd] that commits
    the message to the log. *)
Lemma send_publishes_before_commit :
  run (SendMessage.POST SampleStore.P0 (Some "a") "hello" "c2" "m1" 1000)
      SampleSend.chatting
  = (text_response "OK" 200,
     {| db := Redis.zadd SampleStore.P0 (db SampleSend.chatting)
                         "chat:c2:messages" 1000 SampleSend.hello;
        log := [ Trigger "chat:c2" "incoming-message" (PMessage SampleSend.hello);
                 Trigger "user:b:chats" "new_message"
                         (PMessageFrom SampleSend.hello "alice.png" "Alice");
                 DbZadd "chat:c2:messages" 1000 SampleSend.hello ] |}).
Proof. vm_compute. reflexivity. Qed.

(** ** Editing a message *)

Lemma In_zinsert P score member l e :
  In e (Redis.zinsert P score member l) <-> e = (score, member) \/ In e l.
Proof.
  induction l as [|[s m] l IH]; simpl.
  - intuition congruence.
  - destruct ((score <? s) || ((score =? s) && member_leb P member m)); simpl.
    + intuition congruence.
    + rewrite IH. intuition congruence.
Qed.

Lemma In_zdrop member l e :
  In e (Redis.zdrop member l) <-> In e l /\ snd e <> member.
Proof.
  unfold Redis.zdrop. rewrite filter_In, negb_true_iff, bool_decide_eq_false.
  reflexivity.
Qed.

Lemma entries_zrem d key member :
  default [] (Redis.zsets (Redis.zrem d key member) !! key)
  = Redis.zdrop member (default [] (Redis.zsets d !! key)).
Proof.
  unfold Redis.zrem. simpl.
  destruct (Redis.zdrop member (default [] (Redis.zsets d !! key))).
  - now rewrite lookup_delete_eq.
  - now rewrite lookup_insert_eq.
Qed.

Lemma entries_zadd P d key score member :
  default [] (Redis.zsets (Redis.zadd P d key score member) !! key)
  = Redis.zinsert P score member
      (Redis.zdrop member (default [] (Redis.zsets d !! key))).
Proof. unfold Redis.zadd. simpl. now rewrite lookup_insert_eq. Qed.

Section EditMessageProps.
Variable P : Platform.
Import EditOutcome.

Lemma edit_run senderId messageId chatId text w :
  run (EditMessage.POST P (Some senderId) messageId chatId text) w
  = if falsy messageId || falsy chatId || falsy text
    then (text_response "messageId, chatId, and text are required." 400, w)
    else if (String.length (trim P text) =? 0)%nat
    then (text_response "Message text cannot be empty." 400, w)
    else match Redis.chats (db w) !! Redis.chatKey chatId with
         | None => (text_response "Chat not found." 404, w)
         | Some chat =>
             if negb (includes (Chat.memberIds chat) senderId)
             then (text_response "Unauthorized" 401, w)
             else match EditMessage.findMessage
                          (Redis.zrange_all (db w) (Redis.chatMessagesKey chatId))
                          messageId with
                  | None => (text_response "Message not found." 404, w)
                  | Some originalMessage =>
                      if negb (streq (Message.senderId originalMessage) senderId)
                      then (text_response "You can only edit your own messages." 403, w)
                      else edited P senderId chatId chat originalMessage
                                  (trim P text) w
                  end
         end.
Proof.
  unfold EditMessage.POST, run.
  unfold bind at 1. unfold reply_if at 1, reply, ret.
  destruct (falsy messageId || falsy chatId || falsy text); [reflexivity|].
  unfold bind at 1. unfold reply_if at 1, reply, ret.
  destruct (String.length (trim P text) =? 0)%nat; [reflexivity|].
  unfold bind at 1, read at 1.
  destruct (Redis.chats (db w) !! Redis.chatKey chatId) as [chat|]; [|reflexivity].
  unfold bind at 1. unfold reply_if at 1, reply, ret.
  destruct (negb (includes (Chat.memberIds chat) senderId)); [reflexivity|].
  unfold bind at 1, read at 1. cbv beta iota.
  destruct (EditMessage.findMessage _ messageId) as [originalMessage|]; [|reflexivity].
  unfold bind at 1. unfold reply_if at 1, reply, ret.
  destruct (negb (streq (Message.senderId originalMessage) senderId)); [reflexivity|].
  unfold edited. fold (others senderId chat).
  unfold bind at 1 2 3 4, db_zrem, db_zadd, perform, read. rewrite trigger_run.
  simpl.
  destruct (others senderId chat) as [|o os] eqn:Eo.
  - unfold bind, ret. simpl. unfold committed, rewritten.
    rewrite <- !app_assoc. reflexivity.
  - destruct (Redis.users (db w) !! Redis.userKey senderId) as [u|].
    + unfold bind. rewrite for_each_trigger. simpl.
      unfold committed, rewritten. rewrite <- !app_assoc. reflexivity.
    + unfold bind, throw, reply. simpl. unfold committed, rewritten.
      rewrite <- !app_assoc. reflexivity.
Qed.

Lemma edited_entries senderId chatId chat originalMessage trimmedText w :
  entries (db (edited P senderId chatId chat originalMessage trimmedText w).2) chatId
  = Redis.zinsert P (Message.timestamp originalMessage)
      (EditMessage.withText originalMessage trimmedText)
      (Redis.zdrop (EditMessage.withText originalMessage trimmedText)
         (Redis.zdrop originalMessage (entries (db w) chatId))).
Proof.
  unfold edited.
  destruct (others senderId chat);
    [|destruct (Redis.users (db w) !! Redis.userKey senderId)];
    unfold entries, rewritten; cbn [snd db];
    now rewrite entries_zadd, entries_zrem.
Qed.

(** C7: an edit that answers 200 has found the message by its id among
    the stored messages of the chat, its sender is the requester, and the
    stored record that replaces it has the same id, chat id, sender id and
    timestamp, is stored at the score of that timestamp, and carries the
    trimmed new text; every other entry of the log is kept as it was.  When
    the requester is not the sender of the message found, the request is
    answered with an error and nothing is written or published. *)
Theorem edit_preserves_identity senderId messageId chatId text w :
  let out := run (EditMessage.POST P (Some senderId) messageId chatId text) w in
  let stored := Redis.zrange_all (db w) (Redis.chatMessagesKey chatId) in
  (status out.1 = 200 ->
   exists originalMessage,
     EditMessage.findMessage stored messageId = Some originalMessage
     /\ Message.id originalMessage = messageId
     /\ Message.senderId originalMessage = senderId
     /\ let updatedMessage := EditMessage.withText originalMessage (trim P text) in
        out.1 = {| body := JsonMessage updatedMessage; status := 200 |}
        /\ Message.id updatedMessage = Message.id originalMessage
        /\ Message.chatId updatedMessage = Message.chatId originalMessage
        /\ Message.senderId updatedMessage = Message.senderId originalMessage
        /\ Message.timestamp updatedMessage = Message.timestamp originalMessage
        /\ Message.text updatedMessage = trim P text
        /\ In (Message.timestamp originalMessage, updatedMessage)
              (entries (db out.2) chatId)
        /\ (forall e, e.2 <> originalMessage -> e.2 <> updatedMessage ->
                      (In e (entries (db out.2) chatId)
                       <-> In e (entries (db w) chatId)))
        /\ (forall e, In e (entries (db out.2) chatId) -> e.2 = updatedMessage ->
                      e.1 = Message.timestamp originalMessage)
        /\ (updatedMessage <> originalMessage ->
            ~ In originalMessage
                 (Redis.zrange_all (db out.2) (Redis.chatMessagesKey chatId))))
  /\ (forall originalMessage,
        EditMessage.findMessage stored messageId = Some originalMessage ->
        Message.senderId originalMessage <> senderId ->
        400 <= status out.1 /\ out.2 = w).
Proof.
  intros out stored. subst out stored. rewrite edit_run.
  destruct (falsy messageId || falsy chatId || falsy text);
    [split; [discriminate | intros; simpl; split; [lia | reflexivity]]|].
  destruct (String.length (trim P text) =? 0)%nat;
    [split; [discriminate | intros; simpl; split; [lia | reflexivity]]|].
  destruct (Redis.chats (db w) !! Redis.chatKey chatId) as [chat|];
    [|split; [discriminate | intros; simpl; split; [lia | reflexivity]]].
  destruct (negb (includes (Chat.memberIds chat) senderId));
    [split; [discriminate | intros; simpl; split; [lia | reflexivity]]|].
  destruct (EditMessage.findMessage _ messageId) as [m0|] eqn:Hfind;
    [|split; [discriminate | intros; simpl; split; [lia | reflexivity]]].
  destruct (streq (Message.senderId m0) senderId) eqn:Hs; simpl.
  2: { split; [discriminate |]. intros; simpl; split; [lia | reflexivity]. }
  apply streq_true in Hs. split.
  - intros H200. exists m0. split; [reflexivity|].
    split.
    { unfold EditMessage.findMessage in Hfind. apply find_some in Hfind.
      now apply streq_true. }
    split; [exact Hs|]. cbv zeta.
    split.
    { revert H200. unfold edited.
      destruct (others senderId chat);
        [|destruct (Redis.users (db w) !! Redis.userKey senderId)];
        simpl; (reflexivity || discriminate). }
    do 5 (split; [reflexivity|]).
    rewrite edited_entries.
    split; [apply In_zinsert; now left|].
    split.
    { intros e He0 He1. rewrite In_zinsert, !In_zdrop.
      split.
      - intros [->|(?&?)]; [now contradiction He1 | tauto].
      - intros He. right. tauto. }
    split.
    { intros e He He1. apply In_zinsert in He.
      destruct He as [->|He]; [reflexivity|].
      apply In_zdrop in He. tauto. }
    intros Hne Hin. unfold Redis.zrange_all in Hin.
    apply in_map_iff in Hin. destruct Hin as (e & He & Hin).
    fold (entries (db (edited P senderId chatId chat m0 (trim P text) w).2) chatId) in Hin.
    rewrite edited_entries in Hin. apply In_zinsert in Hin.
    destruct Hin as [->|Hin]; [simpl in He; congruence|].
    rewrite !In_zdrop in Hin. tauto.
  - intros m1 E Hm1. injection E as <-. contradiction.
Qed.

End EditMessageProps.

Lemma edit_preserves_identity_witness :
  status (run (EditMessage.POST SampleStore.P0 (Some "a") "m1" "c2" "hello!")
              SampleEdit.withHello).1 = 200
  /\ exists originalMessage,
       EditMessage.findMessage
         (Redis.zrange_all (db SampleEdit.withHello) (Redis.chatMessagesKey "c2"))
         "m1" = Some originalMessage
       /\ Message.senderId originalMessage = "a".
Proof.
  assert (H200 : status (run (EditMessage.POST SampleStore.P0 (Some "a") "m1" "c2"
                                 "hello!") SampleEdit.withHello).1 = 200)
    by (vm_compute; reflexivity).
  split; [exact H200|].
  destruct (edit_preserves_identity SampleStore.P0 "a" "m1" "c2" "hello!"
              SampleEdit.withHello) as [H _].
  destruct (H H200) as (m0 & Hf & _ & Hs & _).
  exists m0. split; [exact Hf | exact Hs].
Defined.

Example edit_by_another_user_rejected :
  run (EditMessage.POST SampleStore.P0 (Some "b") "m1" "c2" "hacked")
      SampleEdit.withHello
  = (text_response "You can only edit your own messages." 403, SampleEdit.withHello).
Proof. vm_compute. reflexivity. Qed.

Example edit_keeps_score :
  EditOutcome.entries
    (db (run (EditMessage.POST SampleStore.P0 (Some "a") "m1" "c2" "hello!")
             SampleEdit.withHello).2) "c2"
  = [ (1000, EditMessage.withText SampleSend.hello "hello!") ].
Proof. vm_compute. reflexivity. Qed.

(** ** The sorted views of the layout *)

Section SortByKey.
Context {A : Type} (key : A -> Z) (compare : A -> A -> Z).
Hypothesis compare_key : forall a b, compare a b = key b - key a.

Local Abbreviation descending := (fun a b : A => key b <= key a).

Lemma sort_insert_In x l y :
  In y (Layout.sort_insert compare x l) <-> y = x \/ In y l.
Proof.
  induction l as [|z l IH]; simpl.
  - intuition.
  - destruct (compare x z <=? 0); simpl; rewrite ?IH; intuition.
Qed.

Lemma sort_insert_perm x l : Permutation (x :: l) (Layout.sort_insert compare x l).
Proof.
  induction l as [|z l IH]; simpl.
  - reflexivity.
  - destruct (compare x z <=? 0); [reflexivity|].
    rewrite perm_swap. now apply perm_skip.
Qed.

Lemma sort_insert_sorted x l :
  StronglySorted descending l ->
  StronglySorted descending (Layout.sort_insert compare x l).
Proof.
  induction 1 as [|z l Hl IH Hz]; simpl.
  - repeat constructor.
  - destruct (compare x z <=? 0) eqn:E.
    + apply Z.leb_le in E. rewrite compare_key in E.
      constructor; [now constructor|].
      constructor; [lia|].
      apply List.Forall_forall. intros y Hy.
      rewrite List.Forall_forall in Hz. specialize (Hz y Hy).
      simpl in *. lia.
    + apply Z.leb_gt in E. rewrite compare_key in E.
      constructor; [exact IH|].
      apply List.Forall_forall. intros y Hy. apply sort_insert_In in Hy.
      destruct Hy as [->|Hy]; [lia|].
      rewrite List.Forall_forall in Hz. now apply Hz.
Qed.

Lemma sort_sorted l : StronglySorted descending (Layout.sort compare l).
Proof.
  unfold Layout.sort. induction l as [|x l IH]; simpl.
  - constructor.
  - now apply sort_insert_sorted.
Qed.

Lemma sort_perm l : Permutation l (Layout.sort compare l).
Proof.
  unfold Layout.sort. induction l as [|x l IH]; simpl.
  - reflexivity.
  - rewrite <- sort_insert_perm. now apply perm_skip.
Qed.

End SortByKey.

(** C8: the direct view is in descending order of the latest message
    timestamp and the group view in descending order of the larger of the
    creation time and the latest message timestamp, an absent value
    counting as 0 in both.  The direct view is a rearrangement of the
    entries of the snapshot that have a message, two members and the
    sentinel name, the group view one of the entries the layout takes as
    groups, each with its chat, label, latest timestamp and creation
    time.  The group with last message at 100 and creation at 50 comes
    before the group without messages created at 80, whatever their order
    in the snapshot. *)
Theorem views_sorted (all : list Layout.Entry) :
  let orZero (o : option Z) : Z := match o with Some t => t | None => 0 end in
  let directKey (e : Layout.Entry) := orZero (Layout.latestMessageTimestamp e) in
  let groupKey (g : Layout.GroupEntry) :=
    Z.max (orZero (Layout.g_latestMessageTimestamp g)) (orZero (Layout.g_createdAt g)) in
  let direct (e : Layout.Entry) :=
    Layout.hasMessages e
    && (length (Chat.memberIds (Layout.chat e)) =? 2)%nat
    && streq (Chat.name (Layout.chat e)) SENTINEL in
  let group (e : Layout.Entry) :=
    negb ((length (Chat.memberIds (Layout.chat e)) =? 2)%nat
          && streq (Chat.name (Layout.chat e)) SENTINEL)
    && ((2 <? length (Chat.memberIds (Layout.chat e)))%nat
        || ((1 <=? length (Chat.memberIds (Layout.chat e)))%nat
            && negb (streq (Chat.name (Layout.chat e)) SENTINEL))) in
  let asGroup (e : Layout.Entry) :=
    {| Layout.g_chat := Layout.chat e;
       Layout.g_displayName := Layout.displayName e;
       Layout.g_latestMessageTimestamp := Layout.latestMessageTimestamp e;
       Layout.g_createdAt := Layout.createdAt e |} in
  StronglySorted (fun a b => directKey b <= directKey a) (Layout.individualChats all)
  /\ StronglySorted (fun a b => groupKey b <= groupKey a) (Layout.groupChats all)
  /\ Permutation (Layout.individualChats all) (List.filter direct all)
  /\ Permutation (Layout.groupChats all) (map asGroup (List.filter group all))
  /\ (forall e, In e (Layout.individualChats all)
                <-> In e all /\ Layout.hasMessages e = true
                    /\ length (Chat.memberIds (Layout.chat e)) = 2%nat
                    /\ Chat.name (Layout.chat e) = SENTINEL)
  /\ (forall g, In g (Layout.groupChats all)
                <-> exists e, In e all /\ group e = true /\ g = asGroup e)
  /\ length (Layout.individualChats all) = length (List.filter direct all)
  /\ length (Layout.groupChats all) = length (List.filter group all)
  /\ (forall g, Layout.groupTimestamp g = groupKey g)
  /\ map Layout.g_chat (Layout.groupChats [SampleLayout.groupA; SampleLayout.groupB])
     = [Layout.chat SampleLayout.groupA; Layout.chat SampleLayout.groupB]
  /\ map Layout.g_chat (Layout.groupChats [SampleLayout.groupB; SampleLayout.groupA])
     = [Layout.chat SampleLayout.groupA; Layout.chat SampleLayout.groupB].
Proof.
  intros orZero0 directKey groupKey direct group asGroup.
  assert (Hdirect : Layout.individualChats all
                    = Layout.sort Layout.compareIndividual (List.filter direct all)).
  { unfold Layout.individualChats. f_equal. subst direct. cbv beta.
    induction all as [|e l IH]; [reflexivity|]. simpl.
    destruct (Layout.hasMessages e) eqn:Eh; simpl; [|exact IH].
    rewrite Eh. simpl. now rewrite IH. }
  assert (Hgroup : Layout.groupChats all
                   = Layout.sort Layout.compareGroup (map asGroup (List.filter group all))).
  { unfold Layout.groupChats. f_equal. f_equal.
    apply List.filter_ext. intros e. unfold group, Classify.layoutIsGroup,
      Classify.isIndividualChat.
    now destruct ((length (Chat.memberIds (Layout.chat e)) =? 2)%nat
                  && streq (Chat.name (Layout.chat e)) SENTINEL). }
  assert (Hpd : Permutation (Layout.individualChats all) (List.filter direct all)).
  { rewrite Hdirect. symmetry. apply sort_perm. }
  assert (Hpg : Permutation (Layout.groupChats all)
                            (map asGroup (List.filter group all))).
  { rewrite Hgroup. symmetry. apply sort_perm. }
  split.
  { apply (sort_sorted directKey). reflexivity. }
  split.
  { apply (sort_sorted groupKey). reflexivity. }
  split; [exact Hpd|]. split; [exact Hpg|].
  split.
  { intros e. rewrite (Permutation_in' (eq_refl e) Hpd).
    rewrite filter_In. unfold direct.
    rewrite !andb_true_iff, Nat.eqb_eq, streq_true. tauto. }
  split.
  { intros g. rewrite (Permutation_in' (eq_refl g) Hpg).
    rewrite in_map_iff. split.
    - intros (e & <- & He). apply filter_In in He. exists e. tauto.
    - intros (e & He & Hg & ->). exists e. rewrite filter_In. tauto. }
  split; [now apply Permutation_length|].
  split; [rewrite (Permutation_length Hpg); apply length_map|].
  split; [reflexivity|].
  split; reflexivity.
Qed.

Example direct_view_newest_first :
  let dm (id : string) (t : Z) :=
    {| Layout.chat := {| Chat.id := id; Chat.name := SENTINEL;
                         Chat.memberIds := ["a"; "b"]; Chat.createdAt := None |};
       Layout.displayName := id; Layout.hasMessages := true;
       Layout.latestMessageTimestamp := Some t; Layout.createdAt := None |} in
  map Layout.displayName
      (Layout.individualChats [dm "x" 10; dm "y" 30; SampleLayout.groupA; dm "z" 20])
  = ["y"; "z"; "x"].
Proof. reflexivity. Qed.

(** ** The sidebar handlers *)

Section SidebarProps.
Import Sidebar.

(** The number of entries of the list that carry the chat id [id]. *)
Local Abbreviation count_id l id :=
  (length (List.filter (fun item => streq (Chat.id (chat item)) id) l)).

Lemma chatExists_app prev item id :
  chatExists (prev ++ [item]) id
  = chatExists prev id || streq (Chat.id (chat item)) id.
Proof. unfold chatExists. rewrite existsb_app. simpl. now rewrite orb_false_r. Qed.








Example chat_updated_renames_group :
  chatUpdateHandler SampleSidebar.shown SampleSidebar.renamedEvent
  = [ {| chat := SampleSidebar.renamed; displayName := "Reading Group" |} ].
Proof. reflexivity. Qed.

Example chat_updated_keeps_partner_name :
  chatUpdateHandler
    [ {| chat := Sample.pair; displayName := "Bob" |} ]
    {| chatId := "c2"; payload := Sample.pair |}
  = [ {| chat := Sample.pair; displayName := "Bob" |} ].
Proof. reflexivity. Qed.

End SidebarProps.

(** ** The chat page *)

Lemma page_bootstrap_run userId chatId userId1 userId2 rest friendList historyLoads w :
  Redis.chats (db w) !! Redis.chatKey chatId = None ->
  split chatId = userId1 :: userId2 :: rest ->
  ChatPage.page (Some userId) chatId friendList historyLoads w
  = if negb (streq userId userId1) && negb (streq userId userId2)
    then Some (ChatPage.NotFound, w)
    else Some (ChatPage.render userId chatId
                 (SendOutcome.implicitChat chatId userId1 userId2)
                 friendList historyLoads
                 (db (SendOutcome.bootstrapped chatId userId1 userId2 w)),
               SendOutcome.bootstrapped chatId userId1 userId2 w).
Proof.
  intros Hchat Hsplit. unfold ChatPage.page. rewrite Hchat, Hsplit.
  change (nth 0 (userId1 :: userId2 :: rest) "") with userId1.
  change ((userId1 :: userId2 :: rest) !! 1%nat) with (Some userId2).
  cbv beta iota zeta. unfold SendMessage.differs.
  destruct (negb (streq userId userId1) && negb (streq userId userId2));
    [reflexivity|].
  unfold bind, db_set, db_sadd, perform. cbn [db log Chat.id].
  unfold SendOutcome.bootstrapped, SendOutcome.bootstrap_effects,
    SendOutcome.implicitChat.
  rewrite <- !app_assoc. reflexivity.
Qed.

Lemma page_stored_run userId chatId chat friendList historyLoads w :
  Redis.chats (db w) !! Redis.chatKey chatId = Some chat ->
  ChatPage.page (Some userId) chatId friendList historyLoads w
  = if negb (includes (Chat.memberIds chat) userId)
    then Some (ChatPage.NotFound, w)
    else Some (ChatPage.render userId chatId chat friendList historyLoads (db w), w).
Proof. intros Hchat. unfold ChatPage.page. now rewrite Hchat. Qed.

(** The page reads user records and the message log, and no set. *)
Lemma render_reads userId chatId chat friendList historyLoads d d' :
  Redis.users d = Redis.users d' -> Redis.zsets d = Redis.zsets d' ->
  ChatPage.render userId chatId chat friendList historyLoads d
  = ChatPage.render userId chatId chat friendList historyLoads d'.
Proof.
  intros Hu Hz. unfold ChatPage.render, Participants.load, Redis.zrange_all.
  now rewrite Hu, Hz.
Qed.

Lemma render_pair userId chatId userId1 userId2 r1 r2 friends d :
  Redis.users d !! Redis.userKey userId1 = Some r1 ->
  Redis.users d !! Redis.userKey userId2 = Some r2 ->
  ChatPage.render userId chatId (SendOutcome.implicitChat chatId userId1 userId2)
                  (Some friends) true d
  = ChatPage.Rendered
      {| ChatPage.chat := SendOutcome.implicitChat chatId userId1 userId2;
         ChatPage.participants := [Some r1; Some r2];
         ChatPage.isGroupChat := false;
         ChatPage.isTwoPersonChat := true;
         ChatPage.chatPartner :=
           if negb (streq (User.id r1) userId) then Some r1
           else if negb (streq (User.id r2) userId) then Some r2
           else None;
         ChatPage.friends := friends;
         ChatPage.initialMessages :=
           rev (Redis.zrange_all d (Redis.chatMessagesKey chatId)) |}.
Proof.
  intros H1 H2. unfold ChatPage.render, Participants.load, SendOutcome.implicitChat.
  cbn [Chat.memberIds Chat.name map length]. rewrite H1, H2.
  cbn [Nat.eqb Nat.ltb Nat.leb andb orb]. rewrite streq_refl. cbn [negb andb orb].
  cbn [Participants.findOther].
  destruct (negb (streq (User.id r1) userId)); [reflexivity|].
  destruct (negb (streq (User.id r2) userId)); reflexivity.
Qed.

Lemma render_without_first userId chatId userId1 userId2 friendList historyLoads d :
  Redis.users d !! Redis.userKey userId1 = None ->
  ChatPage.render userId chatId (SendOutcome.implicitChat chatId userId1 userId2)
                  friendList historyLoads d
  = ChatPage.Threw.
Proof.
  intros H1. unfold ChatPage.render, Participants.load, SendOutcome.implicitChat.
  cbn [Chat.memberIds Chat.name map length]. rewrite H1.
  cbn [Nat.eqb andb]. rewrite streq_refl. reflexivity.
Qed.

Lemma bootstrapped_store chatId userId1 userId2 w :
  let viewed := SendOutcome.bootstrapped chatId userId1 userId2 w in
  Redis.chats (db viewed) !! Redis.chatKey chatId
  = Some (SendOutcome.implicitChat chatId userId1 userId2)
  /\ (chatId ∈ Redis.smembers (db viewed) (Redis.userChatsKey userId1))
  /\ (chatId ∈ Redis.smembers (db viewed) (Redis.userChatsKey userId2))
  /\ (forall key, key <> Redis.userChatsKey userId1 ->
                  key <> Redis.userChatsKey userId2 ->
        Redis.smembers (db viewed) key = Redis.smembers (db w) key)
  /\ Redis.users (db viewed) = Redis.users (db w)
  /\ Redis.zsets (db viewed) = Redis.zsets (db w).
Proof.
  intros viewed. subst viewed. unfold SendOutcome.bootstrapped. cbn [db].
  split; [apply lookup_insert_eq|].
  split.
  { rewrite !smembers_sadd.
    destruct (decide (Redis.userChatsKey userId2 = Redis.userChatsKey userId1));
      rewrite decide_True by reflexivity;
      apply elem_of_union_l, elem_of_singleton; reflexivity. }
  split.
  { rewrite !smembers_sadd. rewrite decide_True by reflexivity.
    apply elem_of_union_l, elem_of_singleton; reflexivity. }
  split.
  { intros key H1 H2. rewrite !smembers_sadd.
    rewrite decide_False by congruence. rewrite decide_False by congruence.
    reflexivity. }
  split; reflexivity.
Qed.

(** C10: a signed-in user who opens the page of a chat id that is not
    stored and decodes to two user ids, one of them the user's own, makes
    the page store the sentinel-named chat of these two members and
    register it in both users' chat indexes, before anything else is
    read.  No set is read: the same happens, with the same outcome, in
    every store and whatever the friend lists hold.  The page is then
    rendered, for a two-person chat that is no group, when both users
    have a record, the friend helper returns and the history loads; when
    the first user has no record the page throws after the writes. *)
Theorem page_view_bootstraps userId chatId userId1 userId2 rest
    friendList historyLoads w :
  Redis.chats (db w) !! Redis.chatKey chatId = None ->
  split chatId = userId1 :: userId2 :: rest ->
  userId = userId1 \/ userId = userId2 ->
  let chat := {| Chat.id := chatId; Chat.name := SENTINEL;
                 Chat.memberIds := [userId1; userId2];
                 Chat.createdAt := None |} in
  exists o viewed,
    ChatPage.page (Some userId) chatId friendList historyLoads w = Some (o, viewed)
    /\ Redis.chats (db viewed) !! Redis.chatKey chatId = Some chat
    /\ (chatId ∈ Redis.smembers (db viewed) (Redis.userChatsKey userId1))
    /\ (chatId ∈ Redis.smembers (db viewed) (Redis.userChatsKey userId2))
    /\ log viewed
       = (log w ++ [ DbSet (Redis.chatKey chatId) chat;
                     DbSadd (Redis.userChatsKey userId1) chatId;
                     DbSadd (Redis.userChatsKey userId2) chatId ])%list
    /\ (forall key, key <> Redis.userChatsKey userId1 ->
                    key <> Redis.userChatsKey userId2 ->
          Redis.smembers (db viewed) key = Redis.smembers (db w) key)
    /\ Redis.users (db viewed) = Redis.users (db w)
    /\ Redis.zsets (db viewed) = Redis.zsets (db w)
    /\ Classify.isIndividualChat chat = true
    /\ (forall sets',
          exists viewed',
            ChatPage.page (Some userId) chatId friendList historyLoads
              {| db := {| Redis.chats := Redis.chats (db w);
                          Redis.users := Redis.users (db w);
                          Redis.sets := sets';
                          Redis.zsets := Redis.zsets (db w) |};
                 log := log w |}
            = Some (o, viewed')
            /\ Redis.chats (db viewed') !! Redis.chatKey chatId = Some chat)
    /\ (forall r1 r2 friends,
          Redis.users (db w) !! Redis.userKey userId1 = Some r1 ->
          Redis.users (db w) !! Redis.userKey userId2 = Some r2 ->
          friendList = Some friends -> historyLoads = true ->
          exists v, o = ChatPage.Rendered v
                    /\ ChatPage.chat v = chat
                    /\ ChatPage.participants v = [Some r1; Some r2]
                    /\ ChatPage.isTwoPersonChat v = true
                    /\ ChatPage.isGroupChat v = false)
    /\ (Redis.users (db w) !! Redis.userKey userId1 = None -> o = ChatPage.Threw)
    /\ (friendList = None -> o = ChatPage.Threw)
    /\ (forall v, o = ChatPage.Rendered v -> historyLoads = true).
Proof.
  intros Hchat Hsplit Huser chat.
  change chat with (SendOutcome.implicitChat chatId userId1 userId2). clear chat.
  assert (Hguard : negb (streq userId userId1) && negb (streq userId userId2) = false).
  { destruct Huser as [-> | ->]; rewrite streq_refl; simpl;
      [reflexivity | apply andb_false_r]. }
  destruct (bootstrapped_store chatId userId1 userId2 w)
    as (Hstored & Hidx1 & Hidx2 & Hsets & Husers & Hzsets).
  eexists _, _.
  split; [rewrite (page_bootstrap_run _ _ _ _ _ _ _ _ Hchat Hsplit), Hguard;
          reflexivity|].
  split; [exact Hstored|]. split; [exact Hidx1|]. split; [exact Hidx2|].
  split; [reflexivity|]. split; [exact Hsets|]. split; [exact Husers|].
  split; [exact Hzsets|]. split; [reflexivity|].
  split.
  { intros sets'.
    set (w2 := {| db := {| Redis.chats := Redis.chats (db w);
                           Redis.users := Redis.users (db w);
                           Redis.sets := sets';
                           Redis.zsets := Redis.zsets (db w) |};
                  log := log w |}).
    exists (SendOutcome.bootstrapped chatId userId1 userId2 w2). split.
    - rewrite (page_bootstrap_run _ _ _ _ _ _ _ w2 Hchat Hsplit), Hguard.
      rewrite (render_reads _ _ _ _ _
                 (db (SendOutcome.bootstrapped chatId userId1 userId2 w2))
                 (db (SendOutcome.bootstrapped chatId userId1 userId2 w)))
        by reflexivity.
      reflexivity.
    - apply lookup_insert_eq. }
  split.
  { intros r1 r2 friends H1 H2 -> ->.
    rewrite <- Husers in H1, H2.
    rewrite (render_pair _ _ _ _ _ _ _ _ H1 H2).
    eexists. split; [reflexivity|]. repeat split; reflexivity. }
  split.
  { intros H1. rewrite <- Husers in H1. now apply render_without_first. }
  split.
  { intros ->. unfold ChatPage.render.
    match goal with |- match ?x with _ => _ end = _ => destruct x end;
      reflexivity. }
  intros v. unfold ChatPage.render.
  match goal with |- match ?x with _ => _ end = _ -> _ => destruct x end;
    [|discriminate].
  destruct friendList; [|discriminate].
  destruct historyLoads; [reflexivity | discriminate].
Qed.

Lemma page_view_bootstraps_witness :
  Redis.chats (db SamplePage.unacquainted) !! Redis.chatKey "a--b" = None
  /\ split "a--b" = ["a"; "b"]
  /\ ("b" ∉ Redis.smembers (db SamplePage.unacquainted) (Redis.userFriendsKey "a"))
  /\ exists v viewed,
       ChatPage.page (Some "a") "a--b" (Some []) true SamplePage.unacquainted
       = Some (ChatPage.Rendered v, viewed)
       /\ ChatPage.isTwoPersonChat v = true
       /\ Redis.chats (db viewed) !! Redis.chatKey "a--b"
          = Some {| Chat.id := "a--b"; Chat.name := "Direct message";
                    Chat.memberIds := ["a"; "b"]; Chat.createdAt := None |}
       /\ "a--b" ∈ Redis.smembers (db viewed) (Redis.userChatsKey "b").
Proof.
  split; [reflexivity|]. split; [reflexivity|].
  split; [apply not_elem_of_empty|].
  destruct (page_view_bootstraps "a" "a--b" "a" "b" [] (Some []) true
              SamplePage.unacquainted eq_refl eq_refl (or_introl eq_refl))
    as (o & viewed & Hpage & Hstored & _ & Hidx & _ & _ & _ & _ & _ & _ & Hrender & _).
  destruct (Hrender SampleSend.alice SamplePage.bob [] eq_refl eq_refl eq_refl eq_refl)
    as (v & -> & _ & _ & Htwo & _).
  exists v, viewed.
  split; [exact Hpage|]. split; [exact Htwo|]. split; [exact Hstored | exact Hidx].
Defined.

(** In the store where [a] and [b] are not friends, the send route refuses
    the same chat id that the page creates. *)
Example strangers_cannot_send :
  run (SendMessage.POST SampleStore.P0 (Some "a") "hello" "a--b" "m1" 1000)
      SamplePage.strangers
  = (text_response "Unauthorized" 401, SamplePage.strangers).
Proof. vm_compute. reflexivity. Qed.

Example page_of_another_pair_not_found :
  ChatPage.page (Some "z") "a--b" (Some []) true SamplePage.strangers
  = Some (ChatPage.NotFound, SamplePage.strangers).
Proof. reflexivity. Qed.

(** Without user records the page throws, after it has stored the chat. *)
Example page_of_strangers_throws :
  ChatPage.page (Some "a") "a--b" (Some []) true SamplePage.strangers
  = Some (ChatPage.Threw, SendOutcome.bootstrapped "a--b" "a" "b" SamplePage.strangers).
Proof. reflexivity. Qed.

(** ** Creating a chat: concrete requests *)

Example create_dm_between_friends :
  (Fanout.run (CreateChat.POST SampleStore.P0 SampleStore.B0 (Some "a") None ["a"; "b"]
                               "n1" 50)
              (Fanout.start (db SampleSend.friends))).1
  = {| body := JsonChat {| Chat.id := "n1"; Chat.name := "Direct message";
                           Chat.memberIds := ["a"; "b"];
                           Chat.createdAt := Some 50 |};
       status := 201 |}.
Proof. vm_compute. reflexivity. Qed.

Example create_dm_with_stranger_refused :
  Fanout.run (CreateChat.POST SampleStore.P0 SampleStore.B0 (Some "a") None ["a"; "b"]
                              "n1" 50)
             (Fanout.start (db SamplePage.strangers))
  = (text_response "Cannot create a direct message with a non-friend." 401,
     Fanout.start (db SamplePage.strangers)).
Proof. vm_compute. reflexivity. Qed.

Example create_unnamed_trio_refused :
  Fanout.run (CreateChat.POST SampleStore.P0 SampleStore.B0 (Some "a") (Some "")
                              ["a"; "b"; "c"] "n1" 50)
             (Fanout.start (db SampleSend.friends))
  = (text_response "Group name is required for chats with more than 2 members." 400,
     Fanout.start (db SampleSend.friends)).
Proof. vm_compute. reflexivity. Qed.

(** The requester [a] names two members, [a] and the empty string; the
    empty string is not in the friend list of [a] (the store holds no
    friendship at all), and yet the request is answered 201 and the chat
    is stored. *)
Example create_with_empty_id_stored :
  ("" ∉ Redis.smembers (db SamplePage.strangers) (Redis.userFriendsKey "a"))
  /\ status (Fanout.run (CreateChat.POST SampleStore.P0 SampleStore.B0 (Some "a") None
                                         ["a"; ""] "n1" 50)
                        (Fanout.start (db SamplePage.strangers))).1 = 201
  /\ Redis.chats
       (Fanout.db (Fanout.run (CreateChat.POST SampleStore.P0 SampleStore.B0 (Some "a")
                                               None ["a"; ""] "n1" 50)
                              (Fanout.start (db SamplePage.strangers))).2)
     !! Redis.chatKey "n1"
     = Some {| Chat.id := "n1"; Chat.name := "Direct message";
               Chat.memberIds := ["a"; ""]; Chat.createdAt := Some 50 |}.
Proof.
  split; [apply not_elem_of_empty|].
  split; vm_compute; reflexivity.
Qed.

(** When the broker is down the chat is created all the same, and the
    requester is told it was not. *)
Example create_with_broker_down :
  let out :=
    Fanout.run (CreateChat.POST SampleStore.P0 SampleStore.unheard (Some "a") None
                                ["a"; "b"] "n1" 50)
               (Fanout.start (db SampleSend.friends)) in
  out.1 = text_response "Pusher is unreachable" 500
  /\ Redis.chats (Fanout.db out.2) !! Redis.chatKey "n1"
     = Some {| Chat.id := "n1"; Chat.name := "Direct message";
               Chat.memberIds := ["a"; "b"]; Chat.createdAt := Some 50 |}.
Proof. split; vm_compute; reflexivity. Qed.

(** * Further properties of the code *)

(** ** The message list: optimistic records, status updates, edits *)

Section MessageListProps.
Import ExtendedMessage Messages MessageList Reconcile.

Lemma handleOptimistic_cases prev m :
  (existsb (fun msg => streq (id msg) (id m) || bool_decide (tempId msg = tempId m))
           prev = true
   /\ handleOptimistic prev m = prev)
  \/ (existsb (fun msg => streq (id msg) (id m) || bool_decide (tempId msg = tempId m))
              prev = false
      /\ handleOptimistic prev m = withStatus m pending :: prev).
Proof.
  unfold handleOptimistic.
  destruct (existsb _ prev); [left | right]; split; reflexivity.
Qed.

(** X1: showing an optimistic message a second time (a retry that reuses
    the temporary id) changes nothing; a message whose id or [tempId] is
    already in the list is not added; otherwise it is put in front with
    status [pending], the other records untouched. *)
Theorem handleOptimistic_no_duplicate prev m :
  handleOptimistic (handleOptimistic prev m) m = handleOptimistic prev m
  /\ ((exists r, In r prev /\ (id r = id m \/ tempId r = tempId m)) ->
      handleOptimistic prev m = prev)
  /\ ((forall r, In r prev -> id r <> id m /\ tempId r <> tempId m) ->
      handleOptimistic prev m = withStatus m pending :: prev)
  /\ (length (List.filter (fun r => streq (id r) (id m)) (handleOptimistic prev m))
      <= Nat.max 1 (length (List.filter (fun r => streq (id r) (id m)) prev)))%nat.
Proof.
  split; [|split; [|split]].
  - destruct (handleOptimistic_cases prev m) as [[E ->] | [E ->]].
    + unfold handleOptimistic. now rewrite E.
    + unfold handleOptimistic at 1. simpl. rewrite streq_refl. reflexivity.
  - intros (r & Hr & Hm). unfold handleOptimistic.
    assert (existsb (fun msg => streq (id msg) (id m)
                                || bool_decide (tempId msg = tempId m)) prev = true) as ->;
      [|reflexivity].
    apply existsb_exists. exists r. split; [exact Hr|].
    destruct Hm as [Hm | Hm].
    + apply orb_true_iff. left. now apply streq_true.
    + apply orb_true_iff. right. now apply bool_decide_eq_true_2.
  - intros Hfresh. unfold handleOptimistic.
    assert (existsb (fun msg => streq (id msg) (id m)
                                || bool_decide (tempId msg = tempId m)) prev = false) as ->;
      [|reflexivity].
    apply not_true_iff_false. intros E. apply existsb_exists in E.
    destruct E as (r & Hr & E). destruct (Hfresh r Hr) as [H1 H2].
    apply orb_true_iff in E. destruct E as [E | E].
    + now apply streq_true in E.
    + now apply bool_decide_eq_true_1 in E.
  - destruct (handleOptimistic_cases prev m) as [[E ->] | [E ->]]; [lia|].
    simpl. rewrite streq_refl. simpl.
    assert (List.filter (fun r => streq (id r) (id m)) prev = []) as ->; [|simpl; lia].
    induction prev as [|a prev IH]; [reflexivity|].
    simpl in E. apply orb_false_iff in E. destruct E as [Ea Ep].
    apply orb_false_iff in Ea. destruct Ea as [Ea _].
    simpl. rewrite Ea. now apply IH.
Qed.

Lemma isTarget_withStatus messageId r st :
  isTarget messageId (withStatus r st) = isTarget messageId r.
Proof. reflexivity. Qed.

(** X2: a status update keeps the length and the order of the list and
    changes nothing but the [status] of the records whose id or [tempId]
    is the given one; of two updates for the same id the later one wins. *)
Theorem handleStatusUpdate_only_status prev messageId st :
  length (handleStatusUpdate prev messageId st) = length prev
  /\ (forall i r, prev !! i = Some r ->
        handleStatusUpdate prev messageId st !! i
        = Some (if isTarget messageId r then withStatus r st else r))
  /\ map (fun r => (id r, chatId r, senderId r, text r, timestamp r, tempId r))
         (handleStatusUpdate prev messageId st)
     = map (fun r => (id r, chatId r, senderId r, text r, timestamp r, tempId r)) prev
  /\ (forall st0,
        handleStatusUpdate (handleStatusUpdate prev messageId st0) messageId st
        = handleStatusUpdate prev messageId st)
  /\ ((forall r, In r prev -> isTarget messageId r = false) ->
      handleStatusUpdate prev messageId st = prev).
Proof.
  unfold handleStatusUpdate.
  split; [apply length_map|]. split; [|split; [|split]].
  - intros i r Hi. now rewrite list_lookup_fmap, Hi.
  - rewrite map_map. apply map_ext. intros r.
    now destruct (isTarget messageId r).
  - intros st0. rewrite map_map. apply map_ext. intros r.
    destruct (isTarget messageId r) eqn:E.
    + now rewrite isTarget_withStatus, E.
    + now rewrite E.
  - intros Hnone. rewrite <- (map_id prev) at 2. apply map_ext_in.
    intros r Hr. now rewrite (Hnone r Hr).
Qed.

Lemma known_handleStatusUpdate prev messageId st message :
  known (handleStatusUpdate prev messageId st) message <-> known prev message.
Proof.
  unfold known, handleStatusUpdate. split.
  - intros (r & Hr & E). apply in_map_iff in Hr. destruct Hr as (r0 & <- & Hr0).
    exists r0. split; [exact Hr0|]. now destruct (isTarget messageId r0).
  - intros (r & Hr & E).
    exists (if isTarget messageId r then withStatus r st else r).
    split; [apply in_map_iff; now exists r|]. now destruct (isTarget messageId r).
Qed.

(** X3: the canonical message replaces an optimistic record only while
    that record is still [pending].  When the status update of the
    request ([sent] or [failed]) has reached every pending record first,
    the canonical message is put in front and the temporary record stays:
    the list grows by one. *)
Theorem canonical_after_status_is_prepended chatId prev tempId st canonical :
  Message.chatId canonical = chatId ->
  st <> pending ->
  ~ known prev canonical ->
  (forall r, In r prev -> isPending r = true -> isTarget tempId r = true) ->
  messageHandler chatId (handleStatusUpdate prev tempId st) canonical
  = ofMessage canonical sent :: handleStatusUpdate prev tempId st.
Proof.
  intros Hchan Hst Hk Hp.
  unfold messageHandler. rewrite Hchan, streq_refl. simpl.
  assert (existsb (fun msg => streq (id msg) (Message.id canonical))
                  (handleStatusUpdate prev tempId st) = false) as ->.
  { apply not_true_iff_false. rewrite existsb_known, known_handleStatusUpdate.
    exact Hk. }
  assert (findIndex (isOptimisticFor canonical) (handleStatusUpdate prev tempId st)
          = None) as ->; [|reflexivity].
  apply findIndex_None. intros r Hr. unfold handleStatusUpdate in Hr.
  apply in_map_iff in Hr. destruct Hr as (r0 & <- & Hr0).
  unfold isOptimisticFor.
  destruct (isTarget tempId r0) eqn:E.
  - unfold isPending, withStatus. simpl. now destruct st.
  - destruct (isPending r0) eqn:Hp0; [|reflexivity].
    rewrite (Hp r0 Hr0 Hp0) in E. discriminate.
Qed.

Lemma canonical_after_status_is_prepended_witness :
  Message.chatId SampleMessages.canonical = "c"
  /\ sent <> pending
  /\ messageHandler "c" (handleStatusUpdate SampleFlow.shown "T" sent)
                    SampleMessages.canonical
     = [ ofMessage SampleMessages.canonical sent;
         withStatus SampleMessages.optimistic sent;
         SampleMessages.older ].
Proof.
  split; [reflexivity|]. split; [discriminate|].
  apply (canonical_after_status_is_prepended "c" SampleFlow.shown "T" sent
           SampleMessages.canonical eq_refl).
  - discriminate.
  - intros (r & [<- | [<- | []]] & E); discriminate E.
  - intros r [<- | [<- | []]] Hp; [reflexivity | discriminate Hp].
Defined.

(** The other order: when the canonical message comes first it takes the
    place of the pending record, and the later status update finds nothing
    to change. *)
Example canonical_before_status :
  handleStatusUpdate
    (messageHandler "c" SampleFlow.shown SampleMessages.canonical) "T" sent
  = [ ofMessage SampleMessages.canonical sent; SampleMessages.older ].
Proof. reflexivity. Qed.

End MessageListProps.

Section SendAndEditProps.
Import ExtendedMessage Messages MessageList.

Lemma existsb_id_known (prev : list ExtendedMessage.t) (m : ExtendedMessage.t) :
  (exists r, In r prev /\ id r = id m) ->
  existsb (fun msg => streq (id msg) (id m) || bool_decide (tempId msg = tempId m))
          prev = true.
Proof.
  intros (r & Hr & E). apply existsb_exists. exists r. split; [exact Hr|].
  apply orb_true_iff. left. now apply streq_true.
Qed.

(** X4: a retry, that is [sendMessage] called with the id of a record that
    is in the list, adds no record: the list keeps its length and order and
    only the status of the records of that id is set, to [sent] when the
    message was saved and to [failed] otherwise.  The record is not set
    back to [pending] in between. *)
Theorem retry_reuses_record chatId sessionId messageText retryId nanoid now result
    (prev : list ExtendedMessage.t) :
  retryId <> "" -> messageText <> "" ->
  (exists r, In r prev /\ id r = retryId) ->
  ChatInput.sendMessage chatId sessionId messageText (Some retryId) nanoid now
                        result prev
  = handleStatusUpdate prev retryId
      (match result with ChatInput.Saved => sent | ChatInput.Failed => failed end)
  /\ handleOptimistic prev
       (ChatInput.optimisticMessage chatId sessionId messageText (Some retryId)
                                    nanoid now) = prev
  /\ length (ChatInput.sendMessage chatId sessionId messageText (Some retryId)
                                   nanoid now result prev) = length prev.
Proof.
  intros Hid Htext Hin.
  apply falsy_false in Hid, Htext.
  assert (Hshown : handleOptimistic prev
            (ChatInput.optimisticMessage chatId sessionId messageText (Some retryId)
                                         nanoid now) = prev).
  { unfold handleOptimistic. rewrite existsb_id_known; [reflexivity|].
    unfold ChatInput.optimisticMessage, ChatInput.tempIdOf. rewrite Hid. exact Hin. }
  assert (E : ChatInput.sendMessage chatId sessionId messageText (Some retryId) nanoid
                now result prev
              = handleStatusUpdate prev retryId
                  (match result with
                   | ChatInput.Saved => sent | ChatInput.Failed => failed end)).
  { unfold ChatInput.sendMessage. rewrite Htext. cbv zeta. rewrite Hshown.
    unfold ChatInput.optimisticMessage, ChatInput.tempIdOf. rewrite Hid. reflexivity. }
  split; [exact E|]. split; [exact Hshown|].
  rewrite E. unfold handleStatusUpdate. apply length_map.
Qed.

Lemma retry_reuses_record_witness :
  "T" <> "" /\ "hi" <> ""
  /\ ChatInput.sendMessage "c" "U" "hi" (Some "T") "fresh" 5000 ChatInput.Saved
       (handleStatusUpdate SampleFlow.shown "T" failed)
     = [ withStatus SampleMessages.optimistic sent; SampleMessages.older ].
Proof.
  split; [discriminate|]. split; [discriminate|].
  destruct (retry_reuses_record "c" "U" "hi" "T" "fresh" 5000 ChatInput.Saved
              (handleStatusUpdate SampleFlow.shown "T" failed)) as [E _].
  - discriminate.
  - discriminate.
  - exists (withStatus SampleMessages.optimistic failed). split; [now left | reflexivity].
  - rewrite E. reflexivity.
Defined.

(** X5: a first send whose fresh id is neither an id nor a [tempId] of the
    list puts one record in front, with the status the request ended
    with, and leaves the rest of the list as it was; an empty text does
    nothing. *)
Theorem first_send_shows_one_record chatId sessionId messageText nanoid now result
    (prev : list ExtendedMessage.t) :
  messageText <> "" ->
  (forall r, In r prev -> id r <> nanoid /\ tempId r <> Some nanoid) ->
  ChatInput.sendMessage chatId sessionId messageText None nanoid now result prev
  = withStatus (ChatInput.optimisticMessage chatId sessionId messageText None nanoid now)
               (match result with ChatInput.Saved => sent | ChatInput.Failed => failed end)
    :: prev
  /\ ChatInput.sendMessage chatId sessionId "" None nanoid now result prev = prev.
Proof.
  intros Htext Hfresh. split; [|reflexivity].
  apply falsy_false in Htext.
  unfold ChatInput.sendMessage. rewrite Htext. cbv zeta.
  assert (handleOptimistic prev
            (ChatInput.optimisticMessage chatId sessionId messageText None nanoid now)
          = withStatus (ChatInput.optimisticMessage chatId sessionId messageText None
                                                    nanoid now) pending :: prev) as ->.
  { unfold handleOptimistic.
    assert (existsb _ prev = false) as ->; [|reflexivity].
    apply not_true_iff_false. intros E. apply existsb_exists in E.
    destruct E as (r & Hr & E). destruct (Hfresh r Hr) as [H1 H2].
    simpl in E. apply orb_true_iff in E. destruct E as [E | E].
    - now apply streq_true in E.
    - now apply bool_decide_eq_true_1 in E. }
  unfold handleStatusUpdate. simpl. unfold isTarget at 1. simpl.
  rewrite streq_refl. simpl. f_equal.
  rewrite <- (map_id prev) at 2. apply map_ext_in. intros r Hr.
  destruct (Hfresh r Hr) as [H1 H2]. unfold isTarget.
  apply streq_false in H1. rewrite H1. simpl.
  now rewrite bool_decide_eq_false_2.
Qed.

Lemma first_send_shows_one_record_witness :
  "hi" <> ""
  /\ ChatInput.sendMessage "c" "U" "hi" None "n7" 5000 ChatInput.Failed
       [SampleMessages.older]
     = [ withStatus (ChatInput.optimisticMessage "c" "U" "hi" None "n7" 5000) failed;
         SampleMessages.older ].
Proof.
  split; [discriminate|].
  apply (first_send_shows_one_record "c" "U" "hi" "n7" 5000 ChatInput.Failed
           [SampleMessages.older]).
  - discriminate.
  - intros r [<- | []]. split; discriminate.
Defined.

(** X6: a [message_edited] event rewrites every record of the edited id,
    at its place, to the plain payload: the text is the edited one and the
    record has no [status] and no [tempId] any more.  Records of other ids
    are untouched, an unknown id changes nothing, and a repeated event is a
    no-op. *)
Theorem messageEditedHandler_replaces prev (editedMessage : Message.t) :
  length (messageEditedHandler prev editedMessage) = length prev
  /\ (forall r, In r (messageEditedHandler prev editedMessage) ->
        id r = Message.id editedMessage ->
        r = plain editedMessage /\ status r = None
        /\ text r = Message.text editedMessage)
  /\ (forall i r, prev !! i = Some r -> id r <> Message.id editedMessage ->
        messageEditedHandler prev editedMessage !! i = Some r)
  /\ (forall i r, prev !! i = Some r -> id r = Message.id editedMessage ->
        messageEditedHandler prev editedMessage !! i = Some (plain editedMessage))
  /\ ((forall r, In r prev -> id r <> Message.id editedMessage) ->
      messageEditedHandler prev editedMessage = prev)
  /\ messageEditedHandler (messageEditedHandler prev editedMessage) editedMessage
     = messageEditedHandler prev editedMessage.
Proof.
  unfold messageEditedHandler.
  split; [apply length_map|]. split; [|split; [|split; [|split]]].
  - intros r Hr E. apply in_map_iff in Hr. destruct Hr as (r0 & Hr0 & _).
    destruct (streq (id r0) (Message.id editedMessage)) eqn:E0.
    + subst r. repeat split; reflexivity.
    + subst r. apply streq_false in E0. contradiction.
  - intros i r Hi Hne. rewrite list_lookup_fmap, Hi. simpl.
    apply streq_false in Hne. now rewrite Hne.
  - intros i r Hi He. rewrite list_lookup_fmap, Hi. simpl.
    apply streq_true in He. now rewrite He.
  - intros Hnone. rewrite <- (map_id prev) at 2. apply map_ext_in.
    intros r Hr. pose proof (Hnone r Hr) as Hne. apply streq_false in Hne.
    now rewrite Hne.
  - rewrite map_map. apply map_ext. intros r.
    destruct (streq (id r) (Message.id editedMessage)) eqn:E.
    + simpl. now rewrite streq_refl.
    + now rewrite E.
Qed.

(** X7: the optimistic text change of [handleSaveEdit] followed by the
    change back of its [catch] restores the list, when the original text
    kept at the start of the edit is the text of the records of that id. *)
Theorem edit_rollback_restores prev messageId trimmedText originalText :
  (forall r, In r prev -> id r = messageId -> text r = originalText) ->
  setText (setText prev messageId trimmedText) messageId originalText = prev
  /\ length (setText prev messageId trimmedText) = length prev
  /\ (forall r, In r (setText prev messageId trimmedText) -> id r = messageId ->
        text r = trimmedText)
  /\ map (fun r => (id r, status r, tempId r, timestamp r))
         (setText prev messageId trimmedText)
     = map (fun r => (id r, status r, tempId r, timestamp r)) prev.
Proof.
  intros Horig. unfold setText.
  split; [|split; [apply length_map | split]].
  - rewrite map_map. rewrite <- (map_id prev) at 2. apply map_ext_in.
    intros r Hr. destruct (streq (id r) messageId) eqn:E.
    + simpl. rewrite E. apply streq_true in E.
      rewrite <- (Horig r Hr E). now destruct r.
    + now rewrite E.
  - intros r Hr E. apply in_map_iff in Hr. destruct Hr as (r0 & <- & _).
    destruct (streq (id r0) messageId) eqn:E0; [reflexivity|].
    apply streq_false in E0. contradiction.
  - rewrite map_map. apply map_ext. intros r.
    now destruct (streq (id r) messageId).
Qed.

Lemma edit_rollback_restores_witness :
  setText (setText SampleFlow.shown "T" "hello") "T" "hi" = SampleFlow.shown.
Proof.
  apply (edit_rollback_restores SampleFlow.shown "T" "hello" "hi").
  intros r [<- | [<- | []]] E; [reflexivity | discriminate E].
Defined.

End SendAndEditProps.

(** ** The unseen counters of the sidebar *)

Section UnseenProps.
Import Unseen.

Lemma endsWith_unfold s suffix :
  endsWith s suffix
  = if streq s suffix then true
    else match s with
         | EmptyString => false
         | String _ rest => endsWith rest suffix
         end.
Proof. destruct s; reflexivity. Qed.

Lemma endsWith_app p c : endsWith (p ++ c) c = true.
Proof.
  induction p as [|a p IH].
  - change ("" ++ c) with c. now rewrite endsWith_unfold, streq_refl.
  - rewrite endsWith_unfold. change (String a p ++ c) with (String a (p ++ c)).
    destruct (streq (String a (p ++ c)) c); [reflexivity | exact IH].
Qed.

Lemma chatPath_eq c d : streq (chatPath c) (chatPath d) = streq c d.
Proof. reflexivity. Qed.

Lemma chatPath_has_chat c : strIncludes (chatPath c) "chat" = true.
Proof. reflexivity. Qed.

Lemma count_app (l1 l2 : list Notification) c :
  unseenMessagesCount (l1 ++ l2) c
  = (unseenMessagesCount l1 c + unseenMessagesCount l2 c)%nat.
Proof. unfold unseenMessagesCount. now rewrite List.filter_app, length_app. Qed.

Lemma count_filter_out (q : Notification -> bool) l c :
  (forall n, streq (Message.chatId (message n)) c = true -> q n = false) ->
  unseenMessagesCount (List.filter q l) c = 0%nat.
Proof.
  intros Hq. unfold unseenMessagesCount.
  induction l as [|n l IH]; [reflexivity|]. simpl.
  destruct (q n) eqn:E; [|exact IH]. simpl.
  destruct (streq (Message.chatId (message n)) c) eqn:Ec; [|exact IH].
  rewrite (Hq n Ec) in E. discriminate.
Qed.

Lemma count_filter_keep (q : Notification -> bool) l d :
  (forall n, streq (Message.chatId (message n)) d = true -> q n = true) ->
  unseenMessagesCount (List.filter q l) d = unseenMessagesCount l d.
Proof.
  intros Hq. unfold unseenMessagesCount.
  induction l as [|n l IH]; [reflexivity|]. simpl.
  destruct (streq (Message.chatId (message n)) d) eqn:Ed.
  - rewrite (Hq n Ed). simpl. rewrite Ed. simpl. now rewrite IH.
  - destruct (q n); simpl; [rewrite Ed|]; exact IH.
Qed.

(** X8: opening the page of chat [c] clears its unseen counter and keeps
    the counter of every chat whose id is not a suffix of the path; while
    that page is open a new message of [c] is not counted, and a new
    message of another chat raises that chat's counter by one and no
    other. *)
Theorem unseen_counter_of_open_chat (c : string) (unseen : list Notification) :
  unseenMessagesCount (onPathname (Some (chatPath c)) unseen) c = 0%nat
  /\ (forall d, endsWith (chatPath c) d = false ->
        unseenMessagesCount (onPathname (Some (chatPath c)) unseen) d
        = unseenMessagesCount unseen d)
  /\ (forall n, Message.chatId (message n) = c ->
        chatHandler (Some (chatPath c)) unseen n = unseen)
  /\ (forall n d, Message.chatId (message n) <> c ->
        unseenMessagesCount (chatHandler (Some (chatPath c)) unseen n) d
        = if streq (Message.chatId (message n)) d
          then S (unseenMessagesCount unseen d)
          else unseenMessagesCount unseen d).
Proof.
  split; [|split; [|split]].
  - unfold onPathname. rewrite chatPath_has_chat. apply count_filter_out.
    intros n Hn. apply streq_true in Hn. rewrite Hn. unfold chatPath.
    now rewrite endsWith_app.
  - intros d Hd. unfold onPathname. rewrite chatPath_has_chat.
    apply count_filter_keep. intros n Hn. apply streq_true in Hn.
    now rewrite Hn, Hd.
  - intros n Hn. unfold chatHandler. rewrite Hn, streq_refl. reflexivity.
  - intros n d Hn. unfold chatHandler. rewrite chatPath_eq.
    assert (streq c (Message.chatId (message n)) = false) as ->
      by (apply streq_false; congruence).
    simpl. rewrite count_app. unfold unseenMessagesCount at 2. simpl.
    destruct (streq (Message.chatId (message n)) d); simpl; lia.
Qed.

(** The clearing goes by suffix: opening chat [ab] also clears the
    counter of a chat whose id is [b]. *)
Example unseen_cleared_by_suffix :
  unseenMessagesCount (onPathname (Some (chatPath "ab")) [SampleFlow.note "b"]) "b"
  = 0%nat.
Proof. reflexivity. Qed.

End UnseenProps.

(** ** The friend list and the selection of members *)

Section FriendsListProps.
Import FriendsList.

Lemma existsb_user_id (prev : list User.t) (i : string) :
  existsb (fun f => streq (User.id f) i) prev = true <-> In i (map User.id prev).
Proof.
  rewrite existsb_exists, in_map_iff. split.
  - intros (f & Hf & E). apply streq_true in E. now exists f.
  - intros (f & E & Hf). exists f. split; [exact Hf | now apply streq_true].
Qed.

Lemma filter_id_fresh (prev : list User.t) (i : string) :
  ~ In i (map User.id prev) ->
  List.filter (fun f => negb (streq (User.id f) i)) prev = prev.
Proof.
  induction prev as [|a prev IH]; intros Hn; [reflexivity|]. simpl in *.
  assert (streq (User.id a) i = false) as -> by (apply streq_false; tauto).
  simpl. f_equal. apply IH. tauto.
Qed.

(** X9: the two handlers of the friend list keep the ids of the list
    distinct.  A new friend is added once, at the end, and a repeated
    event adds nothing; after a removal event the id is gone and the other
    friends are kept in their order; adding a friend who was not listed
    and removing that id again gives back the list. *)
Theorem friend_list_ids_stay_distinct (prev : list User.t) :
  NoDup (map User.id prev) ->
  (forall f, NoDup (map User.id (newFriendHandler prev f))
             /\ In (User.id f) (map User.id (newFriendHandler prev f))
             /\ newFriendHandler (newFriendHandler prev f) f = newFriendHandler prev f)
  /\ (forall i, NoDup (map User.id (friendRemovedHandler prev i))
                /\ ~ In i (map User.id (friendRemovedHandler prev i))
                /\ friendRemovedHandler prev i
                   = List.filter (fun f => negb (streq (User.id f) i)) prev)
  /\ (forall f, ~ In (User.id f) (map User.id prev) ->
                friendRemovedHandler (newFriendHandler prev f) (User.id f) = prev).
Proof.
  intros Hnd. split; [|split].
  - intros f. unfold newFriendHandler.
    destruct (existsb (fun g => streq (User.id g) (User.id f)) prev) eqn:E.
    + rewrite E. split; [exact Hnd|]. split; [now apply existsb_user_id | reflexivity].
    + assert (~ In (User.id f) (map User.id prev)) as Hn.
      { rewrite <- existsb_user_id. congruence. }
      split; [|split].
      * rewrite map_app. simpl. apply NoDup_app. split; [exact Hnd|].
        split; [|apply NoDup_singleton].
        intros x Hx Hx'. apply list_elem_of_In in Hx.
        apply list_elem_of_In in Hx'. simpl in Hx'. destruct Hx' as [<- | []].
        contradiction.
      * rewrite map_app. apply in_or_app. right. now left.
      * rewrite existsb_app. simpl. now rewrite streq_refl, orb_true_r.
  - intros i.
    assert (Hf : friendRemovedHandler prev i
                 = List.filter (fun f => negb (streq (User.id f) i)) prev).
    { unfold friendRemovedHandler.
      destruct (List.find (fun f => streq (User.id f) i) prev) eqn:E; [reflexivity|].
      symmetry. apply filter_id_fresh. intros Hin. apply existsb_user_id in Hin.
      apply existsb_exists in Hin. destruct Hin as (f & Hf & Ef).
      apply (find_none _ _ E) in Hf. congruence. }
    rewrite Hf. split; [|split; [|reflexivity]].
    + clear Hf. induction prev as [|a prev IH]; [constructor|].
      simpl in Hnd. apply NoDup_cons in Hnd. destruct Hnd as [Ha Hnd].
      simpl. destruct (streq (User.id a) i); simpl; [now apply IH|].
      apply NoDup_cons. split; [|now apply IH].
      intros Hin. apply Ha. apply list_elem_of_In in Hin. apply list_elem_of_In.
      apply in_map_iff in Hin. destruct Hin as (g & Eg & Hg).
      apply filter_In in Hg. apply in_map_iff. exists g. tauto.
    + intros Hin. apply in_map_iff in Hin. destruct Hin as (g & Eg & Hg).
      apply filter_In in Hg. destruct Hg as [_ Hg].
      apply negb_true_iff, streq_false in Hg. contradiction.
  - intros f Hn. unfold newFriendHandler.
    assert (existsb (fun g => streq (User.id g) (User.id f)) prev = false) as ->.
    { apply not_true_iff_false. now rewrite existsb_user_id. }
    unfold friendRemovedHandler.
    assert (List.find (fun g => streq (User.id g) (User.id f)) (prev ++ [f]) <> None)
      as Hfound.
    { intros E. assert (In f (prev ++ [f])) as Hin by (apply in_or_app; right; now left).
      apply (find_none _ _ E) in Hin. now rewrite streq_refl in Hin. }
    destruct (List.find _ (prev ++ [f])); [|contradiction].
    rewrite List.filter_app. simpl. rewrite streq_refl. simpl.
    rewrite app_nil_r. now apply filter_id_fresh.
Qed.

Lemma friend_list_ids_stay_distinct_witness :
  NoDup (map User.id [SampleSend.alice; SampleFlow.bob])
  /\ friendRemovedHandler
       (newFriendHandler [SampleSend.alice; SampleFlow.bob] SampleFlow.carol) "c"
     = [SampleSend.alice; SampleFlow.bob].
Proof.
  assert (Hnd : NoDup (map User.id [SampleSend.alice; SampleFlow.bob])).
  { apply NoDup_cons. split; [|apply NoDup_singleton].
    intros H. apply list_elem_of_In in H. simpl in H.
    destruct H as [H | []]. discriminate H. }
  split; [exact Hnd|].
  destruct (friend_list_ids_stay_distinct [SampleSend.alice; SampleFlow.bob] Hnd)
    as (_ & _ & H).
  apply (H SampleFlow.carol).
  simpl. intros [H1 | [H1 | []]]; discriminate H1.
Defined.

End FriendsListProps.

Section SelectionProps.
Import Selection.

Lemma has_delete s x y : has (delete s x) y = has s y && negb (streq y x).
Proof.
  unfold has, delete.
  destruct (includes s y) eqn:E.
  - apply includes_In in E. destruct (streq y x) eqn:Exy; simpl.
    + apply includes_not_In. rewrite filter_In, Exy. simpl. intros [_ H]. discriminate.
    + apply includes_In. rewrite filter_In, Exy. auto.
  - simpl. apply includes_not_In. apply includes_not_In in E.
    rewrite filter_In. tauto.
Qed.

Lemma has_app s x y : has (s ++ [x]) y = has s y || streq y x.
Proof. unfold has, includes. rewrite existsb_app. simpl. now rewrite orb_false_r. Qed.

Lemma delete_fresh s x : has s x = false -> delete s x = s.
Proof.
  unfold has, delete. intros H. apply includes_not_In in H.
  induction s as [|a s IH]; [reflexivity|]. simpl in *.
  assert (streq a x = false) as -> by (apply streq_false; tauto).
  simpl. f_equal. apply IH. tauto.
Qed.

(** X10: toggling a friend flips the membership of that friend in the
    selection and of no other, keeps the selection free of repetition, and
    toggling twice gives back the same set of friends (the very same list
    when the friend was not selected). *)
Theorem toggle_selection_flips (prev : list string) (friendId : string) :
  NoDup prev ->
  has (toggleFriendSelection prev friendId) friendId = negb (has prev friendId)
  /\ (forall y, y <> friendId ->
        has (toggleFriendSelection prev friendId) y = has prev y)
  /\ NoDup (toggleFriendSelection prev friendId)
  /\ (forall y, has (toggleFriendSelection (toggleFriendSelection prev friendId)
                                           friendId) y = has prev y)
  /\ (has prev friendId = false ->
      toggleFriendSelection (toggleFriendSelection prev friendId) friendId = prev).
Proof.
  intros Hnd.
  assert (Hflip : forall s, has (toggleFriendSelection s friendId) friendId
                            = negb (has s friendId)).
  { intros s. unfold toggleFriendSelection.
    destruct (has s friendId) eqn:E.
    - rewrite has_delete, streq_refl. simpl. apply andb_false_r.
    - unfold add. rewrite E, has_app, streq_refl. apply orb_true_r. }
  assert (Hkeep : forall s y, y <> friendId ->
                    has (toggleFriendSelection s friendId) y = has s y).
  { intros s y Hy. apply streq_false in Hy. unfold toggleFriendSelection.
    destruct (has s friendId) eqn:E.
    - rewrite has_delete, Hy. simpl. apply andb_true_r.
    - unfold add. rewrite E, has_app, Hy. apply orb_false_r. }
  split; [apply Hflip|]. split; [apply Hkeep|]. split; [|split].
  - unfold toggleFriendSelection. destruct (has prev friendId) eqn:E.
    + unfold delete. clear E. induction Hnd as [|a l Ha Hl IH]; [constructor|].
      simpl. destruct (streq a friendId); simpl; [exact IH|].
      apply NoDup_cons. split; [|exact IH].
      intros Hin. apply Ha. apply list_elem_of_In in Hin. apply list_elem_of_In.
      apply filter_In in Hin. tauto.
    + unfold add. rewrite E. apply NoDup_app. split; [exact Hnd|].
      split; [|apply NoDup_singleton].
      intros y Hy Hy'. apply list_elem_of_In in Hy.
      apply list_elem_of_In in Hy'. destruct Hy' as [<- | []].
      apply includes_not_In in E. contradiction.
  - intros y. destruct (decide (y = friendId)) as [-> | Hy].
    + rewrite Hflip, Hflip. apply negb_involutive.
    + now rewrite !Hkeep.
  - intros E. unfold toggleFriendSelection at 2. rewrite E. unfold add. rewrite E.
    unfold toggleFriendSelection. rewrite has_app, streq_refl, orb_true_r.
    unfold delete. rewrite List.filter_app. simpl. rewrite streq_refl. simpl.
    rewrite app_nil_r. now apply delete_fresh.
Qed.

Lemma toggle_selection_flips_witness :
  NoDup ["b"; "c"]
  /\ toggleFriendSelection (toggleFriendSelection ["b"; "c"] "d") "d" = ["b"; "c"].
Proof.
  assert (Hnd : NoDup ["b"; "c"]).
  { apply NoDup_cons. split; [|apply NoDup_singleton].
    intros H. apply list_elem_of_In in H. destruct H as [H | []]. discriminate H. }
  split; [exact Hnd|].
  destruct (toggle_selection_flips ["b"; "c"] "d" Hnd) as (_ & _ & _ & _ & H).
  apply H. reflexivity.
Defined.

End SelectionProps.

(** ** Renaming a chat *)

Section SetNameProps.
Variable P : Platform.
Variable B : Broker.
Import SetNameOutcome.

Lemma set_name_run requesterId chatId name w :
  Fanout.run (SetName.POST P B (Some requesterId) chatId name) w
  = if falsy chatId then (text_response "chatId is required." 400, w)
    else match name with
         | None => (text_response "Chat name cannot be empty." 400, w)
         | Some n =>
             if falsy (trim P n)
             then (text_response "Chat name cannot be empty." 400, w)
             else match Redis.chats (Fanout.db w) !! Redis.chatKey chatId with
                  | None => (text_response "Chat not found." 404, w)
                  | Some chat =>
                      if negb (includes (Chat.memberIds chat) requesterId)
                      then (text_response "Only chat members can rename the chat."
                                          401, w)
                      else (answer P B chat (trim P n), started P B chat (trim P n) w)
                  end
         end.
Proof.
  unfold SetName.POST, Fanout.run.
  unfold Fanout.bind, Fanout.reply_if, Fanout.reply, Fanout.ret, Fanout.read.
  destruct (falsy chatId); [reflexivity|].
  destruct name as [n|]; [|reflexivity]. cbn [fmap option_fmap option_map].
  destruct (falsy (trim P n)); [reflexivity|].
  destruct (Redis.chats (Fanout.db w) !! Redis.chatKey chatId) as [chat|]; [|reflexivity].
  destruct (negb (includes (Chat.memberIds chat) requesterId)); [reflexivity|].
  rewrite await_all_run.
  unfold answer, started, events, SetName.caught.
  cbn [foldl app Fanout.land List.filter forallb Fanout.resolves Chat.id Chat.memberIds
       SetName.renamed Fanout.db Fanout.log andb].
  rewrite land_events.
  match goal with |- context [if ?c then inr tt else _] => destruct c end;
    reflexivity.
Qed.

(** What a rename that passes the guards leaves, whatever the broker
    does. *)
Lemma set_name_passes requesterId chatId n chat w :
  Redis.chats (Fanout.db w) !! Redis.chatKey chatId = Some chat ->
  chatId <> "" -> trim P n <> "" -> In requesterId (Chat.memberIds chat) ->
  Fanout.run (SetName.POST P B (Some requesterId) chatId (Some n)) w
  = (answer P B chat (trim P n), started P B chat (trim P n) w).
Proof.
  intros Hchat Hc Hn Hin. rewrite set_name_run, Hchat.
  apply falsy_false in Hc, Hn. rewrite Hc, Hn.
  apply includes_In in Hin. rewrite Hin. reflexivity.
Qed.

(** X11: a rename request on a stored chat passes the guards of the
    route exactly when the chat id is not empty, a name is sent whose
    trimmed form is not empty, and the requester is a member (any
    member).  A request that does not pass is answered with an error of
    the route's own (400 or 401) and writes and publishes nothing.  One
    that passes stores the chat with the trimmed name and the id, members
    and creation time it had, and touches no user record, set or message
    log, whatever the broker does with the events; it is answered 200
    with the renamed chat when the broker accepts every event of the
    request, and with the 500 of the route's [catch] otherwise. *)
Theorem set_name_rules requesterId chatId name chat w :
  Redis.chats (Fanout.db w) !! Redis.chatKey chatId = Some chat ->
  let out := Fanout.run (SetName.POST P B (Some requesterId) chatId name) w in
  let passes :=
    chatId <> ""
    /\ (exists n, name = Some n /\ trim P n <> "")
    /\ In requesterId (Chat.memberIds chat) in
  (~ passes -> 400 <= status out.1 < 500 /\ out.2 = w)
  /\ (forall n, passes -> name = Some n ->
        let delivered := forallb (Fanout.resolves B) (events P chat (trim P n)) in
        out.2 = started P B chat (trim P n) w
        /\ Redis.chats (Fanout.db out.2) !! Redis.chatKey (Chat.id chat)
           = Some {| Chat.id := Chat.id chat; Chat.name := trim P n;
                     Chat.memberIds := Chat.memberIds chat;
                     Chat.createdAt := Chat.createdAt chat |}
        /\ Redis.users (Fanout.db out.2) = Redis.users (Fanout.db w)
        /\ Redis.sets (Fanout.db out.2) = Redis.sets (Fanout.db w)
        /\ Redis.zsets (Fanout.db out.2) = Redis.zsets (Fanout.db w)
        /\ (delivered = true ->
            out.1 = {| body := JsonChat (SetName.renamed chat (trim P n));
                       status := 200 |})
        /\ (delivered = false -> out.1 = text_response (failure B) 500))
  /\ (status out.1 = 200
      <-> passes
          /\ exists n, name = Some n
                       /\ forallb (Fanout.resolves B) (events P chat (trim P n)) = true).
Proof.
  intros Hchat out passes.
  assert (Hpass : forall n, passes -> name = Some n ->
            out = (answer P B chat (trim P n), started P B chat (trim P n) w)).
  { intros n (Hc & (n' & Hn' & Hne) & Hin) Hn. subst out. rewrite Hn in *.
    injection Hn' as <-. now apply set_name_passes. }
  assert (Hfail : ~ passes -> 400 <= status out.1 < 500 /\ out.2 = w).
  { intros Hno. subst out. rewrite set_name_run, Hchat.
    destruct (falsy chatId) eqn:Ec; [simpl; split; [lia | reflexivity]|].
    destruct name as [n|]; [|simpl; split; [lia | reflexivity]].
    destruct (falsy (trim P n)) eqn:En; [simpl; split; [lia | reflexivity]|].
    destruct (includes (Chat.memberIds chat) requesterId) eqn:Er;
      [|simpl; split; [lia | reflexivity]].
    exfalso. apply Hno. apply falsy_false in Ec, En. apply includes_In in Er.
    split; [exact Ec|]. split; [now exists n | exact Er]. }
  split; [exact Hfail|]. split.
  - intros n Hp Hn delivered. rewrite (Hpass n Hp Hn). cbn [fst snd].
    split; [reflexivity|]. unfold started, answer. cbn [Fanout.db].
    split; [apply lookup_insert_eq|].
    split; [reflexivity|]. split; [reflexivity|]. split; [reflexivity|].
    subst delivered. split; intros ->; reflexivity.
  - split.
    + intros H200.
      assert (Hp : passes).
      { destruct (falsy chatId) eqn:Ec.
        { subst out. rewrite set_name_run, Ec in H200. discriminate H200. }
        destruct name as [n|].
        2: { subst out. rewrite set_name_run, Ec in H200. discriminate H200. }
        destruct (falsy (trim P n)) eqn:En.
        { subst out. rewrite set_name_run, Ec, En in H200. discriminate H200. }
        destruct (includes (Chat.memberIds chat) requesterId) eqn:Er.
        2: { subst out. rewrite set_name_run, Ec, En, Hchat, Er in H200.
             discriminate H200. }
        apply falsy_false in Ec, En. apply includes_In in Er.
        split; [exact Ec|]. split; [now exists n | exact Er]. }
      split; [exact Hp|].
      destruct Hp as (Hc & (n & Hn & Hne) & Hin).
      exists n. split; [exact Hn|].
      rewrite (Hpass n (conj Hc (conj (ex_intro _ n (conj Hn Hne)) Hin)) Hn) in H200.
      cbn [fst] in H200. unfold answer in H200.
      destruct (forallb _ _); [reflexivity | discriminate H200].
    + intros (Hp & n & Hn & Hd). rewrite (Hpass n Hp Hn). cbn [fst].
      unfold answer. now rewrite Hd.
Qed.

End SetNameProps.

(** X12: renaming a stored two-member chat (kept under its own id) to the
    sentinel makes it a DirectMessage, whatever the broker does with the
    events of the rename: from then on the remove-member route refuses
    every request on it, whoever asks and whoever is to be removed, and
    leaves the store as it is. *)
Theorem rename_to_sentinel_locks_members (P : Platform) (B B' : Broker)
    requesterId chatId n chat w :
  Redis.chats (Fanout.db w) !! Redis.chatKey chatId = Some chat ->
  Chat.id chat = chatId ->
  length (Chat.memberIds chat) = 2%nat ->
  In requesterId (Chat.memberIds chat) ->
  chatId <> "" ->
  trim P n = SENTINEL ->
  let renamedWorld :=
    (Fanout.run (SetName.POST P B (Some requesterId) chatId (Some n)) w).2 in
  Redis.chats (Fanout.db renamedWorld) !! Redis.chatKey chatId
  = Some (SetName.renamed chat SENTINEL)
  /\ Classify.isIndividualChat (SetName.renamed chat SENTINEL) = true
  /\ forall session memberId,
       let out :=
         Fanout.run (RemoveMember.POST P B' session chatId memberId) renamedWorld in
       400 <= status out.1 < 500 /\ out.2 = renamedWorld.
Proof.
  intros Hchat Hid Hlen Hin Hc Hn renamedWorld.
  assert (E : renamedWorld = SetNameOutcome.started P B chat SENTINEL w).
  { pose proof (set_name_passes P B requesterId chatId n chat w Hchat Hc) as Hrun.
    rewrite Hn in Hrun. subst renamedWorld.
    rewrite Hrun; [reflexivity | discriminate | exact Hin]. }
  assert (Hstored : Redis.chats (Fanout.db renamedWorld) !! Redis.chatKey chatId
                    = Some (SetName.renamed chat SENTINEL)).
  { rewrite E. simpl. rewrite Hid. apply lookup_insert_eq. }
  assert (Hdm : Classify.isIndividualChat (SetName.renamed chat SENTINEL) = true).
  { unfold Classify.isIndividualChat. simpl. rewrite Hlen. reflexivity. }
  split; [exact Hstored|]. split; [exact Hdm|].
  intros [requester'|] memberId out; [|subst out; simpl; split; [lia | reflexivity]].
  subst out. rewrite (remove_member_run P B' _ _ _ _ _ Hstored), Hdm.
  destruct (falsy chatId || falsy memberId); [simpl; split; [lia | reflexivity]|].
  destruct (negb (includes _ requester')); simpl; split; (lia || reflexivity).
Qed.

Lemma set_name_rules_witness :
  Redis.chats (Fanout.db SampleMembers.wide) !! Redis.chatKey "g1"
  = Some SampleStore.trio
  /\ Redis.chats
       (Fanout.db
          (Fanout.run (SetName.POST SampleStore.P0 SampleStore.down (Some "c") "g1"
                                    (Some "Reading Group"))
                      SampleMembers.wide).2) !! Redis.chatKey "g1"
     = Some SampleSidebar.renamed
  /\ (Fanout.run (SetName.POST SampleStore.P0 SampleStore.down (Some "c") "g1"
                               (Some "Reading Group"))
                 SampleMembers.wide).1
     = text_response "Pusher is unreachable" 500
  /\ (Fanout.run (SetName.POST SampleStore.P0 SampleStore.B0 (Some "c") "g1"
                               (Some "Reading Group"))
                 SampleMembers.wide).1
     = {| body := JsonChat SampleSidebar.renamed; status := 200 |}.
Proof.
  assert (Hp : "g1" <> ""
               /\ (exists n, Some "Reading Group" = Some n
                             /\ trim SampleStore.P0 n <> "")
               /\ In "c" (Chat.memberIds SampleStore.trio)).
  { split; [discriminate|]. split; [|simpl; auto].
    exists "Reading Group". split; [reflexivity | discriminate]. }
  split; [reflexivity|].
  destruct (set_name_rules SampleStore.P0 SampleStore.down "c" "g1"
              (Some "Reading Group") SampleStore.trio SampleMembers.wide eq_refl)
    as (_ & Hdown & _).
  destruct (Hdown "Reading Group" Hp eq_refl) as (_ & Hstored & _ & _ & _ & _ & H500).
  destruct (set_name_rules SampleStore.P0 SampleStore.B0 "c" "g1"
              (Some "Reading Group") SampleStore.trio SampleMembers.wide eq_refl)
    as (_ & Hup & _).
  destruct (Hup "Reading Group" Hp eq_refl) as (_ & _ & _ & _ & _ & H200 & _).
  split; [exact Hstored|]. split; [apply H500; reflexivity | apply H200; reflexivity].
Defined.

Lemma rename_to_sentinel_locks_members_witness :
  Redis.chats (Fanout.db SampleMembers.wide) !! Redis.chatKey "d1"
  = Some SampleMembers.duo
  /\ (let renamedWorld :=
        (Fanout.run (SetName.POST SampleStore.P0 SampleStore.down (Some "b") "d1"
                                  (Some "Direct message"))
                    SampleMembers.wide).2 in
      let out :=
        Fanout.run (RemoveMember.POST SampleStore.P0 SampleStore.B0 (Some "a") "d1" "b")
                   renamedWorld in
      400 <= status out.1 < 500 /\ out.2 = renamedWorld).
Proof.
  split; [reflexivity|].
  destruct (rename_to_sentinel_locks_members SampleStore.P0 SampleStore.down
              SampleStore.B0 "b" "d1" "Direct message"
              SampleMembers.duo SampleMembers.wide eq_refl eq_refl eq_refl)
    as (_ & _ & H).
  - simpl. auto.
  - discriminate.
  - reflexivity.
  - exact (H (Some "a") "b").
Defined.

(** ** Adding a member *)

Lemma chat_eta (chat : Chat.t) :
  {| Chat.id := Chat.id chat; Chat.name := Chat.name chat;
     Chat.memberIds := Chat.memberIds chat;
     Chat.createdAt := Chat.createdAt chat |} = chat.
Proof. now destruct chat. Qed.

Lemma filter_out_appended (members : list string) (memberId : string) :
  ~ In memberId members ->
  List.filter (fun id => negb (streq id memberId)) (members ++ [memberId])%list
  = members.
Proof.
  intros Hnot. rewrite List.filter_app. simpl. rewrite streq_refl. simpl.
  rewrite app_nil_r.
  induction members as [|m ms IH]; [reflexivity|]. simpl.
  destruct (streq m memberId) eqn:E.
  - apply streq_true in E. subst. exfalso. apply Hnot. now left.
  - simpl. f_equal. apply IH. intros Hin. apply Hnot. now right.
Qed.

Section AddMemberProps.
Variable P : Platform.
Variable B : Broker.
Import AddMemberOutcome.

Lemma add_member_run requesterId chatId memberId chat w :
  Redis.chats (Fanout.db w) !! Redis.chatKey chatId = Some chat ->
  Fanout.run (AddMember.POST P B (Some requesterId) chatId memberId) w
  = if falsy chatId || falsy memberId
    then (text_response "chatId and memberId are required." 400, w)
    else if negb (includes (Chat.memberIds chat) requesterId)
    then (text_response "Only chat members can add new participants." 401, w)
    else if includes (Chat.memberIds chat) memberId
    then (text_response "User is already a member of this chat." 400, w)
    else if (2 <=? length (Chat.memberIds chat))%nat
            && (String.length (trim P (Chat.name chat)) =? 0)%nat
    then (text_response
            "Group name is required before adding more members to this chat." 400, w)
    else (answer P B chat chatId memberId
                 (Redis.users (Fanout.db w) !! Redis.userKey memberId),
          started P B chat chatId memberId
                  (Redis.users (Fanout.db w) !! Redis.userKey memberId) w).
Proof.
  intros Hchat. unfold AddMember.POST, Fanout.run.
  unfold Fanout.bind, Fanout.reply_if, Fanout.reply, Fanout.ret, Fanout.read.
  destruct (falsy chatId || falsy memberId); [reflexivity|].
  rewrite Hchat.
  destruct (negb (includes (Chat.memberIds chat) requesterId)); [reflexivity|].
  destruct (includes (Chat.memberIds chat) memberId); [reflexivity|].
  destruct (_ && (String.length (trim P (Chat.name chat)) =? 0)%nat); [reflexivity|].
  rewrite await_all_run.
  unfold answer, started, events, writes, AddMember.caught.
  cbn [foldl app Fanout.land List.filter forallb Fanout.resolves Chat.id Chat.memberIds
       AddMember.updatedChat Fanout.db Fanout.log andb].
  rewrite land_events.
  match goal with |- context [if ?c then inr tt else _] => destruct c end;
    reflexivity.
Qed.

Lemma add_member_guards chat requesterId memberId :
  rejecting P chat requesterId memberId
  <-> negb (includes (Chat.memberIds chat) requesterId) = true
      \/ includes (Chat.memberIds chat) memberId = true
      \/ (2 <=? length (Chat.memberIds chat))%nat
         && (String.length (trim P (Chat.name chat)) =? 0)%nat = true.
Proof.
  unfold rejecting.
  rewrite negb_true_iff, includes_not_In, includes_In, andb_true_iff,
    Nat.leb_le, length_zero_empty.
  reflexivity.
Qed.

(** What an addition that passes the guards leaves, whatever the broker
    does. *)
Lemma add_member_passes requesterId chatId memberId chat w :
  Redis.chats (Fanout.db w) !! Redis.chatKey chatId = Some chat ->
  chatId <> "" -> memberId <> "" ->
  ~ rejecting P chat requesterId memberId ->
  Fanout.run (AddMember.POST P B (Some requesterId) chatId memberId) w
  = (answer P B chat chatId memberId
            (Redis.users (Fanout.db w) !! Redis.userKey memberId),
     started P B chat chatId memberId
             (Redis.users (Fanout.db w) !! Redis.userKey memberId) w).
Proof.
  intros Hchat Hc Hm Hrej. rewrite (add_member_run _ _ _ _ _ Hchat).
  rewrite add_member_guards in Hrej.
  apply falsy_false in Hc, Hm. rewrite Hc, Hm. cbn [orb].
  destruct (negb (includes (Chat.memberIds chat) requesterId));
    [exfalso; apply Hrej; now left|].
  destruct (includes (Chat.memberIds chat) memberId);
    [exfalso; apply Hrej; right; now left|].
  destruct ((2 <=? length (Chat.memberIds chat))%nat
            && (String.length (trim P (Chat.name chat)) =? 0)%nat);
    [exfalso; apply Hrej; right; now right|].
  reflexivity.
Qed.

Lemma add_member_refused requesterId chatId memberId chat w :
  Redis.chats (Fanout.db w) !! Redis.chatKey chatId = Some chat ->
  rejecting P chat requesterId memberId ->
  400 <= status (Fanout.run (AddMember.POST P B (Some requesterId) chatId memberId) w).1
      < 500
  /\ (Fanout.run (AddMember.POST P B (Some requesterId) chatId memberId) w).2 = w.
Proof.
  intros Hchat Hrej. rewrite (add_member_run _ _ _ _ _ Hchat).
  rewrite add_member_guards in Hrej.
  destruct (falsy chatId || falsy memberId); [simpl; split; [lia | reflexivity]|].
  destruct (negb (includes (Chat.memberIds chat) requesterId));
    [simpl; split; [lia | reflexivity]|].
  destruct (includes (Chat.memberIds chat) memberId);
    [simpl; split; [lia | reflexivity]|].
  destruct ((2 <=? length (Chat.memberIds chat))%nat
            && (String.length (trim P (Chat.name chat)) =? 0)%nat);
    [simpl; split; [lia | reflexivity]|].
  exfalso. intuition discriminate.
Qed.

(** X13: an add-member request with non-empty ids on a stored chat is
    refused by the guards of the route, with an error of the route's own
    (400 or 401) and nothing written or published, exactly when the
    requester is not a member, the new member already is one, or the chat
    has at least two members and a blank name; no friendship and no user
    record of the new member is asked for.  A request that passes the
    guards stores the chat with its id, name and creation time and with
    the former members followed by the new one, and puts the chat id in
    the new member's index, whatever the broker does with the events; it
    is answered 200 with the updated chat when the broker accepts every
    event of the request, and with the 500 of the route's [catch]
    otherwise. *)
Theorem add_member_rules requesterId chatId memberId chat w :
  Redis.chats (Fanout.db w) !! Redis.chatKey chatId = Some chat ->
  chatId <> "" -> memberId <> "" ->
  let out := Fanout.run (AddMember.POST P B (Some requesterId) chatId memberId) w in
  let addedMember := Redis.users (Fanout.db w) !! Redis.userKey memberId in
  let delivered :=
    forallb (Fanout.resolves B) (events P chat chatId memberId addedMember) in
  (rejecting P chat requesterId memberId -> 400 <= status out.1 < 500 /\ out.2 = w)
  /\ (~ rejecting P chat requesterId memberId ->
        out.2 = started P B chat chatId memberId addedMember w
        /\ Redis.chats (Fanout.db out.2) !! Redis.chatKey (Chat.id chat)
           = Some {| Chat.id := Chat.id chat; Chat.name := Chat.name chat;
                     Chat.memberIds := (Chat.memberIds chat ++ [memberId])%list;
                     Chat.createdAt := Chat.createdAt chat |}
        /\ (Chat.id chat
            ∈ Redis.smembers (Fanout.db out.2) (Redis.userChatsKey memberId))
        /\ Redis.users (Fanout.db out.2) = Redis.users (Fanout.db w)
        /\ Redis.zsets (Fanout.db out.2) = Redis.zsets (Fanout.db w)
        /\ (delivered = true ->
            out.1 = {| body := JsonChat (AddMember.updatedChat chat memberId);
                       status := 200 |})
        /\ (delivered = false -> out.1 = text_response (failure B) 500))
  /\ (status out.1 = 200
      <-> ~ rejecting P chat requesterId memberId /\ delivered = true).
Proof.
  intros Hchat Hc Hm out addedMember delivered.
  assert (Hpass : ~ rejecting P chat requesterId memberId ->
            out = (answer P B chat chatId memberId addedMember,
                   started P B chat chatId memberId addedMember w)).
  { intros Hrej. now apply add_member_passes. }
  split; [now apply add_member_refused|]. split.
  - intros Hrej. rewrite (Hpass Hrej). cbn [fst snd].
    split; [reflexivity|]. unfold started, answer. cbn [Fanout.db].
    split; [apply lookup_insert_eq|].
    split.
    { rewrite smembers_sadd, decide_True by reflexivity.
      apply elem_of_union_l, elem_of_singleton. reflexivity. }
    split; [reflexivity|]. split; [reflexivity|].
    subst delivered. split; intros ->; reflexivity.
  - split.
    + intros H200.
      assert (Hrej : ~ rejecting P chat requesterId memberId).
      { intros Hr. destruct (add_member_refused _ _ _ _ _ Hchat Hr) as [Hge _].
        fold out in Hge. lia. }
      split; [exact Hrej|]. rewrite (Hpass Hrej) in H200. cbn [fst] in H200.
      unfold answer in H200. subst delivered.
      destruct (forallb _ _); [reflexivity | discriminate H200].
    + intros (Hrej & Hd). rewrite (Hpass Hrej). cbn [fst]. unfold answer.
      subst delivered. now rewrite Hd.
Qed.

(** X14: add-member has no DirectMessage guard.  A member of a stored
    DirectMessage (whose trimmed name is not blank) can add any third id:
    the request passes every guard, and whatever the broker does with
    its events the stored chat then keeps the sentinel name with three
    members, so every site classifies it as a Group and no longer as a
    DirectMessage; the answer is 200 when the broker accepts the events
    of the request. *)
Theorem add_member_turns_direct_message_into_group
    requesterId chatId memberId chat w :
  Redis.chats (Fanout.db w) !! Redis.chatKey chatId = Some chat ->
  chatId <> "" -> memberId <> "" ->
  Classify.isIndividualChat chat = true ->
  trim P (Chat.name chat) <> "" ->
  In requesterId (Chat.memberIds chat) ->
  ~ In memberId (Chat.memberIds chat) ->
  let out := Fanout.run (AddMember.POST P B (Some requesterId) chatId memberId) w in
  let delivered :=
    forallb (Fanout.resolves B)
            (events P chat chatId memberId
                    (Redis.users (Fanout.db w) !! Redis.userKey memberId)) in
  (delivered = true ->
   out.1 = {| body := JsonChat (AddMember.updatedChat chat memberId); status := 200 |})
  /\ (delivered = false -> out.1 = text_response (failure B) 500)
  /\ Redis.chats (Fanout.db out.2) !! Redis.chatKey (Chat.id chat)
     = Some (AddMember.updatedChat chat memberId)
  /\ Chat.name (AddMember.updatedChat chat memberId) = SENTINEL
  /\ length (Chat.memberIds (AddMember.updatedChat chat memberId)) = 3%nat
  /\ Classify.isIndividualChat (AddMember.updatedChat chat memberId) = false
  /\ Classify.isTwoPersonChat (AddMember.updatedChat chat memberId) = false
  /\ Classify.isGroupChat (AddMember.updatedChat chat memberId) = true
  /\ Classify.sidebarIsGroupChat (AddMember.updatedChat chat memberId) = true
  /\ Classify.layoutIsGroup (AddMember.updatedChat chat memberId) = true.
Proof.
  intros Hchat Hc Hm Hdm Hname Hreq Hnew out delivered. subst out.
  assert (Hrej : ~ rejecting P chat requesterId memberId).
  { intros [H|[H|(_ & H)]]; contradiction. }
  rewrite (add_member_passes _ _ _ _ _ Hchat Hc Hm Hrej).
  cbn [fst snd]. unfold answer. fold delivered.
  unfold Classify.isIndividualChat in Hdm.
  apply andb_true_iff in Hdm as (Hlen & Hsent).
  apply Nat.eqb_eq in Hlen. apply streq_true in Hsent.
  assert (Hlen3 : length (Chat.memberIds chat ++ [memberId]) = 3%nat).
  { rewrite length_app, Hlen. reflexivity. }
  split; [now intros ->|]. split; [now intros ->|].
  split; [unfold started; cbn [Fanout.db Redis.sadd Redis.chats]; apply lookup_insert_eq|].
  split; [exact Hsent|]. split; [exact Hlen3|].
  unfold Classify.isIndividualChat, Classify.isTwoPersonChat, Classify.isGroupChat,
    Classify.sidebarIsGroupChat, Classify.layoutIsGroup, Classify.isIndividualChat.
  simpl. rewrite Hlen3. simpl. repeat split; reflexivity.
Qed.

End AddMemberProps.

(** X15: for a chat stored under its own id, a member who was just added
    (the addition having passed its guards) can be removed again by the
    same requester exactly when the chat did not have one member and the
    sentinel name.  In that excluded case the addition has made the chat
    a DirectMessage and the removal is refused with 400, nothing being
    written.  Otherwise the removal passes its guards, restores every
    stored chat and leaves the chat id out of the member's index,
    whatever the two brokers do with the events; it is answered 200 when
    the broker accepts every event of the removal and 500 otherwise. *)
Theorem add_then_remove_round_trip (P : Platform) (B B' : Broker)
    requesterId chatId memberId chat w :
  Redis.chats (Fanout.db w) !! Redis.chatKey chatId = Some chat ->
  Chat.id chat = chatId ->
  chatId <> "" -> memberId <> "" ->
  ~ AddMemberOutcome.rejecting P chat requesterId memberId ->
  let added :=
    Fanout.run (AddMember.POST P B (Some requesterId) chatId memberId) w in
  let out :=
    Fanout.run (RemoveMember.POST P B' (Some requesterId) chatId memberId) added.2 in
  let direct := length (Chat.memberIds chat) = 1%nat /\ Chat.name chat = SENTINEL in
  let delivered :=
    forallb (Fanout.resolves B')
            (RemoveMemberOutcome.events P (AddMember.updatedChat chat memberId)
                                        chatId memberId) in
  Redis.chats (Fanout.db added.2) !! Redis.chatKey chatId
  = Some (AddMember.updatedChat chat memberId)
  /\ (Classify.isIndividualChat (AddMember.updatedChat chat memberId) = true
      <-> direct)
  /\ (direct -> status out.1 = 400 /\ out.2 = added.2)
  /\ (~ direct ->
        Redis.chats (Fanout.db out.2) = Redis.chats (Fanout.db w)
        /\ (chatId ∉ Redis.smembers (Fanout.db out.2) (Redis.userChatsKey memberId))
        /\ (delivered = true -> status out.1 = 200)
        /\ (delivered = false -> out.1 = text_response (failure B') 500))
  /\ (status out.1 = 200 <-> ~ direct /\ delivered = true).
Proof.
  intros Hchat Hid Hc Hm Hrej added out direct delivered.
  assert (Hadd : added.2
                 = AddMemberOutcome.started P B chat chatId memberId
                     (Redis.users (Fanout.db w) !! Redis.userKey memberId) w).
  { subst added. now rewrite (add_member_passes P B _ _ _ _ _ Hchat Hc Hm Hrej). }
  assert (Hreq : In requesterId (Chat.memberIds chat)).
  { destruct (includes (Chat.memberIds chat) requesterId) eqn:E;
      [now apply includes_In|].
    exfalso. apply Hrej. left. now apply includes_not_In. }
  assert (Hnew : ~ In memberId (Chat.memberIds chat)).
  { intros Hin. apply Hrej. right. now left. }
  assert (Hne : memberId <> requesterId) by (intros ->; contradiction).
  assert (Hstored : Redis.chats (Fanout.db added.2) !! Redis.chatKey chatId
                    = Some (AddMember.updatedChat chat memberId)).
  { rewrite Hadd. simpl. rewrite Hid. apply lookup_insert_eq. }
  assert (Hlen : length (Chat.memberIds (AddMember.updatedChat chat memberId))
                 = S (length (Chat.memberIds chat))).
  { simpl. rewrite length_app. simpl. lia. }
  assert (Hpos : (1 <= length (Chat.memberIds chat))%nat).
  { destruct (Chat.memberIds chat); [contradiction | simpl; lia]. }
  assert (Hdm : Classify.isIndividualChat (AddMember.updatedChat chat memberId) = true
                <-> direct).
  { subst direct. unfold Classify.isIndividualChat. rewrite Hlen. simpl Chat.name.
    rewrite andb_true_iff, Nat.eqb_eq, streq_true. split; intros (E1 & E2); split;
      (lia || assumption). }
  assert (Hreq' : includes (Chat.memberIds chat ++ [memberId]) requesterId = true).
  { apply includes_In, in_or_app. now left. }
  assert (Hnew' : includes (Chat.memberIds chat ++ [memberId]) memberId = true).
  { apply includes_In, in_or_app. right. now left. }
  assert (Hle : (length (Chat.memberIds chat ++ [memberId]) <=? 1)%nat = false).
  { apply Nat.leb_gt. rewrite length_app. simpl. lia. }
  assert (Hout : out
                 = if Classify.isIndividualChat (AddMember.updatedChat chat memberId)
                   then (text_response
                           "Cannot remove members from a direct message chat. Use remove friend instead."
                           400, added.2)
                   else (RemoveMemberOutcome.answer P B'
                           (AddMember.updatedChat chat memberId) chatId memberId,
                         RemoveMemberOutcome.started P B'
                           (AddMember.updatedChat chat memberId) chatId memberId
                           added.2)).
  { subst out. rewrite (remove_member_run P B' _ _ _ _ _ Hstored).
    pose proof Hc as Hc'. pose proof Hm as Hm'.
    apply falsy_false in Hc', Hm'. rewrite Hc', Hm'. cbn [orb].
    change (Chat.memberIds (AddMember.updatedChat chat memberId))
      with (Chat.memberIds chat ++ [memberId])%list.
    rewrite Hreq'. cbn [negb].
    destruct (Classify.isIndividualChat (AddMember.updatedChat chat memberId));
      [reflexivity|].
    rewrite Hle, Hnew'. cbn [negb].
    apply streq_false in Hne. now rewrite Hne. }
  split; [exact Hstored|]. split; [exact Hdm|].
  destruct (Classify.isIndividualChat (AddMember.updatedChat chat memberId)) eqn:Edm.
  - assert (Hd : direct) by now apply Hdm.
    rewrite Hout. cbn [fst snd status text_response].
    split; [intros _; split; reflexivity|].
    split; [intros Hno; contradiction|].
    split; [discriminate | intros (Hno & _); contradiction].
  - assert (Hd : ~ direct) by (intros H; apply Hdm in H; discriminate).
    rewrite Hout. cbn [fst snd].
    split; [intros H; contradiction|].
    split.
    + intros _. unfold RemoveMemberOutcome.started, RemoveMemberOutcome.answer.
      fold delivered. cbn [Fanout.db]. rewrite Hadd.
      unfold AddMemberOutcome.started. cbn [Fanout.db].
      split.
      { unfold RemoveMemberOutcome.updatedChat. simpl.
        rewrite (filter_out_appended _ _ Hnew), chat_eta.
        rewrite insert_insert_eq. apply insert_id. now rewrite Hid. }
      split.
      { rewrite smembers_srem. intros Hin.
        apply elem_of_difference in Hin as (_ & Hin). apply Hin.
        now apply elem_of_singleton. }
      split; intros ->; reflexivity.
    + unfold RemoveMemberOutcome.answer. fold delivered.
      destruct delivered; cbn [status text_response].
      * split; [intros _; now split | reflexivity].
      * split; [discriminate | intros (_ & H); discriminate H].
Qed.

Lemma add_member_rules_witness :
  Redis.chats (Fanout.db SampleMembers.wide) !! Redis.chatKey "d1"
  = Some SampleMembers.duo
  /\ ~ AddMemberOutcome.rejecting SampleStore.P0 SampleMembers.duo "a" "z"
  /\ Redis.chats
       (Fanout.db (Fanout.run (AddMember.POST SampleStore.P0 SampleStore.down
                                              (Some "a") "d1" "z")
                              SampleMembers.wide).2) !! Redis.chatKey "d1"
     = Some {| Chat.id := "d1"; Chat.name := "Study Group";
               Chat.memberIds := ["a"; "b"; "z"]; Chat.createdAt := Some 5 |}
  /\ (Fanout.run (AddMember.POST SampleStore.P0 SampleStore.down (Some "a") "d1" "z")
                 SampleMembers.wide).1
     = text_response "Pusher is unreachable" 500.
Proof.
  assert (Hrej : ~ AddMemberOutcome.rejecting SampleStore.P0 SampleMembers.duo "a" "z").
  { unfold AddMemberOutcome.rejecting. simpl.
    intros [H|[H|(_ & H)]]; [apply H; now left | | discriminate].
    destruct H as [H|[H|[]]]; discriminate. }
  split; [reflexivity|]. split; [exact Hrej|].
  destruct (add_member_rules SampleStore.P0 SampleStore.down "a" "d1" "z"
              SampleMembers.duo SampleMembers.wide eq_refl) as (_ & H & _);
    [discriminate.. |].
  destruct (H Hrej) as (_ & Hstored & _ & _ & _ & _ & H500).
  split; [exact Hstored | apply H500; reflexivity].
Defined.

Lemma add_member_turns_direct_message_into_group_witness :
  Classify.isIndividualChat Sample.pair = true
  /\ status (Fanout.run (AddMember.POST SampleStore.P0 SampleStore.B0 (Some "a") "c2" "z")
                        SampleMembers.paired).1 = 200
  /\ Classify.isIndividualChat (AddMember.updatedChat Sample.pair "z") = false.
Proof.
  split; [reflexivity|].
  destruct (add_member_turns_direct_message_into_group SampleStore.P0 SampleStore.B0
              "a" "c2" "z" Sample.pair SampleMembers.paired eq_refl)
    as (H200 & _ & _ & _ & _ & Hdm & _).
  - discriminate.
  - discriminate.
  - reflexivity.
  - discriminate.
  - simpl. auto.
  - simpl. intros [H|[H|[]]]; discriminate.
  - split; [|exact Hdm]. rewrite H200; reflexivity.
Defined.

Lemma add_then_remove_round_trip_witness :
  ~ AddMemberOutcome.rejecting SampleStore.P0 SampleMembers.duo "a" "z"
  /\ Redis.chats
       (Fanout.db
          (Fanout.run (RemoveMember.POST SampleStore.P0 SampleStore.B0 (Some "a") "d1" "z")
             (Fanout.run (AddMember.POST SampleStore.P0 SampleStore.down
                                         (Some "a") "d1" "z")
                         SampleMembers.wide).2).2)
     = Redis.chats SampleMembers.store
  /\ status
       (Fanout.run (RemoveMember.POST SampleStore.P0 SampleStore.B0 (Some "a") "d1" "z")
          (Fanout.run (AddMember.POST SampleStore.P0 SampleStore.down
                                      (Some "a") "d1" "z")
                      SampleMembers.wide).2).1 = 200.
Proof.
  assert (Hrej : ~ AddMemberOutcome.rejecting SampleStore.P0 SampleMembers.duo "a" "z").
  { unfold AddMemberOutcome.rejecting. simpl.
    intros [H|[H|(_ & H)]]; [apply H; now left | | discriminate].
    destruct H as [H|[H|[]]]; discriminate. }
  split; [exact Hrej|].
  destruct (add_then_remove_round_trip SampleStore.P0 SampleStore.down SampleStore.B0
              "a" "d1" "z" SampleMembers.duo
              SampleMembers.wide eq_refl eq_refl) as (_ & _ & _ & H & _);
    [discriminate | discriminate | exact Hrej |].
  destruct H as (E & _ & H200 & _).
  - simpl. intros (H & _). discriminate H.
  - split; [exact E | apply H200; reflexivity].
Defined.

(** ** Removing a friend *)

Lemma smembers_srem_at d key member key' :
  Redis.smembers (Redis.srem d key member) key'
  = if decide (key = key') then Redis.smembers d key' ∖ {[member]}
    else Redis.smembers d key'.
Proof.
  destruct (decide (key = key')) as [<-|Hne]; [apply smembers_srem|].
  unfold Redis.srem, Redis.smembers at 1. simpl.
  destruct (decide (Redis.smembers d key ∖ {[member]} = ∅)).
  - now rewrite lookup_delete_ne.
  - now rewrite lookup_insert_ne.
Qed.

Section FriendsProps.
Variable P : Platform.
Variable B : Broker.

Lemma unfriend_run userId idToRemove w :
  Fanout.run (Friends.remove P B (Some userId) (Friends.WithId idToRemove)) w
  = if bool_decide (idToRemove
                    ∈ Redis.smembers (Fanout.db w) (Redis.userFriendsKey userId))
    then (if forallb (Fanout.resolves B) (FriendsOutcome.events P userId idToRemove)
          then text_response "OK" 200
          else text_response "Invalid request" 400,
          {| Fanout.db :=
               Redis.srem (Redis.srem (Fanout.db w) (Redis.userFriendsKey userId)
                                      idToRemove)
                          (Redis.userFriendsKey idToRemove) userId;
             Fanout.log :=
               Fanout.log w
               ++ [ Fanout.Together
                      (FriendsOutcome.writes userId idToRemove
                       ++ List.filter (Fanout.resolves B)
                                      (FriendsOutcome.events P userId idToRemove)) ] |})
    else (text_response "Not friends with this user" 400, w).
Proof.
  unfold Friends.remove, Fanout.run.
  unfold Fanout.bind, Fanout.reply_if, Fanout.reply, Fanout.ret, Fanout.read.
  destruct (bool_decide _); cbn [negb]; [|reflexivity].
  rewrite await_all_run. unfold FriendsOutcome.events, FriendsOutcome.writes, Friends.caught.
  cbn [foldl app Fanout.land List.filter forallb Fanout.resolves Fanout.db Fanout.log
       andb].
  match goal with |- context [if ?c then inr tt else _] => destruct c end;
    reflexivity.
Qed.

Lemma unfriend_removes userId idToRemove w :
  idToRemove ∈ Redis.smembers (Fanout.db w) (Redis.userFriendsKey userId) ->
  let after :=
    (Fanout.run (Friends.remove P B (Some userId) (Friends.WithId idToRemove)) w).2 in
  (idToRemove ∉ Redis.smembers (Fanout.db after) (Redis.userFriendsKey userId))
  /\ (userId ∉ Redis.smembers (Fanout.db after) (Redis.userFriendsKey idToRemove))
  /\ Redis.chats (Fanout.db after) = Redis.chats (Fanout.db w).
Proof.
  intros Hin after. subst after. rewrite unfriend_run.
  rewrite bool_decide_eq_true_2 by exact Hin. cbn [snd Fanout.db].
  split; [|split; [|reflexivity]].
  - rewrite smembers_srem_at.
    destruct (decide _); rewrite smembers_srem; intros H.
    + apply elem_of_difference in H as (H & _).
      apply elem_of_difference in H as (_ & H). apply H. now apply elem_of_singleton.
    + apply elem_of_difference in H as (_ & H). apply H. now apply elem_of_singleton.
  - rewrite smembers_srem. intros H.
    apply elem_of_difference in H as (_ & H). apply H. now apply elem_of_singleton.
Qed.

(** X16: the remove-friend route only looks at the requester's own friend
    set.  A body that cannot be read is answered 400, a signed-out
    request 401, a body without a string id 422, and an id that is not in
    the requester's friend set 400; none of them writes or publishes
    anything.  When the id is in the set, the four calls of the route are
    started together: the id is gone from the requester's set and the
    requester from the other user's set (whether or not it was there),
    every other set, every chat and every message log is as before,
    whatever the broker does; each of the two [friend_removed] events is
    published exactly when the broker accepts it, and the answer is 200
    when it accepts both and the 400 of the route's [catch] otherwise. *)
Theorem unfriend_rules userId idToRemove w :
  let out :=
    Fanout.run (Friends.remove P B (Some userId) (Friends.WithId idToRemove)) w in
  let events := FriendsOutcome.events P userId idToRemove in
  (forall session,
     Fanout.run (Friends.remove P B session Friends.Unreadable) w
     = (text_response "Invalid request" 400, w))
  /\ (forall body, body <> Friends.Unreadable ->
        Fanout.run (Friends.remove P B None body) w
        = (text_response "Unauthorized" 401, w))
  /\ Fanout.run (Friends.remove P B (Some userId) Friends.Misshapen) w
     = (text_response "Invalid request payload" 422, w)
  /\ (idToRemove ∉ Redis.smembers (Fanout.db w) (Redis.userFriendsKey userId) ->
     out = (text_response "Not friends with this user" 400, w))
  /\ (idToRemove ∈ Redis.smembers (Fanout.db w) (Redis.userFriendsKey userId) ->
        (idToRemove
         ∉ Redis.smembers (Fanout.db out.2) (Redis.userFriendsKey userId))
        /\ (userId
            ∉ Redis.smembers (Fanout.db out.2) (Redis.userFriendsKey idToRemove))
        /\ (forall key, key <> Redis.userFriendsKey userId ->
                        key <> Redis.userFriendsKey idToRemove ->
              Redis.smembers (Fanout.db out.2) key
              = Redis.smembers (Fanout.db w) key)
        /\ Redis.chats (Fanout.db out.2) = Redis.chats (Fanout.db w)
        /\ Redis.users (Fanout.db out.2) = Redis.users (Fanout.db w)
        /\ Redis.zsets (Fanout.db out.2) = Redis.zsets (Fanout.db w)
        /\ (exists batch,
              Fanout.log out.2 = (Fanout.log w ++ [Fanout.Together batch])%list
              /\ (forall c, In c batch
                            <-> In c (FriendsOutcome.writes userId idToRemove)
                                \/ (In c events /\ Fanout.resolves B c = true)))
        /\ (forallb (Fanout.resolves B) events = true ->
            out.1 = text_response "OK" 200)
        /\ (forallb (Fanout.resolves B) events = false ->
            out.1 = text_response "Invalid request" 400)).
Proof.
  intros out events.
  split; [intros [s|]; reflexivity|].
  split; [intros [| |id] Hb; [contradiction | reflexivity | reflexivity]|].
  split; [reflexivity|].
  subst out. split.
  - intros Hnot. rewrite unfriend_run. now rewrite bool_decide_eq_false_2.
  - intros Hin.
    destruct (unfriend_removes userId idToRemove w Hin) as (Hgone1 & Hgone2 & _).
    split; [exact Hgone1|]. split; [exact Hgone2|].
    rewrite unfriend_run.
    rewrite bool_decide_eq_true_2 by exact Hin. cbn [fst snd Fanout.db Fanout.log].
    split.
    { intros key H1 H2. rewrite !smembers_srem_at.
      rewrite decide_False by congruence. rewrite decide_False by congruence.
      reflexivity. }
    split; [reflexivity|]. split; [reflexivity|]. split; [reflexivity|].
    split.
    { eexists. split; [reflexivity|]. intros c.
      rewrite in_app_iff, filter_In. reflexivity. }
    fold events. split; intros ->; reflexivity.
Qed.

(** X17: once a friend is removed (whatever the broker does with the
    events of the removal), neither of the two can open their chat by
    sending: for a chat id [userId--idToRemove] (or the reverse) that is
    not stored, the send route answers 401 to both and writes nothing.  A
    chat that is stored is not affected: a member's send still goes past
    the authorization and is published. *)
Theorem unfriended_cannot_start_chat userId idToRemove w :
  idToRemove ∈ Redis.smembers (Fanout.db w) (Redis.userFriendsKey userId) ->
  let after :=
    AddMemberOutcome.settled
      (Fanout.run (Friends.remove P B (Some userId) (Friends.WithId idToRemove)) w).2 in
  (forall chatId senderId text nanoid now rest,
     Redis.chats (Fanout.db w) !! Redis.chatKey chatId = None ->
     split chatId = userId :: idToRemove :: rest
     \/ split chatId = idToRemove :: userId :: rest ->
     senderId = userId \/ senderId = idToRemove ->
     run (SendMessage.POST P (Some senderId) text chatId nanoid now) after
     = (text_response "Unauthorized" 401, after))
  /\ (forall chatId chat senderId text nanoid now,
        Redis.chats (Fanout.db w) !! Redis.chatKey chatId = Some chat ->
        In senderId (Chat.memberIds chat) ->
        let out := run (SendMessage.POST P (Some senderId) text chatId nanoid now)
                       after in
        status out.1 <> 401
        /\ exists tail,
             log out.2
             = SendOutcome.incoming P chat
                 (SendOutcome.messageOf senderId text nanoid now chat) :: tail).
Proof.
  intros Hin after.
  destruct (unfriend_removes userId idToRemove w Hin) as (Hgone1 & Hgone2 & Hchats).
  assert (Hdb : db after
                = Fanout.db (Fanout.run (Friends.remove P B (Some userId)
                                           (Friends.WithId idToRemove)) w).2)
    by reflexivity.
  assert (Hlog : log after = []) by reflexivity.
  clearbody after. split.
  - intros chatId senderId text nanoid now rest Hnone Hsplit Hsender.
    assert (Hnone' : Redis.chats (db after) !! Redis.chatKey chatId = None)
      by now rewrite Hdb, Hchats.
    assert (Hfriendless : forall other,
              (senderId = userId /\ other = idToRemove)
              \/ (senderId = idToRemove /\ other = userId) ->
              bool_decide (other ∈ Redis.smembers (db after)
                                     (Redis.userFriendsKey senderId)) = false).
    { intros other [H|H]; destruct H as [H1 H2]; subst senderId other;
        apply bool_decide_eq_false_2;
        now rewrite Hdb. }
    destruct Hsplit as [Hsplit|Hsplit];
      rewrite (send_bootstrap_run P _ _ _ _ _ _ _ _ _ Hnone' Hsplit);
      unfold SendOutcome.otherParticipant.
    + destruct (streq senderId userId) eqn:E1.
      * apply streq_true in E1. subst senderId. simpl.
        rewrite Hfriendless by (left; now split). reflexivity.
      * destruct Hsender as [-> | ->]; [now rewrite streq_refl in E1|].
        rewrite streq_refl. simpl.
        rewrite Hfriendless by (right; now split). reflexivity.
    + destruct (streq senderId idToRemove) eqn:E1.
      * apply streq_true in E1. subst senderId. simpl.
        rewrite Hfriendless by (right; now split). reflexivity.
      * destruct Hsender as [-> | ->]; [|now rewrite streq_refl in E1].
        rewrite streq_refl. simpl.
        rewrite Hfriendless by (left; now split). reflexivity.
  - intros chatId chat senderId text nanoid now Hsome Hmember out. subst out.
    assert (Hsome' : Redis.chats (db after) !! Redis.chatKey chatId = Some chat)
      by now rewrite Hdb, Hchats.
    rewrite (send_existing_run P _ _ _ _ _ _ _ Hsome').
    apply includes_In in Hmember. rewrite Hmember. simpl.
    split.
    + unfold SendOutcome.delivered.
      destruct (SendOutcome.others senderId chat);
        [|destruct (Redis.users (db after) !! Redis.userKey senderId)];
        simpl; discriminate.
    + destruct (delivered_keeps P senderId text nanoid now chat
                  (Redis.users (db after) !! Redis.userKey senderId) after)
        as (_ & _ & tail & E).
      exists tail. rewrite E, Hlog. reflexivity.
Qed.

End FriendsProps.

Lemma unfriend_rules_witness :
  "b" ∈ Redis.smembers (Fanout.db SampleMembers.paired) (Redis.userFriendsKey "a")
  /\ (Fanout.run (Friends.remove SampleStore.P0 SampleStore.unheard (Some "a")
                                 (Friends.WithId "b"))
                 SampleMembers.paired).1
     = text_response "Invalid request" 400
  /\ ("b" ∉ Redis.smembers
              (Fanout.db (Fanout.run (Friends.remove SampleStore.P0 SampleStore.unheard
                                                     (Some "a") (Friends.WithId "b"))
                                     SampleMembers.paired).2)
              (Redis.userFriendsKey "a"))
  /\ (Fanout.run (Friends.remove SampleStore.P0 SampleStore.B0 (Some "a")
                                 (Friends.WithId "b"))
                 SampleMembers.paired).1
     = text_response "OK" 200.
Proof.
  assert (Hin : "b" ∈ Redis.smembers (Fanout.db SampleMembers.paired)
                                     (Redis.userFriendsKey "a")).
  { apply (bool_decide_unpack _). vm_compute. exact I. }
  split; [exact Hin|].
  destruct (unfriend_rules SampleStore.P0 SampleStore.unheard "a" "b"
              SampleMembers.paired) as (_ & _ & _ & _ & H).
  destruct (H Hin) as (Hgone & _ & _ & _ & _ & _ & _ & _ & H400).
  destruct (unfriend_rules SampleStore.P0 SampleStore.B0 "a" "b"
              SampleMembers.paired) as (_ & _ & _ & _ & H').
  destruct (H' Hin) as (_ & _ & _ & _ & _ & _ & _ & H200 & _).
  split; [apply H400; reflexivity|]. split; [exact Hgone | apply H200; reflexivity].
Defined.

Lemma unfriended_cannot_start_chat_witness :
  "b" ∈ Redis.smembers (Fanout.db SampleMembers.paired) (Redis.userFriendsKey "a")
  /\ (let after :=
        AddMemberOutcome.settled
          (Fanout.run (Friends.remove SampleStore.P0 SampleStore.unheard (Some "a")
                                      (Friends.WithId "b"))
                      SampleMembers.paired).2 in
      run (SendMessage.POST SampleStore.P0 (Some "a") "hello" "a--b" "m1" 1000) after
      = (text_response "Unauthorized" 401, after)
      /\ status (run (SendMessage.POST SampleStore.P0 (Some "a") "hello" "c2" "m1" 1000)
                     after).1 <> 401).
Proof.
  assert (Hin : "b" ∈ Redis.smembers (Fanout.db SampleMembers.paired)
                                     (Redis.userFriendsKey "a")).
  { apply (bool_decide_unpack _). vm_compute. exact I. }
  split; [exact Hin|].
  destruct (unfriended_cannot_start_chat SampleStore.P0 SampleStore.unheard "a" "b"
              SampleMembers.paired Hin)
    as (Hnew & Hold).
  split.
  - apply (Hnew "a--b" "a" "hello" "m1" 1000 []);
      [reflexivity | left; reflexivity | left; reflexivity].
  - destruct (Hold "c2" Sample.pair "a" "hello" "m1" 1000) as (H & _);
      [reflexivity | simpl; auto | exact H].
Defined.

(** ** The chat page and the send route together *)

Lemma includes_pair (x a b : string) :
  includes [a; b] x = negb (negb (streq x a) && negb (streq x b)).
Proof.
  unfold includes. simpl. destruct (streq x a), (streq x b); reflexivity.
Qed.

(** X18: opening a chat page is idempotent, for the views the model
    covers (all but those of a chat id without separator by the user it
    names): a second view of the same page by the same user, with the
    friend helper and the history behaving as before, gives the same
    outcome and writes nothing more.  The page never publishes an event;
    it writes only when no chat is stored under the id, and then exactly
    the three writes that store and index the chat of the two ids. *)
Theorem page_view_is_idempotent session chatId friendList historyLoads w o viewed :
  ChatPage.page session chatId friendList historyLoads w = Some (o, viewed) ->
  ChatPage.page session chatId friendList historyLoads viewed = Some (o, viewed)
  /\ (exists writes, log viewed = (log w ++ writes)%list
                     /\ Forall (fun e => is_write e = true) writes)
  /\ (viewed = w
      \/ exists userId1 userId2 rest,
           split chatId = userId1 :: userId2 :: rest
           /\ Redis.chats (db w) !! Redis.chatKey chatId = None
           /\ viewed = SendOutcome.bootstrapped chatId userId1 userId2 w)
  /\ (Redis.chats (db w) !! Redis.chatKey chatId <> None -> viewed = w).
Proof.
  intros Hpage.
  assert (Hsame : viewed = w ->
            ChatPage.page session chatId friendList historyLoads viewed = Some (o, viewed)
            /\ (exists writes, log viewed = (log w ++ writes)%list
                               /\ Forall (fun e => is_write e = true) writes)
            /\ (viewed = w
                \/ exists userId1 userId2 rest,
                     split chatId = userId1 :: userId2 :: rest
                     /\ Redis.chats (db w) !! Redis.chatKey chatId = None
                     /\ viewed = SendOutcome.bootstrapped chatId userId1 userId2 w)
            /\ (Redis.chats (db w) !! Redis.chatKey chatId <> None -> viewed = w)).
  { intros ->. split; [exact Hpage|]. split.
    - exists []. split; [now rewrite app_nil_r | constructor].
    - split; [now left | reflexivity]. }
  destruct session as [userId|].
  2: { injection Hpage as <- <-. now apply Hsame. }
  destruct (Redis.chats (db w) !! Redis.chatKey chatId) as [chat|] eqn:Hchat.
  - rewrite (page_stored_run _ _ _ _ _ _ Hchat) in Hpage.
    destruct (negb (includes (Chat.memberIds chat) userId));
      injection Hpage as <- <-; now apply Hsame.
  - destruct (split_nonempty chatId) as (userId1 & [|userId2 rest] & Hsplit).
    + unfold ChatPage.page in Hpage. rewrite Hchat, Hsplit in Hpage.
      change (nth 0 [userId1] "") with userId1 in Hpage.
      change ([userId1] !! 1%nat) with (@None string) in Hpage.
      cbv beta iota zeta in Hpage. unfold SendMessage.differs in Hpage.
      destruct (negb (streq userId userId1) && true); [|discriminate Hpage].
      injection Hpage as <- <-. now apply Hsame.
    + rewrite (page_bootstrap_run _ _ _ _ _ _ _ _ Hchat Hsplit) in Hpage.
      destruct (negb (streq userId userId1) && negb (streq userId userId2)) eqn:Eg.
      { injection Hpage as <- <-. now apply Hsame. }
      injection Hpage as <- <-.
      destruct (bootstrapped_store chatId userId1 userId2 w) as (Hs & _).
      split; [|split; [|split]].
      * rewrite (page_stored_run _ _ _ _ _ _ Hs).
        cbn [Chat.memberIds SendOutcome.implicitChat].
        now rewrite includes_pair, Eg.
      * exists (SendOutcome.bootstrap_effects chatId userId1 userId2).
        split; [reflexivity | repeat constructor].
      * right. exists userId1, userId2, rest. repeat split; assumption.
      * intros H. now contradiction H.
Qed.

Section PageThenSend.
Variable P : Platform.


(** X20: in the publish-first send route a sender whose user record is
    missing, writing to a stored chat with at least one other member, has
    the message published on the chat channel and then gets a 500: the
    message is not stored and no sidebar notification is sent. *)
Theorem send_without_sender_record_publishes_unsaved
    senderId text chatId nanoid now chat other w :
  Redis.chats (db w) !! Redis.chatKey chatId = Some chat ->
  In senderId (Chat.memberIds chat) ->
  In other (Chat.memberIds chat) -> other <> senderId ->
  Redis.users (db w) !! Redis.userKey senderId = None ->
  let out := run (SendMessage.POST P (Some senderId) text chatId nanoid now) w in
  status out.1 = 500
  /\ db out.2 = db w
  /\ log out.2
     = (log w ++ [Trigger (toPusherKey P (Redis.chatKey (Chat.id chat)))
                          "incoming-message"
                          (PMessage {| Message.id := nanoid;
                                       Message.chatId := Chat.id chat;
                                       Message.senderId := senderId;
                                       Message.text := text;
                                       Message.timestamp := now |})])%list.
Proof.
  intros Hchat Hmember Hother Hne Hnone out. subst out.
  rewrite (send_existing_run P _ _ _ _ _ _ _ Hchat).
  apply includes_In in Hmember. rewrite Hmember, Hnone. cbn [negb].
  unfold SendOutcome.delivered.
  destruct (SendOutcome.others senderId chat) as [|o os] eqn:Eo.
  - exfalso. assert (Hin : In other (SendOutcome.others senderId chat)).
    { unfold SendOutcome.others. apply In_filter_ne. now split. }
    rewrite Eo in Hin. destruct Hin.
  - simpl. repeat split; reflexivity.
Qed.

End PageThenSend.

Lemma page_view_is_idempotent_witness :
  ChatPage.page (Some "a") "a--b" (Some []) true SamplePage.unacquainted
  = Some (ChatPage.render "a" "a--b" (SendOutcome.implicitChat "a--b" "a" "b")
            (Some []) true
            (db (SendOutcome.bootstrapped "a--b" "a" "b" SamplePage.unacquainted)),
          SendOutcome.bootstrapped "a--b" "a" "b" SamplePage.unacquainted)
  /\ ChatPage.page (Some "a") "a--b" (Some []) true
       (SendOutcome.bootstrapped "a--b" "a" "b" SamplePage.unacquainted)
     = ChatPage.page (Some "a") "a--b" (Some []) true SamplePage.unacquainted.
Proof.
  assert (H : ChatPage.page (Some "a") "a--b" (Some []) true SamplePage.unacquainted
              = Some (ChatPage.render "a" "a--b"
                        (SendOutcome.implicitChat "a--b" "a" "b") (Some []) true
                        (db (SendOutcome.bootstrapped "a--b" "a" "b"
                               SamplePage.unacquainted)),
                      SendOutcome.bootstrapped "a--b" "a" "b" SamplePage.unacquainted))
    by reflexivity.
  split; [exact H|].
  rewrite H.
  exact (proj1 (page_view_is_idempotent (Some "a") "a--b" (Some []) true
                  SamplePage.unacquainted _ _ H)).
Defined.


Lemma send_without_sender_record_publishes_unsaved_witness :
  Redis.users (db SampleMembers.world) !! Redis.userKey "a" = None
  /\ status (run (SendMessage.POST SampleStore.P0 (Some "a") "hello" "g1" "m1" 1000)
                 SampleMembers.world).1 = 500
  /\ db (run (SendMessage.POST SampleStore.P0 (Some "a") "hello" "g1" "m1" 1000)
             SampleMembers.world).2 = db SampleMembers.world.
Proof.
  split; [reflexivity|].
  destruct (send_without_sender_record_publishes_unsaved SampleStore.P0 "a" "hello" "g1"
              "m1" 1000 SampleStore.trio "b" SampleMembers.world eq_refl)
    as (H500 & Hdb & _).
  - simpl. auto.
  - simpl. auto.
  - discriminate.
  - reflexivity.
  - split; [exact H500 | exact Hdb].
Defined.

(** ** The send route that saves first *)

Lemma for_each_trigger_if {A} (f : A -> bool) (channel event : A -> string)
    (p : A -> Payload) (xs : list A) w :
  for_each (fun x => if f x then trigger (channel x) (event x) (p x) else ret tt) xs w
  = (inr tt, {| db := db w;
                log := log w ++ map (fun x => Trigger (channel x) (event x) (p x))
                                    (List.filter f xs) |}).
Proof.
  revert w. induction xs as [|x xs IH]; intros w; simpl.
  - rewrite app_nil_r. now destruct w.
  - unfold bind. destruct (f x).
    + rewrite trigger_run, IH. simpl. now rewrite <- app_assoc.
    + unfold ret at 1. apply IH.
Qed.

Section SendV2Props.
Variable P : Platform.
Variable mainTrigger : SendMessageV2.TriggerOutcome.
Variable sidebarDelivers : string -> bool.
Import SendV2Outcome.

Lemma send_v2_existing_run senderId text chatId nanoid now chat w :
  Redis.chats (db w) !! Redis.chatKey chatId = Some chat ->
  SendMessageV2.POST P mainTrigger sidebarDelivers (Some senderId) text chatId
                     nanoid now w
  = if negb (includes (Chat.memberIds chat) senderId)
    then (inl (text_response "Unauthorized" 401), w)
    else (inr (answer mainTrigger),
          saved P mainTrigger sidebarDelivers senderId text nanoid now chat w).
Proof.
  intros Hchat. unfold SendMessageV2.POST.
  unfold bind, reply_if, reply, read, db_zadd, perform. cbv beta iota.
  rewrite Hchat.
  destruct (negb (includes (Chat.memberIds chat) senderId)); [reflexivity|].
  unfold ret at 1 2. cbv beta iota.
  fold (SendOutcome.messageOf senderId text nanoid now chat).
  fold (SendOutcome.others senderId chat).
  unfold saved, published, answer, SendOutcome.stored, SendOutcome.commit,
    SendOutcome.incoming. cbn [db log Message.timestamp SendOutcome.messageOf].
  destruct mainTrigger; [| reflexivity | reflexivity].
  rewrite trigger_run. cbn [db log].
  destruct (SendOutcome.others senderId chat) as [|o os] eqn:Eo.
  - unfold ret. cbn [db log].
    destruct (Redis.users (db w) !! Redis.userKey senderId);
      cbn [List.filter map]; rewrite <- app_assoc; reflexivity.
  - destruct (Redis.users (db w) !! Redis.userKey senderId) as [u|].
    + rewrite for_each_trigger_if. unfold ret. cbn [db log].
      rewrite <- !app_assoc. reflexivity.
    + unfold ret. cbn [db log]. rewrite <- app_assoc. reflexivity.
Qed.

(** X21: the save-first send route stores the message before anything is
    published and whatever the broker does.  For a member of a stored chat
    the answer is one of the two 200 answers, the message is in the chat's
    log, the [zadd] is the first effect and everything after it is a
    publish; nothing is published when the broker refuses the first event,
    and the quota answer is given exactly when the broker reports its
    quota exceeded.  A missing user record of the sender changes none of
    this. *)
Theorem save_first_send_keeps_message senderId text chatId nanoid now chat w :
  Redis.chats (db w) !! Redis.chatKey chatId = Some chat ->
  In senderId (Chat.memberIds chat) ->
  let message := SendOutcome.messageOf senderId text nanoid now chat in
  exists answer events w',
    SendMessageV2.POST P mainTrigger sidebarDelivers (Some senderId) text chatId
                       nanoid now w
    = (inr answer, w')
    /\ In message (Redis.zrange_all (db w') (Redis.chatMessagesKey (Chat.id chat)))
    /\ log w' = (log w ++ SendOutcome.commit chat message :: events)%list
    /\ Forall (fun e => is_trigger e = true) events
    /\ (mainTrigger <> SendMessageV2.Delivered -> events = [])
    /\ (answer = SendMessageV2.SavedWithoutDelivery
        <-> mainTrigger = SendMessageV2.QuotaExceeded)
    /\ Redis.chats (db w') = Redis.chats (db w)
    /\ Redis.sets (db w') = Redis.sets (db w).
Proof.
  intros Hchat Hmember message.
  rewrite (send_v2_existing_run _ _ _ _ _ _ _ Hchat).
  apply includes_In in Hmember. rewrite Hmember. cbn [negb].
  eexists _, _, _. split; [reflexivity|].
  split.
  { unfold saved, Redis.zrange_all, SendOutcome.stored. cbn [db].
    rewrite entries_zadd. apply in_map_iff.
    eexists (_, _). split; [reflexivity|]. apply In_zinsert. now left. }
  split; [reflexivity|].
  split.
  { unfold published. destruct mainTrigger; [|constructor|constructor].
    constructor; [reflexivity|].
    destruct (Redis.users (db w) !! Redis.userKey senderId); [|constructor].
    apply List.Forall_forall. intros e He. apply in_map_iff in He.
    destruct He as (m & <- & _). reflexivity. }
  split.
  { unfold published. destruct mainTrigger; [congruence | reflexivity | reflexivity]. }
  split.
  { unfold answer. destruct mainTrigger; split; congruence. }
  split; reflexivity.
Qed.

End SendV2Props.

Lemma save_first_send_keeps_message_witness :
  Redis.chats (db SampleSend.chatting) !! Redis.chatKey "c2" = Some Sample.pair
  /\ exists w',
       SendMessageV2.POST SampleStore.P0 SendMessageV2.QuotaExceeded (fun _ => true)
                          (Some "a") "hello" "c2" "m1" 1000 SampleSend.chatting
       = (inr SendMessageV2.SavedWithoutDelivery, w')
       /\ In SampleSend.hello (Redis.zrange_all (db w') (Redis.chatMessagesKey "c2")).
Proof.
  split; [reflexivity|].
  destruct (save_first_send_keeps_message SampleStore.P0 SendMessageV2.QuotaExceeded
              (fun _ => true) "a" "hello" "c2" "m1" 1000 Sample.pair
              SampleSend.chatting eq_refl)
    as (answer & events & w' & E & Hin & _ & _ & _ & Hquota & _).
  - simpl. auto.
  - exists w'. split; [|exact Hin].
    rewrite E. f_equal. f_equal. now apply Hquota.
Defined.

(** ** Reading the log back *)

Lemma zinsert_after_all P score member l :
  Forall (fun e => fst e < score) l ->
  Redis.zinsert P score member l = (l ++ [(score, member)])%list.
Proof.
  induction 1 as [|[s m] l Hs _ IH]; simpl; [reflexivity|].
  simpl in Hs.
  assert ((score <? s) = false) as -> by (apply Z.ltb_ge; lia).
  assert ((score =? s) = false) as -> by (apply Z.eqb_neq; lia).
  simpl. now rewrite IH.
Qed.

Lemma zdrop_absent member l :
  (forall e, In e l -> snd e <> member) -> Redis.zdrop member l = l.
Proof.
  intros Habsent. unfold Redis.zdrop.
  induction l as [|e l IH]; simpl; [reflexivity|].
  rewrite bool_decide_eq_false_2 by (apply Habsent; now left). simpl.
  f_equal. apply IH. intros e' He'. apply Habsent. now right.
Qed.

Section HistoryProps.
Variable P : Platform.

(** X22: a send that is answered 200 on a chat stored under its own id,
    with a fresh message id and a time later than every stored score,
    puts the new message at the head of what [getChatMessages] returns
    and keeps the earlier messages, in their order, behind it. *)
Theorem history_shows_new_message_first senderId text chatId nanoid now chat w :
  Redis.chats (db w) !! Redis.chatKey chatId = Some chat ->
  Chat.id chat = chatId ->
  (forall s m, In (s, m) (default [] (Redis.zsets (db w)
                                        !! Redis.chatMessagesKey chatId)) ->
               s < now /\ Message.id m <> nanoid) ->
  let out := run (SendMessage.POST P (Some senderId) text chatId nanoid now) w in
  status out.1 = 200 ->
  ChatHistory.getChatMessages (db out.2) chatId
  = SendOutcome.messageOf senderId text nanoid now chat
    :: ChatHistory.getChatMessages (db w) chatId.
Proof.
  intros Hchat Hid Hlog out H200. subst out.
  rewrite (send_existing_run P _ _ _ _ _ _ _ Hchat) in *.
  destruct (negb (includes (Chat.memberIds chat) senderId)); [discriminate|].
  assert (Hdb : db (SendOutcome.delivered P senderId text nanoid now chat
                      (Redis.users (db w) !! Redis.userKey senderId) w).2
                = SendOutcome.stored P chat
                    (SendOutcome.messageOf senderId text nanoid now chat) (db w)).
  { revert H200. unfold SendOutcome.delivered.
    destruct (SendOutcome.others senderId chat);
      [|destruct (Redis.users (db w) !! Redis.userKey senderId)];
      cbn [fst snd db status text_response]; (reflexivity || discriminate). }
  rewrite Hdb. unfold ChatHistory.getChatMessages, Redis.zrange_all, SendOutcome.stored.
  rewrite Hid, entries_zadd.
  rewrite zdrop_absent.
  2: { intros [s m] He Hm. destruct (Hlog s m He) as (_ & Hfresh).
       apply Hfresh. simpl in Hm. now rewrite Hm. }
  rewrite zinsert_after_all.
  2: { apply List.Forall_forall. intros [s m] He. simpl.
       now destruct (Hlog s m He). }
  rewrite map_app, rev_app_distr. reflexivity.
Qed.

End HistoryProps.

Lemma history_shows_new_message_first_witness :
  ChatHistory.getChatMessages (db SampleEdit.withHello) "c2" = [SampleSend.hello]
  /\ ChatHistory.getChatMessages
       (db (run (SendMessage.POST SampleStore.P0 (Some "a") "again" "c2" "m2" 2000)
                SampleEdit.withHello).2) "c2"
     = [ SendOutcome.messageOf "a" "again" "m2" 2000 Sample.pair; SampleSend.hello ].
Proof.
  split; [reflexivity|].
  apply (history_shows_new_message_first SampleStore.P0 "a" "again" "c2" "m2" 2000
           Sample.pair SampleEdit.withHello eq_refl eq_refl).
  - intros s m Hin. vm_compute in Hin. destruct Hin as [E|[]].
    injection E as <- <-. split; [lia | discriminate].
  - vm_compute. reflexivity.
Defined.

(** ** Who is shown in the two views of the layout *)

Lemma In_sort {A} (compare : A -> A -> Z) (l : list A) (x : A) :
  In x (Layout.sort compare l) <-> In x l.
Proof.
  split; apply Permutation_in; [symmetry|]; apply sort_perm.
Qed.

Lemma individual_view_members (all : list Layout.Entry) e :
  In e (Layout.individualChats all)
  <-> In e all /\ Layout.hasMessages e = true
      /\ Classify.isIndividualChat (Layout.chat e) = true.
Proof.
  unfold Layout.individualChats, Classify.isIndividualChat.
  rewrite In_sort, !filter_In, !andb_true_iff. tauto.
Qed.

Lemma group_view_members (all : list Layout.Entry) c :
  In c (map Layout.g_chat (Layout.groupChats all))
  <-> (exists e, In e all /\ Layout.chat e = c) /\ Classify.layoutIsGroup c = true.
Proof.
  unfold Layout.groupChats. rewrite in_map_iff. split.
  - intros (g & <- & Hg). apply In_sort, in_map_iff in Hg.
    destruct Hg as (e & <- & He). apply filter_In in He as (He & Hc).
    simpl. split; [now exists e | exact Hc].
  - intros ((e & He & <-) & Hc).
    eexists. split; [|apply In_sort, in_map_iff; exists e; split; [reflexivity|]].
    + reflexivity.
    + apply filter_In. now split.
Qed.

Lemma direct_is_no_group c :
  Classify.isIndividualChat c = true -> Classify.layoutIsGroup c = false.
Proof. intros Hc. unfold Classify.layoutIsGroup. now rewrite Hc. Qed.

Lemma direct_without_message_unlisted (all : list Layout.Entry) e :
  Classify.isIndividualChat (Layout.chat e) = true ->
  Layout.hasMessages e = false ->
  ~ In e (Layout.individualChats all)
  /\ ~ In (Layout.chat e) (map Layout.g_chat (Layout.groupChats all)).
Proof.
  intros Hdm Hno. split.
  - intros He. apply individual_view_members in He as (_ & Hm & _). congruence.
  - intros Hg. apply group_view_members in Hg as (_ & Hg).
    rewrite (direct_is_no_group _ Hdm) in Hg. discriminate.
Qed.

(** X23: the direct view holds exactly the entries of the snapshot that
    have a message and whose chat is a DirectMessage; the group view holds
    exactly the chats the layout classifies as Group, with or without
    messages.  No chat is in both views, and a DirectMessage without a
    message is in neither. *)
Theorem layout_view_membership (all : list Layout.Entry) :
  (forall e, In e (Layout.individualChats all)
             <-> In e all /\ Layout.hasMessages e = true
                 /\ Classify.isIndividualChat (Layout.chat e) = true)
  /\ (forall c, In c (map Layout.g_chat (Layout.groupChats all))
                <-> (exists e, In e all /\ Layout.chat e = c)
                    /\ Classify.layoutIsGroup c = true)
  /\ (forall e, In e (Layout.individualChats all) ->
                ~ In (Layout.chat e) (map Layout.g_chat (Layout.groupChats all)))
  /\ (forall e, Classify.isIndividualChat (Layout.chat e) = true ->
                Layout.hasMessages e = false ->
                ~ In e (Layout.individualChats all)
                /\ ~ In (Layout.chat e)
                        (map Layout.g_chat (Layout.groupChats all))).
Proof.
  split; [apply individual_view_members|]. split; [apply group_view_members|]. split.
  - intros e He Hg. apply individual_view_members in He as (_ & _ & Hdm).
    apply group_view_members in Hg as (_ & Hg).
    rewrite (direct_is_no_group _ Hdm) in Hg. discriminate.
  - intros e. apply direct_without_message_unlisted.
Qed.

Lemma snapshot_throws d sessionId chatId (chatIds : list string) :
  Layout.loadEntry d sessionId chatId = None ->
  In chatId chatIds ->
  Layout.snapshot d sessionId chatIds = None.
Proof.
  intros Hnone Hin. unfold Layout.snapshot.
  induction chatIds as [|c cs IH]; [contradiction|].
  cbn [mapM]. destruct Hin as [-> | Hin].
  - now rewrite Hnone.
  - rewrite (IH Hin). simpl. now destruct (Layout.loadEntry d sessionId c).
Qed.

(** X24: a chat that was only opened is listed nowhere.  After the chat
    page has stored the chat of an id that names the viewer and another
    user, and as long as the chat has no message: when both users have a
    record, the entry the layout loads for it (for whichever user) has no
    message and is a DirectMessage, so it is in neither view of any
    snapshot; when the first of the two has no record, the layout cannot
    load the entry and throws for every list of chat ids that holds this
    one. *)
Theorem opened_chat_is_in_no_view userId chatId userId1 userId2 rest
    friendList historyLoads w :
  Redis.chats (db w) !! Redis.chatKey chatId = None ->
  Redis.zsets (db w) !! Redis.chatMessagesKey chatId = None ->
  split chatId = userId1 :: userId2 :: rest ->
  userId = userId1 \/ userId = userId2 ->
  exists o viewed,
    ChatPage.page (Some userId) chatId friendList historyLoads w = Some (o, viewed)
    /\ (forall r1 r2 sessionId,
          Redis.users (db w) !! Redis.userKey userId1 = Some r1 ->
          Redis.users (db w) !! Redis.userKey userId2 = Some r2 ->
          exists e,
            Layout.loadEntry (db viewed) sessionId chatId = Some e
            /\ Layout.chat e = SendOutcome.implicitChat chatId userId1 userId2
            /\ Layout.hasMessages e = false
            /\ Layout.displayName e
               = User.name (if negb (streq (User.id r1) sessionId) then r1
                            else if negb (streq (User.id r2) sessionId) then r2
                            else r1)
            /\ forall all, ~ In e (Layout.individualChats all)
                           /\ ~ In (Layout.chat e)
                                   (map Layout.g_chat (Layout.groupChats all)))
    /\ (forall sessionId,
          Redis.users (db w) !! Redis.userKey userId1 = None ->
          Layout.loadEntry (db viewed) sessionId chatId = None
          /\ forall chatIds, In chatId chatIds ->
                             Layout.snapshot (db viewed) sessionId chatIds = None).
Proof.
  intros Hchat Hlog Hsplit Huser.
  assert (Hguard : negb (streq userId userId1) && negb (streq userId userId2) = false).
  { destruct Huser as [-> | ->]; rewrite streq_refl; simpl;
      [reflexivity | apply andb_false_r]. }
  destruct (bootstrapped_store chatId userId1 userId2 w)
    as (Hstored & _ & _ & _ & Husers & Hzsets).
  eexists _, (SendOutcome.bootstrapped chatId userId1 userId2 w).
  split; [rewrite (page_bootstrap_run _ _ _ _ _ _ _ _ Hchat Hsplit), Hguard;
          reflexivity|].
  set (viewed := SendOutcome.bootstrapped chatId userId1 userId2 w) in *.
  assert (Hlast : Redis.zrange_last (db viewed) (Redis.chatMessagesKey chatId) = None).
  { unfold Redis.zrange_last, Redis.zrange_all. now rewrite Hzsets, Hlog. }
  split.
  - intros r1 r2 sessionId H1 H2. rewrite <- Husers in H1, H2.
    assert (Hload : Layout.loadEntry (db viewed) sessionId chatId
                    = Some (Layout.entryOf
                              (SendOutcome.implicitChat chatId userId1 userId2)
                              (User.name
                                 (if negb (streq (User.id r1) sessionId) then r1
                                  else if negb (streq (User.id r2) sessionId) then r2
                                  else r1))
                              None)).
    { unfold Layout.loadEntry. rewrite Hstored, Hlast.
      unfold Layout.labelOf, Participants.load.
      cbn [SendOutcome.implicitChat Chat.memberIds map length Nat.eqb].
      rewrite H1, H2. cbn [Participants.findOther].
      destruct (negb (streq (User.id r1) sessionId)); [reflexivity|].
      destruct (negb (streq (User.id r2) sessionId)); reflexivity. }
    eexists. split; [exact Hload|]. split; [reflexivity|]. split; [reflexivity|].
    split; [reflexivity|].
    intros all. apply direct_without_message_unlisted; reflexivity.
  - intros sessionId H1. rewrite <- Husers in H1.
    assert (Hnone : Layout.loadEntry (db viewed) sessionId chatId = None).
    { unfold Layout.loadEntry. rewrite Hstored.
      unfold Layout.labelOf, Participants.load.
      cbn [SendOutcome.implicitChat Chat.memberIds map length Nat.eqb].
      rewrite H1. reflexivity. }
    split; [exact Hnone|].
    intros chatIds Hin. now apply snapshot_throws with (chatId := chatId).
Qed.

Lemma opened_chat_is_in_no_view_witness :
  Redis.chats (db SamplePage.unacquainted) !! Redis.chatKey "a--b" = None
  /\ exists o viewed e,
       ChatPage.page (Some "a") "a--b" (Some []) true SamplePage.unacquainted
       = Some (o, viewed)
       /\ Layout.loadEntry (db viewed) "b" "a--b" = Some e
       /\ Layout.displayName e = "Alice"
       /\ Layout.individualChats [e] = []
       /\ Layout.groupChats [e] = [].
Proof.
  split; [reflexivity|].
  destruct (opened_chat_is_in_no_view "a" "a--b" "a" "b" [] (Some []) true
              SamplePage.unacquainted eq_refl eq_refl eq_refl (or_introl eq_refl))
    as (o & viewed & Hpage & Hboth & _).
  destruct (Hboth SampleSend.alice SamplePage.bob "b" eq_refl eq_refl)
    as (e & Hload & Hchat & Hno & Hname & _).
  exists o, viewed, e. split; [exact Hpage|]. split; [exact Hload|].
  split; [exact Hname|].
  unfold Layout.individualChats, Layout.groupChats, Classify.layoutIsGroup.
  simpl. rewrite Hno, Hchat. split; reflexivity.
Defined.

(** ** Groups and friendship *)

Section GroupCreationProps.
Variable P : Platform.
Variable B : Broker.
Import CreateChatOutcome.

(** X25: friendship is asked for two-entry requests only.  A create
    request with more than two entries, the requester among them and a
    name that is not blank passes the guards of the route in every
    store, whoever the other entries are: whatever the broker does with
    the events, the chat is stored with these members under the trimmed
    name and registered in every member's index, and the requester's next
    send to it passes the authorization and is published on the chat's
    channel.  The request is answered 201 when the broker accepts every
    event of the request, and with the 500 of the route's [catch]
    otherwise. *)
Theorem group_creation_needs_no_friendship requesterId name memberIds nanoid now w :
  (2 < length memberIds)%nat ->
  In requesterId memberIds ->
  trim P name <> "" ->
  let out :=
    Fanout.run (CreateChat.POST P B (Some requesterId) (Some name) memberIds nanoid now)
               w in
  let chat := {| Chat.id := nanoid; Chat.name := trim P name;
                 Chat.memberIds := memberIds; Chat.createdAt := Some now |} in
  let delivered := forallb (Fanout.resolves B) (events P requesterId chat) in
  out.2 = started P B requesterId chat w
  /\ (delivered = true -> out.1 = {| body := JsonChat chat; status := 201 |})
  /\ (delivered = false -> out.1 = text_response (failure B) 500)
  /\ Redis.chats (Fanout.db out.2) !! Redis.chatKey nanoid = Some chat
  /\ (forall m, In m memberIds ->
                nanoid ∈ Redis.smembers (Fanout.db out.2) (Redis.userChatsKey m))
  /\ Classify.isIndividualChat chat = false
  /\ forall text nanoid' now',
       let sent := run (SendMessage.POST P (Some requesterId) text nanoid nanoid' now')
                       (AddMemberOutcome.settled out.2) in
       status sent.1 <> 401
       /\ exists tail,
            log sent.2
            = SendOutcome.incoming P chat
                (SendOutcome.messageOf requesterId text nanoid' now' chat)
              :: tail.
Proof.
  intros Hlen Hreq Hname out chat delivered.
  assert (Hcreated : created P (Some name) memberIds nanoid now = chat).
  { unfold created, finalName.
    assert ((length memberIds =? 2)%nat = false) as -> by (apply Nat.eqb_neq; lia).
    reflexivity. }
  assert (Hout : out = (answer P B requesterId chat, started P B requesterId chat w)).
  { subst out. rewrite create_chat_run, Hcreated.
    assert ((length memberIds <? 1)%nat = false) as -> by (apply Nat.ltb_ge; lia).
    pose proof Hreq as Hreq'. apply includes_In in Hreq'. rewrite Hreq'. cbn [negb].
    assert ((String.length (CreateChat.trimmedNameOf P (Some name)) =? 0)%nat = false)
      as ->.
    { destruct (String.length (CreateChat.trimmedNameOf P (Some name)) =? 0)%nat eqn:E;
        [|reflexivity].
      apply length_zero_empty in E. contradiction. }
    rewrite andb_false_r. unfold refused_as_non_friend.
    assert ((length memberIds =? 2)%nat = false) as -> by (apply Nat.eqb_neq; lia).
    reflexivity. }
  destruct (created_is_stored P B requesterId chat w) as (Hc & Hi & _).
  rewrite Hout. cbn [fst snd].
  split; [reflexivity|].
  split; [unfold answer; fold delivered; now intros ->|].
  split; [unfold answer; fold delivered; now intros ->|].
  split; [exact Hc|]. split; [exact Hi|].
  split.
  { unfold Classify.isIndividualChat. cbn [Chat.memberIds chat].
    assert ((length memberIds =? 2)%nat = false) as -> by (apply Nat.eqb_neq; lia).
    reflexivity. }
  intros text nanoid' now'. cbv zeta.
  assert (Hstored : Redis.chats (db (AddMemberOutcome.settled
                                       (started P B requesterId chat w)))
                    !! Redis.chatKey nanoid = Some chat) by exact Hc.
  rewrite (send_existing_run P _ _ _ _ _ _ _ Hstored).
  apply includes_In in Hreq. cbn [Chat.memberIds chat]. rewrite Hreq. cbn [negb].
  split.
  - unfold SendOutcome.delivered.
    destruct (SendOutcome.others requesterId chat);
      [|destruct (Redis.users _ !! Redis.userKey requesterId)];
      simpl; discriminate.
  - destruct (delivered_keeps P requesterId text nanoid' now' chat
                (Redis.users (db (AddMemberOutcome.settled
                                    (started P B requesterId chat w)))
                 !! Redis.userKey requesterId)
                (AddMemberOutcome.settled (started P B requesterId chat w)))
      as (_ & _ & tail & E).
    exists tail. exact E.
Qed.

End GroupCreationProps.

Lemma group_creation_needs_no_friendship_witness :
  Redis.smembers (db SamplePage.strangers) (Redis.userFriendsKey "a") = ∅
  /\ (Fanout.run (CreateChat.POST SampleStore.P0 SampleStore.B0 (Some "a") (Some "Plans")
                                  ["a"; "b"; "c"] "n1" 50)
                 (Fanout.start (db SamplePage.strangers))).1
     = {| body := JsonChat {| Chat.id := "n1"; Chat.name := "Plans";
                              Chat.memberIds := ["a"; "b"; "c"];
                              Chat.createdAt := Some 50 |};
          status := 201 |}
  /\ Redis.chats
       (Fanout.db
          (Fanout.run (CreateChat.POST SampleStore.P0 SampleStore.unheard (Some "a")
                                       (Some "Plans") ["a"; "b"; "c"] "n1" 50)
                      (Fanout.start (db SamplePage.strangers))).2)
     !! Redis.chatKey "n1"
     = Some {| Chat.id := "n1"; Chat.name := "Plans";
               Chat.memberIds := ["a"; "b"; "c"]; Chat.createdAt := Some 50 |}.
Proof.
  split; [reflexivity|].
  destruct (group_creation_needs_no_friendship SampleStore.P0 SampleStore.B0 "a" "Plans"
              ["a"; "b"; "c"] "n1" 50 (Fanout.start (db SamplePage.strangers)))
    as (_ & H201 & _); [simpl; lia | simpl; auto | discriminate |].
  destruct (group_creation_needs_no_friendship SampleStore.P0 SampleStore.unheard "a"
              "Plans" ["a"; "b"; "c"] "n1" 50 (Fanout.start (db SamplePage.strangers)))
    as (_ & _ & _ & Hstored & _); [simpl; lia | simpl; auto | discriminate |].
  split; [apply H201; reflexivity | exact Hstored].
Defined.

(** ** Denying a friend request *)

Section DenyProps.
Variable P : Platform.
Variable B : Broker.

Lemma deny_run userId userName idToDeny w :
  Fanout.run (Friends.deny P B (Some (userId, userName)) (Friends.WithId idToDeny)) w
  = match Redis.users (Fanout.db w) !! Redis.userKey idToDeny with
    | Some _ =>
        if accepts B (toPusherKey P (Fanout.userFriendRequestsKey idToDeny))
                   "friend_request_denied"
        then (text_response "OK" 200,
              {| Fanout.db := Redis.srem (Fanout.db w)
                                         (Fanout.userIncomingRequestsKey userId)
                                         idToDeny;
                 Fanout.log :=
                   Fanout.log w
                   ++ [ Fanout.Alone
                          (Fanout.Publish
                             (toPusherKey P (Fanout.userFriendRequestsKey idToDeny))
                             "friend_request_denied" (Fanout.Denied userId userName));
                        Fanout.Alone
                          (Fanout.Srem (Fanout.userIncomingRequestsKey userId)
                                       idToDeny) ] |})
        else (text_response "Invalid request" 400, w)
    | None =>
        (text_response "OK" 200,
         {| Fanout.db := Redis.srem (Fanout.db w)
                                    (Fanout.userIncomingRequestsKey userId) idToDeny;
            Fanout.log :=
              Fanout.log w
              ++ [ Fanout.Alone
                     (Fanout.Srem (Fanout.userIncomingRequestsKey userId)
                                  idToDeny) ] |})
    end.
Proof.
  unfold Friends.deny, Fanout.run.
  unfold Fanout.bind, Fanout.reply, Fanout.ret, Fanout.read, Fanout.await.
  cbn [Fanout.resolves Fanout.land].
  destruct (Redis.users (Fanout.db w) !! Redis.userKey idToDeny).
  - destruct (accepts B _ "friend_request_denied"); [|reflexivity].
    cbn [Fanout.db Fanout.log]. rewrite <- app_assoc. reflexivity.
  - reflexivity.
Qed.

(** X26: a deny request whose body cannot be read is answered 400, a
    signed-out one 401, and one whose body has no string id 422, with
    nothing written or published.  For a signed-in user and an id, the
    sender of the request is notified first, exactly when a user record
    of that id exists: when the broker rejects that event the answer is
    the 400 of the route's [catch] and nothing is written, so the request
    stays among the user's incoming requests if it was there.  Otherwise
    the answer is 200, whether or not a request from that id was pending:
    the id is then not among the user's incoming requests, every other
    set, every chat and every message log is as before, and the event,
    when there is one, comes before the removal. *)
Theorem deny_rules userId userName idToDeny w :
  let out :=
    Fanout.run (Friends.deny P B (Some (userId, userName)) (Friends.WithId idToDeny))
               w in
  let requester := Redis.users (Fanout.db w) !! Redis.userKey idToDeny in
  let channel := toPusherKey P (Fanout.userFriendRequestsKey idToDeny) in
  let notice :=
    Fanout.Publish channel "friend_request_denied" (Fanout.Denied userId userName) in
  let removal := Fanout.Srem (Fanout.userIncomingRequestsKey userId) idToDeny in
  (forall session,
     Fanout.run (Friends.deny P B session Friends.Unreadable) w
     = (text_response "Invalid request" 400, w))
  /\ (forall body, body <> Friends.Unreadable ->
        Fanout.run (Friends.deny P B None body) w
        = (text_response "Unauthorized" 401, w))
  /\ Fanout.run (Friends.deny P B (Some (userId, userName)) Friends.Misshapen) w
     = (text_response "Invalid request payload" 422, w)
  /\ (requester <> None -> accepts B channel "friend_request_denied" = false ->
      out = (text_response "Invalid request" 400, w))
  /\ (requester = None \/ accepts B channel "friend_request_denied" = true ->
      out.1 = text_response "OK" 200
      /\ (idToDeny ∉ Redis.smembers (Fanout.db out.2)
                                    (Fanout.userIncomingRequestsKey userId))
      /\ (forall key, key <> Fanout.userIncomingRequestsKey userId ->
            Redis.smembers (Fanout.db out.2) key = Redis.smembers (Fanout.db w) key)
      /\ Redis.chats (Fanout.db out.2) = Redis.chats (Fanout.db w)
      /\ Redis.users (Fanout.db out.2) = Redis.users (Fanout.db w)
      /\ Redis.zsets (Fanout.db out.2) = Redis.zsets (Fanout.db w)
      /\ Fanout.log out.2
         = (Fanout.log w
            ++ match requester with
               | Some _ => [Fanout.Alone notice; Fanout.Alone removal]
               | None => [Fanout.Alone removal]
               end)%list).
Proof.
  intros out requester channel notice removal.
  split; [intros [s|]; reflexivity|].
  split; [intros [| |id] Hb; [contradiction | reflexivity | reflexivity]|].
  split; [reflexivity|].
  subst out. rewrite deny_run. fold requester. fold channel.
  assert (Hdone : forall log',
            let after := {| Fanout.db := Redis.srem (Fanout.db w)
                                           (Fanout.userIncomingRequestsKey userId)
                                           idToDeny;
                            Fanout.log := log' |} in
            (idToDeny ∉ Redis.smembers (Fanout.db after)
                                       (Fanout.userIncomingRequestsKey userId))
            /\ (forall key, key <> Fanout.userIncomingRequestsKey userId ->
                  Redis.smembers (Fanout.db after) key
                  = Redis.smembers (Fanout.db w) key)).
  { intros log' after. subst after. cbn [Fanout.db]. split.
    - rewrite smembers_srem. intros H.
      apply elem_of_difference in H as (_ & H). apply H. now apply elem_of_singleton.
    - intros key Hkey. rewrite smembers_srem_at.
      now rewrite decide_False by congruence. }
  split.
  - intros Hrec Hno. destruct requester; [|contradiction]. now rewrite Hno.
  - intros Hok. destruct requester as [r|].
    + destruct Hok as [Hok|Hok]; [discriminate|]. rewrite Hok. cbn [fst snd].
      split; [reflexivity|].
      destruct (Hdone (Fanout.log w ++ [Fanout.Alone notice; Fanout.Alone removal])%list)
        as (Hgone & Hkeep).
      split; [exact Hgone|]. split; [exact Hkeep|].
      repeat split; reflexivity.
    + cbn [fst snd]. split; [reflexivity|].
      destruct (Hdone (Fanout.log w ++ [Fanout.Alone removal])%list) as (Hgone & Hkeep).
      split; [exact Hgone|]. split; [exact Hkeep|].
      repeat split; reflexivity.
Qed.

End DenyProps.

Lemma deny_rules_witness :
  Redis.users (Fanout.db SampleMembers.pending) !! Redis.userKey "a" <> None
  /\ "a" ∈ Redis.smembers (Fanout.db SampleMembers.pending)
                          (Fanout.userIncomingRequestsKey "b")
  /\ Fanout.run (Friends.deny SampleStore.P0 SampleStore.unheard (Some ("b", Some "Bob"))
                              (Friends.WithId "a"))
                SampleMembers.pending
     = (text_response "Invalid request" 400, SampleMembers.pending)
  /\ (Fanout.run (Friends.deny SampleStore.P0 SampleStore.B0 (Some ("b", Some "Bob"))
                               (Friends.WithId "a"))
                 SampleMembers.pending).1
     = text_response "OK" 200
  /\ ("a" ∉ Redis.smembers
              (Fanout.db
                 (Fanout.run (Friends.deny SampleStore.P0 SampleStore.B0
                                           (Some ("b", Some "Bob")) (Friends.WithId "a"))
                             SampleMembers.pending).2)
              (Fanout.userIncomingRequestsKey "b")).
Proof.
  assert (Hrec : Redis.users (Fanout.db SampleMembers.pending) !! Redis.userKey "a"
                 <> None) by discriminate.
  split; [exact Hrec|].
  split; [apply (bool_decide_unpack _); vm_compute; exact I|].
  destruct (deny_rules SampleStore.P0 SampleStore.unheard "b" (Some "Bob") "a"
              SampleMembers.pending) as (_ & _ & _ & H400 & _).
  destruct (deny_rules SampleStore.P0 SampleStore.B0 "b" (Some "Bob") "a"
              SampleMembers.pending) as (_ & _ & _ & _ & H200).
  destruct H200 as (Hok & Hgone & _); [right; reflexivity|].
  split; [apply H400; [exact Hrec | reflexivity]|].
  split; [exact Hok | exact Hgone].
Defined.

(** ** Two add-member requests at once *)

Lemma accepting_resolves B (cs : list Fanout.Call) :
  (forall channel event, accepts B channel event = true) ->
  forallb (Fanout.resolves B) cs = true.
Proof.
  intros Hall. induction cs as [|c cs IH]; [reflexivity|]. simpl. rewrite IH.
  destruct c; simpl; [reflexivity.. |]. now rewrite Hall.
Qed.

Section ConcurrentAdditions.
Variable P : Platform.
Variable B : Broker.
Import AddMemberOutcome.

(** The route is its read half followed by its write half. *)
Lemma add_member_phases session chatId memberId w :
  AddMember.POST P B session chatId memberId w
  = Fanout.bind (AddMemberPhases.reads P session chatId memberId)
                (fun r => AddMemberPhases.writes P B chatId memberId r.1 r.2) w.
Proof.
  unfold AddMember.POST, AddMemberPhases.reads, AddMemberPhases.writes.
  destruct session as [requesterId|]; [|reflexivity].
  unfold Fanout.bind, Fanout.reply_if, Fanout.reply, Fanout.ret, Fanout.read.
  destruct (falsy chatId || falsy memberId); [reflexivity|].
  destruct (Redis.chats (Fanout.db w) !! Redis.chatKey chatId) as [chat|];
    [|reflexivity].
  destruct (negb (includes (Chat.memberIds chat) requesterId)); [reflexivity|].
  destruct (includes (Chat.memberIds chat) memberId); [reflexivity|].
  destruct ((2 <=? length (Chat.memberIds chat))%nat
            && (String.length (trim P (Chat.name chat)) =? 0)%nat); reflexivity.
Qed.

Lemma add_member_reads requesterId chatId memberId chat w :
  Redis.chats (Fanout.db w) !! Redis.chatKey chatId = Some chat ->
  chatId <> "" -> memberId <> "" ->
  ~ rejecting P chat requesterId memberId ->
  AddMemberPhases.reads P (Some requesterId) chatId memberId w
  = (inr (chat, Redis.users (Fanout.db w) !! Redis.userKey memberId), w).
Proof.
  intros Hchat Hc Hm Hrej. unfold AddMemberPhases.reads.
  unfold Fanout.bind, Fanout.reply_if, Fanout.reply, Fanout.ret, Fanout.read.
  apply falsy_false in Hc, Hm. rewrite Hc, Hm. cbn [orb]. rewrite Hchat.
  rewrite add_member_guards in Hrej.
  destruct (negb (includes (Chat.memberIds chat) requesterId));
    [exfalso; apply Hrej; now left|].
  destruct (includes (Chat.memberIds chat) memberId);
    [exfalso; apply Hrej; right; now left|].
  destruct ((2 <=? length (Chat.memberIds chat))%nat
            && (String.length (trim P (Chat.name chat)) =? 0)%nat);
    [exfalso; apply Hrej; right; now right|].
  reflexivity.
Qed.

Lemma add_member_writes chatId memberId chat addedMember w :
  AddMemberPhases.writes P B chatId memberId chat addedMember w
  = (if forallb (Fanout.resolves B) (events P chat chatId memberId addedMember)
     then inr {| body := JsonChat (AddMember.updatedChat chat memberId);
                 status := 200 |}
     else inl (AddMember.caught B),
     started P B chat chatId memberId addedMember w).
Proof.
  unfold AddMemberPhases.writes.
  unfold Fanout.bind, Fanout.ret. rewrite await_all_run.
  unfold started, events, writes.
  cbn [foldl app Fanout.land List.filter forallb Fanout.resolves Chat.id Chat.memberIds
       AddMember.updatedChat Fanout.db Fanout.log andb].
  rewrite land_events.
  match goal with |- context [if ?c then inr tt else _] => destruct c end;
    reflexivity.
Qed.

(** X27: two add-member requests for different new members of a chat of
    at least two members, made at once as the add-friends dialog does, can
    lose a member.  When both requests have read the chat before either
    writes, the chat that stays stored holds only the member of the
    request that wrote last, and the other member's index still lists the
    chat; each request is answered 200 when the broker accepts its
    events (and both are when it accepts every call), and the writes take
    place also when it does not.  Handled one after the other, the same
    two requests store both members. *)
Theorem concurrent_additions_lose_a_member requesterId chatId m1 m2 chat w :
  Redis.chats (Fanout.db w) !! Redis.chatKey chatId = Some chat ->
  Chat.id chat = chatId ->
  chatId <> "" -> m1 <> "" -> m2 <> "" -> m1 <> m2 ->
  ~ rejecting P chat requesterId m1 ->
  ~ rejecting P chat requesterId m2 ->
  (2 <= length (Chat.memberIds chat))%nat ->
  let member1 := Redis.users (Fanout.db w) !! Redis.userKey m1 in
  let member2 := Redis.users (Fanout.db w) !! Redis.userKey m2 in
  (exists read1 read2 result1 result2 w1 w2,
     AddMemberPhases.reads P (Some requesterId) chatId m1 w = (inr read1, w)
     /\ AddMemberPhases.reads P (Some requesterId) chatId m2 w = (inr read2, w)
     /\ AddMemberPhases.writes P B chatId m1 read1.1 read1.2 w = (result1, w1)
     /\ AddMemberPhases.writes P B chatId m2 read2.1 read2.2 w1 = (result2, w2)
     /\ (forallb (Fanout.resolves B) (events P chat chatId m1 member1) = true ->
         exists answer1, result1 = inr answer1 /\ status answer1 = 200)
     /\ (forallb (Fanout.resolves B) (events P chat chatId m2 member2) = true ->
         exists answer2, result2 = inr answer2 /\ status answer2 = 200)
     /\ ((forall channel event, accepts B channel event = true) ->
         exists answer1 answer2,
           result1 = inr answer1 /\ result2 = inr answer2
           /\ status answer1 = 200 /\ status answer2 = 200)
     /\ Redis.chats (Fanout.db w2) !! Redis.chatKey chatId
        = Some (AddMember.updatedChat chat m2)
     /\ ~ In m1 (Chat.memberIds (AddMember.updatedChat chat m2))
     /\ (chatId ∈ Redis.smembers (Fanout.db w2) (Redis.userChatsKey m1))
     /\ (chatId ∈ Redis.smembers (Fanout.db w2) (Redis.userChatsKey m2)))
  /\ (let first :=
        Fanout.run (AddMember.POST P B (Some requesterId) chatId m1) w in
      let second :=
        Fanout.run (AddMember.POST P B (Some requesterId) chatId m2) first.2 in
      first.1 = answer P B chat chatId m1 member1
      /\ second.1 = answer P B (AddMember.updatedChat chat m1) chatId m2 member2
      /\ ((forall channel event, accepts B channel event = true) ->
          status first.1 = 200 /\ status second.1 = 200)
      /\ exists stored,
           Redis.chats (Fanout.db second.2) !! Redis.chatKey chatId = Some stored
           /\ Chat.memberIds stored = (Chat.memberIds chat ++ [m1; m2])%list).
Proof.
  intros Hchat Hid Hc Hm1 Hm2 Hne Hrej1 Hrej2 Hlen member1 member2.
  assert (Hnew1 : ~ In m1 (Chat.memberIds chat)).
  { intros Hin. apply Hrej1. right. now left. }
  assert (Hnew2 : ~ In m2 (Chat.memberIds chat)).
  { intros Hin. apply Hrej2. right. now left. }
  split.
  - eexists _, _, _, _, _, _.
    split; [exact (add_member_reads _ _ _ _ _ Hchat Hc Hm1 Hrej1)|].
    split; [exact (add_member_reads _ _ _ _ _ Hchat Hc Hm2 Hrej2)|].
    split; [apply add_member_writes|]. split; [apply add_member_writes|].
    cbn [fst snd]. fold member1. fold member2.
    change (Redis.users (Fanout.db (started P B chat chatId m1 member1 w))
            !! Redis.userKey m2) with member2.
    split; [intros ->; eexists; split; reflexivity|].
    split; [intros ->; eexists; split; reflexivity|].
    split.
    { intros Hall.
      rewrite !(accepting_resolves B _ Hall).
      eexists _, _. repeat split; reflexivity. }
    unfold started. cbn [Fanout.db].
    split.
    { rewrite Hid. apply lookup_insert_eq. }
    split.
    { simpl. intros Hin. apply in_app_or in Hin as [Hin|[Hin|[]]];
        [contradiction | congruence]. }
    rewrite Hid. split.
    + rewrite smembers_sadd.
      assert (H1 : chatId ∈ Redis.smembers
                     (Redis.set
                        (Redis.sadd
                           (Redis.set (Fanout.db w) (Redis.chatKey chatId)
                                      (AddMember.updatedChat chat m1))
                           (Redis.userChatsKey m1) chatId)
                        (Redis.chatKey chatId) (AddMember.updatedChat chat m2))
                     (Redis.userChatsKey m1)).
      { unfold Redis.smembers. simpl. rewrite lookup_insert_eq. simpl.
        apply elem_of_union_l, elem_of_singleton. reflexivity. }
      destruct (decide _); [apply elem_of_union; now right | exact H1].
    + rewrite smembers_sadd, decide_True by reflexivity.
      apply elem_of_union_l, elem_of_singleton. reflexivity.
  - intros first second.
    assert (Hfirst : first = (answer P B chat chatId m1 member1,
                              started P B chat chatId m1 member1 w)).
    { subst first. now apply add_member_passes. }
    assert (Hstored : Redis.chats (Fanout.db first.2) !! Redis.chatKey chatId
                      = Some (AddMember.updatedChat chat m1)).
    { rewrite Hfirst. simpl. rewrite Hid. apply lookup_insert_eq. }
    assert (Hrej : ~ rejecting P (AddMember.updatedChat chat m1) requesterId m2).
    { unfold rejecting. simpl. intros [H|[H|(_ & H)]].
      - apply H, in_or_app. left.
        destruct (includes (Chat.memberIds chat) requesterId) eqn:E;
          [now apply includes_In|].
        exfalso. apply Hrej1. left. now apply includes_not_In.
      - apply in_app_or in H as [H|[H|[]]]; [contradiction | congruence].
      - apply Hrej1. right. right. split; [exact Hlen | exact H]. }
    assert (Hsecond : second
                      = (answer P B (AddMember.updatedChat chat m1) chatId m2 member2,
                         started P B (AddMember.updatedChat chat m1) chatId m2 member2
                                 first.2)).
    { subst second. rewrite (add_member_passes P B _ _ _ _ _ Hstored Hc Hm2 Hrej).
      rewrite Hfirst. reflexivity. }
    split; [now rewrite Hfirst|]. split; [now rewrite Hsecond|].
    split.
    { intros Hall. rewrite Hfirst, Hsecond. cbn [fst]. unfold answer.
      rewrite !(accepting_resolves B _ Hall). split; reflexivity. }
    exists (AddMember.updatedChat (AddMember.updatedChat chat m1) m2). split.
    + rewrite Hsecond. simpl. rewrite Hid. apply lookup_insert_eq.
    + simpl. now rewrite <- app_assoc.
Qed.

End ConcurrentAdditions.

Lemma concurrent_additions_lose_a_member_witness :
  Redis.chats (Fanout.db SampleMembers.wide) !! Redis.chatKey "d1"
  = Some SampleMembers.duo
  /\ exists w1 w2 answer1 answer2,
       AddMemberPhases.writes SampleStore.P0 SampleStore.B0 "d1" "y" SampleMembers.duo
                              None SampleMembers.wide = (inr answer1, w1)
       /\ AddMemberPhases.writes SampleStore.P0 SampleStore.B0 "d1" "z"
                                 SampleMembers.duo None w1
          = (inr answer2, w2)
       /\ status answer1 = 200 /\ status answer2 = 200
       /\ Redis.chats (Fanout.db w2) !! Redis.chatKey "d1"
          = Some (AddMember.updatedChat SampleMembers.duo "z")
       /\ "d1" ∈ Redis.smembers (Fanout.db w2) (Redis.userChatsKey "y").
Proof.
  split; [reflexivity|].
  assert (Hrej : forall m, m <> "a" -> m <> "b" ->
            ~ AddMemberOutcome.rejecting SampleStore.P0 SampleMembers.duo "a" m).
  { intros m Ha Hb. unfold AddMemberOutcome.rejecting. simpl.
    intros [H|[H|(_ & H)]]; [apply H; now left | | discriminate].
    destruct H as [H|[H|[]]]; congruence. }
  destruct (concurrent_additions_lose_a_member SampleStore.P0 SampleStore.B0
              "a" "d1" "y" "z"
              SampleMembers.duo SampleMembers.wide eq_refl eq_refl)
    as ((read1 & read2 & result1 & result2 & w1 & w2
         & R1 & R2 & W1 & W2 & _ & _ & Hall & Hchat & _ & Hidx & _) & _);
    try discriminate.
  - apply Hrej; discriminate.
  - apply Hrej; discriminate.
  - simpl. lia.
  - destruct Hall as (answer1 & answer2 & E1 & E2 & H1 & H2); [reflexivity|].
    subst result1 result2.
    exists w1, w2, answer1, answer2.
    assert (E1 : read1 = (SampleMembers.duo, None))
      by (vm_compute in R1; now injection R1 as <-).
    assert (E2 : read2 = (SampleMembers.duo, None))
      by (vm_compute in R2; now injection R2 as <-).
    subst read1 read2.
    split; [exact W1|]. split; [exact W2|].
    split; [exact H1|]. split; [exact H2|]. split; [exact Hchat | exact Hidx].
Defined.

(** ** The calls of one [Promise.all] *)

Lemma event_independent channel event n c :
  Fanout.independent (Fanout.Publish channel event n) c
  /\ Fanout.independent c (Fanout.Publish channel event n).
Proof. split; intros d; reflexivity. Qed.

Lemma set_chat_independent key chat c :
  (forall key' chat', c <> Fanout.SetChat key' chat') ->
  Fanout.independent (Fanout.SetChat key chat) c
  /\ Fanout.independent c (Fanout.SetChat key chat).
Proof.
  intros Hc. destruct c as [k' c'| | |]; [now contradiction (Hc k' c')| | |];
    split; intros d; reflexivity.
Qed.

Lemma same_call_independent c : Fanout.independent c c.
Proof. intros d. reflexivity. Qed.

Lemma sadd_sadd_independent key1 member1 key2 member2 :
  Fanout.independent (Fanout.Sadd key1 member1) (Fanout.Sadd key2 member2).
Proof.
  intros d. cbn [Fanout.land]. unfold Redis.sadd. cbn [Redis.chats Redis.users
    Redis.sets Redis.zsets]. f_equal.
  unfold Redis.smembers. cbn [Redis.sets].
  destruct (decide (key1 = key2)) as [<-|Hne].
  - rewrite !lookup_insert_eq, !insert_insert_eq. cbn [default]. unfold id.
    assert (Hcomm : forall S : gset string,
              {[member2]} ∪ ({[member1]} ∪ S) = {[member1]} ∪ ({[member2]} ∪ S)).
    { intros S. apply set_eq. intros x. rewrite !elem_of_union. tauto. }
    now rewrite Hcomm.
  - rewrite !lookup_insert_ne by congruence. now apply insert_insert_ne.
Qed.

Lemma srem_srem_independent key1 member1 key2 member2 :
  Fanout.independent (Fanout.Srem key1 member1) (Fanout.Srem key2 member2).
Proof.
  intros d. cbn [Fanout.land].
  assert (Hsets : forall a b : Redis.Db,
            Redis.chats a = Redis.chats b -> Redis.users a = Redis.users b ->
            Redis.sets a = Redis.sets b -> Redis.zsets a = Redis.zsets b -> a = b).
  { intros [] []. cbn. now intros -> -> -> ->. }
  apply Hsets; try reflexivity.
  apply map_eq. intros i.
  assert (Hlook : forall e k m,
            Redis.sets (Redis.srem e k m) !! i
            = if decide (i = k)
              then (if decide (Redis.smembers e k ∖ {[m]} = ∅) then None
                    else Some (Redis.smembers e k ∖ {[m]}))
              else Redis.sets e !! i).
  { intros e k m. unfold Redis.srem. cbn [Redis.sets].
    destruct (decide (i = k)) as [->|Hik];
      destruct (decide (Redis.smembers e k ∖ {[m]} = ∅)).
    - apply lookup_delete_eq.
    - apply lookup_insert_eq.
    - now apply lookup_delete_ne.
    - now apply lookup_insert_ne. }
  rewrite !Hlook.
  destruct (decide (i = key1)) as [E1|H1], (decide (i = key2)) as [E2|H2].
  - subst key1 key2. rewrite !smembers_srem.
    assert (Hcomm : Redis.smembers d i ∖ {[member1]} ∖ {[member2]}
                    = Redis.smembers d i ∖ {[member2]} ∖ {[member1]}).
    { apply set_eq. intros x. rewrite !elem_of_difference. tauto. }
    rewrite Hcomm. reflexivity.
  - subst key1. rewrite smembers_srem_at.
    destruct (decide (key2 = i)); [congruence | reflexivity].
  - subst key2. rewrite smembers_srem_at.
    destruct (decide (key1 = i)); [congruence | reflexivity].
  - reflexivity.
Qed.

Lemma unordered_cons c cs :
  Fanout.unordered cs -> (forall c', In c' cs -> Fanout.independent c c'
                                               /\ Fanout.independent c' c) ->
  Fanout.unordered (c :: cs).
Proof.
  intros Hcs Hc c1 c2 [<-|H1] [<-|H2].
  - apply same_call_independent.
  - now apply Hc.
  - now apply Hc.
  - now apply Hcs.
Qed.

Lemma events_unordered {A} (channel event : A -> string) (n : A -> Fanout.Notice)
    (xs : list A) :
  Fanout.unordered (map (fun x => Fanout.Publish (channel x) (event x) (n x)) xs).
Proof.
  intros c1 c2 H1 _. apply in_map_iff in H1 as (x & <- & _).
  apply event_independent.
Qed.

Lemma unordered_with_events cs es :
  Fanout.unordered cs ->
  (forall e, In e es -> exists channel event n, e = Fanout.Publish channel event n) ->
  Fanout.unordered (cs ++ es).
Proof.
  intros Hcs Hes c1 c2 H1 H2.
  apply in_app_or in H1 as [H1|H1]; apply in_app_or in H2 as [H2|H2].
  - now apply Hcs.
  - destruct (Hes _ H2) as (ch & ev & n & ->). apply event_independent.
  - destruct (Hes _ H1) as (ch & ev & n & ->). apply event_independent.
  - destruct (Hes _ H1) as (ch & ev & n & ->). apply event_independent.
Qed.

Lemma land_permutation cs cs' :
  Permutation cs cs' -> Fanout.unordered cs ->
  forall d, foldl Fanout.land d cs = foldl Fanout.land d cs'.
Proof.
  induction 1 as [|x l l' Hp IH|x y l|l l' l'' H1 IH1 H2 IH2]; intros Hun d.
  - reflexivity.
  - cbn [foldl]. apply IH. intros c1 c2 Hc1 Hc2. apply Hun; now right.
  - cbn [foldl]. f_equal. apply (Hun y x); [now left | right; now left].
  - rewrite IH1 by exact Hun. apply IH2.
    intros c1 c2 Hc1 Hc2.
    apply Hun; [exact (Permutation_in _ (Permutation_sym H1) Hc1)
               | exact (Permutation_in _ (Permutation_sym H1) Hc2)].
Qed.

Lemma forallb_permutation {A} (f : A -> bool) l l' :
  Permutation l l' -> forallb f l = forallb f l'.
Proof.
  induction 1 as [|x l l' Hp IH|x y l|l l' l'' H1 IH1 H2 IH2]; cbn [forallb].
  - reflexivity.
  - now rewrite IH.
  - now destruct (f x), (f y).
  - now rewrite IH1.
Qed.

Lemma filter_permutation {A} (f : A -> bool) l l' :
  Permutation l l' -> Permutation (List.filter f l) (List.filter f l').
Proof.
  induction 1 as [|x l l' Hp IH|x y l|l l' l'' H1 IH1 H2 IH2]; cbn [List.filter].
  - constructor.
  - destruct (f x); [now constructor | exact IH].
  - destruct (f x), (f y); try reflexivity. constructor.
  - now transitivity (List.filter f l').
Qed.

(** X30: the calls of one [Promise.all] may reach the store and the
    broker in any order.  For a batch whose calls are independent two by
    two, every rearrangement of the array gives the same answer and the
    same store, and publishes the same events; and the arrays of the
    remove-member, rename, add-member, remove-friend and create routes
    are such batches, whatever the chat, the ids and the platform. *)
Theorem promise_all_order_is_irrelevant (P : Platform) (B : Broker) :
  (forall caught cs cs' w,
     Fanout.unordered cs -> Permutation cs cs' ->
     (Fanout.await_all B caught cs' w).1 = (Fanout.await_all B caught cs w).1
     /\ Fanout.db (Fanout.await_all B caught cs' w).2
        = Fanout.db (Fanout.await_all B caught cs w).2
     /\ exists batch batch',
          Fanout.log (Fanout.await_all B caught cs w).2
          = (Fanout.log w ++ [Fanout.Together batch])%list
          /\ Fanout.log (Fanout.await_all B caught cs' w).2
             = (Fanout.log w ++ [Fanout.Together batch'])%list
          /\ Permutation batch batch')
  /\ (forall chat chatId memberId,
        Fanout.unordered (RemoveMemberOutcome.writes chat chatId memberId
                          ++ RemoveMemberOutcome.events P chat chatId memberId))
  /\ (forall chat trimmedName,
        Fanout.unordered
          (Fanout.SetChat (Redis.chatKey (Chat.id chat))
                          (SetName.renamed chat trimmedName)
           :: SetNameOutcome.events P chat trimmedName))
  /\ (forall chat chatId memberId addedMember,
        Fanout.unordered (AddMemberOutcome.writes chat memberId
                          ++ AddMemberOutcome.events P chat chatId memberId
                                                     addedMember))
  /\ (forall userId idToRemove,
        Fanout.unordered (FriendsOutcome.writes userId idToRemove
                          ++ FriendsOutcome.events P userId idToRemove))
  /\ (forall requesterId chat,
        Fanout.unordered (CreateChatOutcome.indexing chat)
        /\ Fanout.unordered (CreateChatOutcome.events P requesterId chat)).
Proof.
  assert (Hevents : forall {A} (f : A -> Fanout.Call) (xs : list A),
            (forall x, exists channel event n, f x = Fanout.Publish channel event n) ->
            forall e, In e (map f xs) ->
                      exists channel event n, e = Fanout.Publish channel event n).
  { intros A f xs Hf e He. apply in_map_iff in He as (x & <- & _). apply Hf. }
  split.
  { intros caught cs cs' w Hun Hp. rewrite !await_all_run. cbn [fst snd Fanout.db
      Fanout.log].
    split; [now rewrite (forallb_permutation _ _ _ Hp)|].
    split; [symmetry; now apply land_permutation|].
    eexists _, _. split; [reflexivity|]. split; [reflexivity|].
    now apply filter_permutation. }
  split.
  { intros chat chatId memberId. apply unordered_with_events.
    - apply unordered_cons.
      + apply unordered_cons; [intros c1 c2 []|intros c' []].
      + intros c' [<-|[]]. apply set_chat_independent. discriminate.
    - intros e [<-|[<-|He]]; [now eexists _, _, _ ..|].
      revert e He. apply Hevents. intros x. now eexists _, _, _. }
  split.
  { intros chat trimmedName. apply unordered_cons.
    - unfold SetNameOutcome.events.
      change (Fanout.unordered
                ([] ++ Fanout.Publish
                         (toPusherKey P (Redis.chatKey (Chat.id chat)))
                         "chat_name_updated"
                         (Fanout.Known
                            (PChatEvent (Chat.id chat)
                                        (SetName.renamed chat trimmedName)))
                       :: map (fun m =>
                                 Fanout.Publish
                                   (toPusherKey P (Redis.userChatsKey m)) "chat_updated"
                                   (Fanout.Known
                                      (PChatEvent (Chat.id chat)
                                                  (SetName.renamed chat trimmedName))))
                              (Chat.memberIds chat))).
      apply unordered_with_events; [intros c1 c2 []|].
      intros e [<-|He]; [now eexists _, _, _|].
      revert e He. apply Hevents. intros x. now eexists _, _, _.
    - intros c' [<-|He]; [split; apply event_independent|].
      apply in_map_iff in He as (x & <- & _). split; apply event_independent. }
  split.
  { intros chat chatId memberId addedMember. apply unordered_with_events.
    - apply unordered_cons.
      + apply unordered_cons; [intros c1 c2 []|intros c' []].
      + intros c' [<-|[]]. apply set_chat_independent. discriminate.
    - intros e [<-|[<-|He]]; [now eexists _, _, _ ..|].
      revert e He. apply Hevents. intros x. now eexists _, _, _. }
  split.
  { intros userId idToRemove. apply unordered_with_events.
    - apply unordered_cons.
      + apply unordered_cons; [intros c1 c2 []|intros c' []].
      + intros c' [<-|[]]. split; apply srem_srem_independent.
    - intros e [<-|[<-|[]]]; now eexists _, _, _. }
  intros requesterId chat. split.
  - intros c1 c2 H1 H2. unfold CreateChatOutcome.indexing in *.
    apply in_map_iff in H1 as (m1 & <- & _). apply in_map_iff in H2 as (m2 & <- & _).
    apply sadd_sadd_independent.
  - intros c1 c2 H1 _. unfold CreateChatOutcome.events in H1.
    assert (Hc1 : exists channel event n, c1 = Fanout.Publish channel event n).
    { apply in_app_or in H1 as [H1|H1].
      - revert c1 H1. apply Hevents. intros x. now eexists _, _, _.
      - apply in_app_or in H1 as [H1|[<-|[]]]; [|now eexists _, _, _].
        revert c1 H1. apply Hevents. intros x. now eexists _, _, _. }
    destruct Hc1 as (ch & ev & n & ->). apply event_independent.
Qed.

(** ** Editing keeps the place of a message *)

Lemma zinsert_between P score member before after :
  (forall e, In e before -> fst e < score) ->
  (forall e, In e after -> score < fst e) ->
  Redis.zinsert P score member (before ++ after)
  = (before ++ (score, member) :: after)%list.
Proof.
  intros Hb Ha. induction before as [|[s m] before IH]; simpl.
  - destruct after as [|[s m] after]; [reflexivity|]. simpl.
    assert ((score <? s) = true) as ->
      by (apply Z.ltb_lt; apply (Ha (s, m)); now left).
    reflexivity.
  - assert (s < score) by (apply (Hb (s, m)); now left).
    assert ((score <? s) = false) as -> by (apply Z.ltb_ge; lia).
    assert ((score =? s) = false) as -> by (apply Z.eqb_neq; lia).
    simpl. rewrite IH; [reflexivity|]. intros e He. apply Hb. now right.
Qed.

Lemma zdrop_app member l1 l2 :
  Redis.zdrop member (l1 ++ l2) = (Redis.zdrop member l1 ++ Redis.zdrop member l2)%list.
Proof. unfold Redis.zdrop. apply List.filter_app. Qed.

Lemma findMessage_skips (before : list Message.t) m rest messageId :
  (forall x, In x before -> Message.id x <> messageId) ->
  Message.id m = messageId ->
  EditMessage.findMessage (before ++ m :: rest) messageId = Some m.
Proof.
  intros Hb Hm. unfold EditMessage.findMessage.
  induction before as [|x before IH]; simpl.
  - rewrite Hm, streq_refl. reflexivity.
  - assert (streq (Message.id x) messageId = false) as ->
      by (apply streq_false, Hb; now left).
    apply IH. intros y Hy. apply Hb. now right.
Qed.

Section EditPositionProps.
Variable P : Platform.

(** X28: an accepted edit leaves the message where it is in the log.
    When the message is stored at the score of its timestamp, the entries
    before it have smaller scores, those after it larger ones, and no
    other entry has its id, the log after the edit is the same sequence
    with the text of that one entry changed, and so is the history the
    page reads back. *)
Theorem edit_keeps_position senderId messageId chatId text before after original w :
  EditOutcome.entries (db w) chatId
  = (before ++ (Message.timestamp original, original) :: after)%list ->
  Message.id original = messageId ->
  (forall e, In e before ->
             fst e < Message.timestamp original /\ Message.id (snd e) <> messageId) ->
  (forall e, In e after ->
             Message.timestamp original < fst e /\ Message.id (snd e) <> messageId) ->
  let out := run (EditMessage.POST P (Some senderId) messageId chatId text) w in
  status out.1 = 200 ->
  EditOutcome.entries (db out.2) chatId
  = (before
     ++ (Message.timestamp original, EditMessage.withText original (trim P text))
        :: after)%list
  /\ ChatHistory.getChatMessages (db out.2) chatId
     = (rev (map snd after)
        ++ EditMessage.withText original (trim P text) :: rev (map snd before))%list
  /\ length (ChatHistory.getChatMessages (db out.2) chatId)
     = length (ChatHistory.getChatMessages (db w) chatId).
Proof.
  intros Hentries Hid Hbefore Hafter out H200.
  assert (Hfound : EditMessage.findMessage
                     (Redis.zrange_all (db w) (Redis.chatMessagesKey chatId)) messageId
                   = Some original).
  { unfold Redis.zrange_all. fold (EditOutcome.entries (db w) chatId).
    rewrite Hentries, map_app. simpl. apply findMessage_skips; [|exact Hid].
    intros x Hx. apply in_map_iff in Hx as (e & <- & He). now apply Hbefore. }
  assert (Hafter_edit :
            EditOutcome.entries (db out.2) chatId
            = (before
               ++ (Message.timestamp original,
                   EditMessage.withText original (trim P text)) :: after)%list).
  { subst out. rewrite edit_run in *.
    destruct (falsy messageId || falsy chatId || falsy text); [discriminate|].
    destruct (String.length (trim P text) =? 0)%nat; [discriminate|].
    destruct (Redis.chats (db w) !! Redis.chatKey chatId) as [chat|]; [|discriminate].
    destruct (negb (includes (Chat.memberIds chat) senderId)); [discriminate|].
    rewrite Hfound in *.
    destruct (negb (streq (Message.senderId original) senderId)); [discriminate|].
    rewrite edited_entries, Hentries.
    assert (Hdrop : forall member, Message.id member = messageId ->
              Redis.zdrop member (before ++ after) = (before ++ after)%list).
    { intros member Hmember. apply zdrop_absent. intros e He Heq.
      apply in_app_or in He as [He|He];
        [apply Hbefore in He | apply Hafter in He];
        destruct He as (_ & He); apply He; now rewrite Heq. }
    assert (Horig : Redis.zdrop original
                      (before ++ (Message.timestamp original, original) :: after)
                    = (before ++ after)%list).
    { change ((Message.timestamp original, original) :: after)
        with ([(Message.timestamp original, original)] ++ after)%list.
      rewrite app_assoc, zdrop_app, zdrop_app.
      assert (Redis.zdrop original [(Message.timestamp original, original)] = [])
        as ->.
      { unfold Redis.zdrop. simpl. now rewrite bool_decide_eq_true_2. }
      rewrite app_nil_r, <- zdrop_app. now apply Hdrop. }
    rewrite Horig, Hdrop by exact Hid.
    apply zinsert_between; intros e He; [now apply Hbefore | now apply Hafter]. }
  split; [exact Hafter_edit|].
  unfold ChatHistory.getChatMessages, Redis.zrange_all.
  fold (EditOutcome.entries (db out.2) chatId).
  fold (EditOutcome.entries (db w) chatId).
  rewrite Hafter_edit, Hentries, !map_app. simpl.
  rewrite !rev_app_distr. simpl. rewrite <- !app_assoc. simpl.
  split; [reflexivity|].
  rewrite !length_app. reflexivity.
Qed.

End EditPositionProps.

Lemma edit_keeps_position_witness :
  EditOutcome.entries (db SampleHistory.withTwo) "c2"
  = [ (1000, SampleSend.hello); (2000, SampleHistory.again) ]
  /\ EditOutcome.entries
       (db (run (EditMessage.POST SampleStore.P0 (Some "a") "m1" "c2" "hello!")
                SampleHistory.withTwo).2) "c2"
     = [ (1000, EditMessage.withText SampleSend.hello "hello!");
         (2000, SampleHistory.again) ].
Proof.
  split; [vm_compute; reflexivity|].
  apply (edit_keeps_position SampleStore.P0 "a" "m1" "c2" "hello!" []
           [(2000, SampleHistory.again)] SampleSend.hello SampleHistory.withTwo).
  - vm_compute. reflexivity.
  - reflexivity.
  - intros e [].
  - intros e [<-|[]]. simpl. split; [lia | discriminate].
  - vm_compute. reflexivity.
Defined.

(** ** A message notification for a chat the sidebar does not list *)

Section SidebarMessageProps.
Import Sidebar.

Lemma chatUpdateHandler_unknown prev data :
  chatExists prev (chatId data) = false -> chatUpdateHandler prev data = prev.
Proof.
  unfold chatExists, chatUpdateHandler. induction prev as [|a prev IH]; simpl;
    [reflexivity|].
  intros H. apply orb_false_iff in H as (Ha & Hp). rewrite Ha. f_equal. now apply IH.
Qed.

Lemma chatUpdateHandler_app prev item data :
  chatUpdateHandler (prev ++ [item]) data
  = (chatUpdateHandler prev data ++ chatUpdateHandler [item] data)%list.
Proof. unfold chatUpdateHandler. apply map_app. Qed.

(** X29: a [new_message] notification for a chat id the sidebar does not
    list adds, outside the groups view, one entry that is a DirectMessage of
    the viewer and the sender, labelled with the sender's name, whatever
    the chat of that id is; a listed id, and the groups view, leave the
    list as it is, and the handler is idempotent.  When the id is that of a
    group, a later [chat_updated] event turns the added entry into the
    group under its name, in the same list. *)
Theorem new_message_lists_unknown_chat sessionId viewType (prev : list Item)
    messageChatId senderId senderName :
  let next := chatHandler sessionId viewType prev messageChatId senderId senderName in
  let added := {| chat := {| Chat.id := messageChatId; Chat.name := SENTINEL;
                             Chat.memberIds := [sessionId; senderId];
                             Chat.createdAt := None |};
                  displayName := senderName |} in
  (chatExists prev messageChatId = true -> next = prev)
  /\ (viewType = Some groups -> next = prev)
  /\ (chatExists prev messageChatId = false -> viewType <> Some groups ->
        next = (prev ++ [added])%list
        /\ Classify.isIndividualChat (chat added) = true
        /\ forall group,
             Classify.isIndividualChat group = false ->
             chatUpdateHandler next {| chatId := messageChatId; payload := group |}
             = (prev ++ [ {| chat := group; displayName := Chat.name group |} ])%list)
  /\ chatHandler sessionId viewType next messageChatId senderId senderName = next.
Proof.
  intros next added.
  assert (Hnew : chatExists prev messageChatId = false -> viewType <> Some groups ->
                 next = (prev ++ [added])%list).
  { intros Hk Hv. subst next. unfold chatHandler. rewrite Hk.
    destruct viewType as [[|]|]; [reflexivity | congruence | reflexivity]. }
  split; [|split; [|split]].
  - intros Hk. subst next. unfold chatHandler. now rewrite Hk.
  - intros ->. subst next. unfold chatHandler.
    now destruct (chatExists prev messageChatId).
  - intros Hk Hv. split; [now apply Hnew|]. split; [reflexivity|].
    intros group Hgroup. rewrite (Hnew Hk Hv), chatUpdateHandler_app.
    rewrite chatUpdateHandler_unknown by exact Hk.
    unfold chatUpdateHandler. simpl. rewrite streq_refl, Hgroup. reflexivity.
  - destruct (chatExists prev messageChatId) eqn:Hk.
    + subst next. unfold chatHandler. rewrite Hk. now rewrite Hk.
    + assert (Hv : viewType = Some groups \/ viewType <> Some groups).
      { destruct viewType as [[|]|]; [right | left | right];
          (reflexivity || discriminate). }
      destruct Hv as [->|Hv].
      * subst next. unfold chatHandler. rewrite Hk. now rewrite Hk.
      * rewrite (Hnew eq_refl Hv). unfold chatHandler.
        rewrite chatExists_app. simpl. now rewrite streq_refl, orb_true_r.
Qed.

End SidebarMessageProps.

Lemma new_message_lists_unknown_chat_witness :
  Sidebar.chatExists SampleSidebar.shown "A" = false
  /\ Sidebar.chatUpdateHandler
       (Sidebar.chatHandler "a" (Some Sidebar.chats) SampleSidebar.shown "A" "b" "Bob")
       {| Sidebar.chatId := "A"; Sidebar.payload := Layout.chat SampleLayout.groupA |}
     = [ {| Sidebar.chat := SampleStore.trio; Sidebar.displayName := "Study Group" |};
         {| Sidebar.chat := Layout.chat SampleLayout.groupA;
            Sidebar.displayName := "Group A" |} ].
Proof.
  split; [reflexivity|].
  destruct (new_message_lists_unknown_chat "a" (Some Sidebar.chats) SampleSidebar.shown
              "A" "b" "Bob") as (_ & _ & H & _).
  destruct H as (_ & _ & H); [reflexivity | discriminate |].
  apply (H (Layout.chat SampleLayout.groupA)). reflexivity.
Defined.
